(** * Tag-enrichment pipeline of navidrome: a shallow embedding

    The development follows the Go packages of the repository:

    - [GoStrings]      the functions of Go's [strings] package the skip
                       policies use ([ToLower], [HasPrefix]);
    - [audio]          core/audio/analyzer.go, the energy classifier;
    - [Go], [model]    errors and results, and the media-file record;
    - [world]          the calls that leave the process, and the state monad
                       the embedded functions run in;
    - [taglib]         the Go side of the tag reader and writer;
    - [trackanalysis]  the track-metrics HTTP client with its retry loop;
    - [lyrics]         the Genius lyrics provider;
    - [nativeapi], [nativeapi_lyrics], [nativeapi_trackdata],
      [nativeapi_song_tag]
                       server/nativeapi: the batch orchestrators
                       (lyrics.go, trackdata.go) and the tag handlers
                       (song_tag.go);
    - [sim]            a small concrete world, for the examples;
    - [stages]         names for the parts of the per-file processing.

    Everything outside the process (the C tag library, the HTTP upstream,
    the lookup script, the data store, the clock, the caller's context) is
    a primitive of the world the code runs in: a function from the world
    to a result and a new world.  The embedded functions thread the world
    through their calls and keep a log of the calls they make.  The
    theorems hold for every world and every behaviour of its primitives. *)

From Stdlib Require Import ZArith Floats Ascii String List Lia Bool.
From stdpp Require Import base option list gmap strings pretty.

Set Warnings "-inexact-float".

Local Open Scope string_scope.
Local Open Scope Z_scope.

(* ===================================================================== *)
(** ** Go's [strings] package, on byte strings *)
(* ===================================================================== *)

Module GoStrings.

(** A Go string is a sequence of bytes; [string] is the same thing here.
    On bytes below 128 [ToLower] is what Go computes: the letters 'A'..'Z'
    move to 'a'..'z' and every other byte stays.  Tag names are ASCII; for
    runes outside ASCII Go applies the Unicode case table, which this
    embedding leaves as the identity. *)
Definition lowerByte (c : ascii) : ascii :=
  let n := nat_of_ascii c in
  if (Nat.leb 65 n && Nat.leb n 90)%bool then ascii_of_nat (n + 32) else c.

Fixpoint ToLower (s : string) : string :=
  match s with
  | EmptyString => EmptyString
  | String c rest => String (lowerByte c) (ToLower rest)
  end.

(** [HasPrefix s prefix]:
    [len(s) >= len(prefix) && s[:len(prefix)] == prefix]. *)
Fixpoint HasPrefix (s prefix : string) : bool :=
  match prefix, s with
  | EmptyString, _ => true
  | String _ _, EmptyString => false
  | String p prefix', String c s' =>
      if Ascii.eqb c p then HasPrefix s' prefix' else false
  end.

End GoStrings.

(* ===================================================================== *)
(** ** core/audio/analyzer.go: the energy classifier *)
(* ===================================================================== *)

Module audio.

(** [float64] is IEEE 754 binary64, that is Rocq's primitive [float];
    a decimal constant denotes the nearest binary64 value in both. *)
Record AudioMetrics := {
  BPM : float;
  BeatsLoudness : float;
  AverageLoudness : float;
  Danceability : float
}.

Record ScoreBreakdown := {
  BPMScore : Z;
  BeatsScore : Z;
  LoudnessScore : Z;
  DanceabilityScore : Z;
  TotalScore : Z
}.

(** Go's [a >= b] on float64: false as soon as one side is NaN. *)
Definition fge (a b : float) : bool := PrimFloat.leb b a.

Definition set_BPMScore (v : Z) (b : ScoreBreakdown) : ScoreBreakdown :=
  {| BPMScore := v; BeatsScore := BeatsScore b;
     LoudnessScore := LoudnessScore b;
     DanceabilityScore := DanceabilityScore b; TotalScore := TotalScore b |}.
Definition set_BeatsScore (v : Z) (b : ScoreBreakdown) : ScoreBreakdown :=
  {| BPMScore := BPMScore b; BeatsScore := v;
     LoudnessScore := LoudnessScore b;
     DanceabilityScore := DanceabilityScore b; TotalScore := TotalScore b |}.
Definition set_LoudnessScore (v : Z) (b : ScoreBreakdown) : ScoreBreakdown :=
  {| BPMScore := BPMScore b; BeatsScore := BeatsScore b;
     LoudnessScore := v;
     DanceabilityScore := DanceabilityScore b; TotalScore := TotalScore b |}.
Definition set_DanceabilityScore (v : Z) (b : ScoreBreakdown) : ScoreBreakdown :=
  {| BPMScore := BPMScore b; BeatsScore := BeatsScore b;
     LoudnessScore := LoudnessScore b;
     DanceabilityScore := v; TotalScore := TotalScore b |}.
Definition set_TotalScore (v : Z) (b : ScoreBreakdown) : ScoreBreakdown :=
  {| BPMScore := BPMScore b; BeatsScore := BeatsScore b;
     LoudnessScore := LoudnessScore b;
     DanceabilityScore := DanceabilityScore b; TotalScore := v |}.

(** [classifyEnergy]: the zero-valued breakdown is filled field by field,
    each [switch] taking its first true case. *)
Definition classifyEnergy (metrics : AudioMetrics) : string * ScoreBreakdown :=
  let breakdown :=
    {| BPMScore := 0; BeatsScore := 0; LoudnessScore := 0;
       DanceabilityScore := 0; TotalScore := 0 |} in
  (* BPM contribution *)
  let breakdown :=
    if fge (BPM metrics) 130 then set_BPMScore 3 breakdown
    else if fge (BPM metrics) 110 then set_BPMScore 2 breakdown
    else if fge (BPM metrics) 85 then set_BPMScore 1 breakdown
    else breakdown in
  (* Beat strength contribution *)
  let breakdown :=
    if fge (BeatsLoudness metrics) 0.7 then set_BeatsScore 2 breakdown
    else if fge (BeatsLoudness metrics) 0.4 then set_BeatsScore 1 breakdown
    else breakdown in
  (* Loudness contribution *)
  let breakdown :=
    if fge (AverageLoudness metrics) 0.8 then set_LoudnessScore 1 breakdown
    else breakdown in
  (* Danceability boost *)
  let breakdown :=
    if fge (Danceability metrics) 0.7 then set_DanceabilityScore 1 breakdown
    else breakdown in
  let breakdown :=
    set_TotalScore
      (BPMScore breakdown + BeatsScore breakdown
       + LoudnessScore breakdown + DanceabilityScore breakdown) breakdown in
  (* Classify based on score *)
  let energy :=
    if TotalScore breakdown >=? 5 then "high"
    else if TotalScore breakdown >=? 2 then "medium"
    else "low" in
  (energy, breakdown).

(** The scoring table as the specification words it. *)
Definition bpmPoints (x : float) : Z :=
  if fge x 130 then 3 else if fge x 110 then 2 else if fge x 85 then 1 else 0.
Definition beatPoints (x : float) : Z :=
  if fge x 0.7 then 2 else if fge x 0.4 then 1 else 0.
Definition loudnessPoints (x : float) : Z := if fge x 0.8 then 1 else 0.
Definition dancePoints (x : float) : Z := if fge x 0.7 then 1 else 0.
Definition labelOf (total : Z) : string :=
  if 5 <=? total then "high" else if 2 <=? total then "medium" else "low".

End audio.

(* ===================================================================== *)
(** ** Go values shared by the packages *)
(* ===================================================================== *)

Module Go.

(** An [error] value: created by [errors.New] or by [fmt.Errorf] without
    [%w], or wrapping a cause with [fmt.Errorf("...%w", err)].  Sentinel
    errors are told apart by their text, which is distinct for each. *)
Inductive error :=
| ErrNew (msg : string)
| ErrWrap (msg : string) (cause : error).

Fixpoint error_eqb (a b : error) : bool :=
  match a, b with
  | ErrNew m, ErrNew n => String.eqb m n
  | ErrWrap m c, ErrWrap n d => String.eqb m n && error_eqb c d
  | _, _ => false
  end.

(** [err.Error()] *)
Fixpoint Error (e : error) : string :=
  match e with
  | ErrNew msg => msg
  | ErrWrap msg cause => msg ++ Error cause
  end.

(** [errors.Is(err, target)]: [target] is somewhere on the chain. *)
Fixpoint errors_Is (err target : error) : bool :=
  error_eqb err target ||
  match err with
  | ErrNew _ => false
  | ErrWrap _ cause => errors_Is cause target
  end.

(** A Go result pair [(value, err)]: [inl] when [err == nil]. *)
Abbreviation result A := (sum A error).

(** Two's complement wrap-around of [int64] arithmetic. *)
Definition wrap64 (z : Z) : Z :=
  (z + 2 ^ 63) mod 2 ^ 64 - 2 ^ 63.

(** [strconv.Itoa] and [%d] *)
Definition Itoa (z : Z) : string := pretty z.

(** ASCII white space, as trimmed by [strings.TrimSpace]. *)
Definition isSpace (c : ascii) : bool :=
  let n := nat_of_ascii c in
  (Nat.eqb n 32 || (Nat.leb 9 n && Nat.leb n 13))%bool.

Fixpoint trimLeft (s : string) : string :=
  match s with
  | String c rest => if isSpace c then trimLeft rest else s
  | EmptyString => EmptyString
  end.

Fixpoint trimRight (s : string) : string :=
  match s with
  | EmptyString => EmptyString
  | String c rest =>
      match trimRight rest with
      | EmptyString => if isSpace c then EmptyString else String c EmptyString
      | kept => String c kept
      end
  end.

Definition TrimSpace (s : string) : string := trimRight (trimLeft s).

(** [strings.TrimPrefix] *)
Definition TrimPrefix (s prefix : string) : string :=
  if GoStrings.HasPrefix s prefix
  then String.substring (String.length prefix)
                        (String.length s - String.length prefix)%nat s
  else s.

End Go.
Export Go.

(* ===================================================================== *)
(** ** package model: the record of a media file *)
(* ===================================================================== *)

Module model.

(** [model.Tags] is [map[TagName][]string]; a nil map is [None].  Of the
    fields of [model.MediaFile] these are the ones the pipeline touches. *)
Record MediaFile := {
  ID : string;
  LibraryPath : string;
  Path : string;
  Artist : string;
  Title : string;
  Tags : option (gmap string (list string));
  Lyrics : string;
  UpdatedAt : Z
}.

Definition set_Tags (t : option (gmap string (list string))) (mf : MediaFile) :=
  {| ID := ID mf; LibraryPath := LibraryPath mf; Path := Path mf;
     Artist := Artist mf; Title := Title mf; Tags := t;
     Lyrics := Lyrics mf; UpdatedAt := UpdatedAt mf |}.
Definition set_Lyrics (l : string) (mf : MediaFile) :=
  {| ID := ID mf; LibraryPath := LibraryPath mf; Path := Path mf;
     Artist := Artist mf; Title := Title mf; Tags := Tags mf;
     Lyrics := l; UpdatedAt := UpdatedAt mf |}.
Definition set_UpdatedAt (t : Z) (mf : MediaFile) :=
  {| ID := ID mf; LibraryPath := LibraryPath mf; Path := Path mf;
     Artist := Artist mf; Title := Title mf; Tags := Tags mf;
     Lyrics := Lyrics mf; UpdatedAt := t |}.

(** The sentinel [model.ErrNotFound]; only its identity matters. *)
Definition ErrNotFound : error := ErrNew "data not found".


End model.
Export model.

(* ===================================================================== *)
(** ** The world outside the process, and the monad that threads it *)
(* ===================================================================== *)

Module world.

(** One entry per call that leaves the process, or that enters a provider. *)
Inductive Event :=
| EvTaglibRead (filename : string)
| EvOpenFile (filename : string)
| EvTaglibWriteTag (filename tagName tagValue : string)
| EvTaglibWriteLyrics (filename lang text : string)
| EvFetchTrackData (artist title : string)
| EvHttpDo (url : string)
| EvBackoff (nanoseconds : Z)
| EvFetchFromGenius (mf : MediaFile)
| EvGeniusScript (artist title : string)
| EvGet (id : string)
| EvGetAll (albumID : string)
| EvGetWithTracks (playlistID : string)
| EvPut (mf : MediaFile)
| EvNow.

Section monad.
Context {W : Type}.

Record State := { world : W; log : list Event }.

Definition M (A : Type) : Type := State -> A * State.

Definition ret {A} (a : A) : M A := fun st => (a, st).

Definition bind {A B} (m : M A) (k : A -> M B) : M B :=
  fun st => let (a, st') := m st in k a st'.

(** A call of a primitive: the world moves on, the call is logged. *)
Definition call {A} (ev : Event) (prim : W -> A * W) : M A :=
  fun st =>
    let (a, w') := prim (world st) in
    (a, {| world := w'; log := (log st ++ [ev])%list |}).

(** A mark in the log. *)
Definition tell (ev : Event) : M unit :=
  fun st => (tt, {| world := world st; log := (log st ++ [ev])%list |}).

Definition start (w : W) : State := {| world := w; log := [] |}.
End monad.

Arguments State : clear implicits.
Arguments M : clear implicits.

End world.
Export world.

Notation "x <- c ;; k" := (bind c (fun x => k))
  (at level 100, c at next level, right associativity).
Notation "c ;;; k" := (bind c (fun _ => k))
  (at level 100, right associativity).

(* ===================================================================== *)
(** ** package taglib: the Go side of the tag reader and writer *)
(* ===================================================================== *)

Module taglib.

Definition iTunesKeyPrefix : string := "----:com.apple.itunes:".

(** What a C call through cgo can do: return, or fault, which
    [debug.SetPanicOnFault] turns into a panic the caller recovers. *)
Inductive COutcome (A : Type) :=
| Returned (a : A)
| Fault (r : string).
Arguments Returned {A} a.
Arguments Fault {A} r.

(** During [C.taglib_read] the library reports what it finds through the
    exported Go functions; a call is recorded with its arguments. *)
Inductive Callback :=
| CallPutM4AStr (key val : string)
| CallPutStr (key val : string)
| CallPutInt (key : string) (val : Z)
| CallPutLyrics (lang val : string)
| CallPutLyricLine (lang text : string) (time : Z).

(** [os.OpenFile] followed by [os.IsPermission] *)
Inductive OpenResult :=
| Opened
| OpenFailed (isPermission : bool) (fileErr : error).

(** The C library and the files it works on.  The result codes are the
    macros of taglib_wrapper.h, which fixes their values.
    [WriteLyrics] belongs to this package and is called by the lyrics
    provider; its body is not part of the embedded sources. *)
Record Prims (W : Type) := {
  TAGLIB_ERR_PARSE : Z;
  TAGLIB_ERR_AUDIO_PROPS : Z;
  TAGLIB_ERR_READONLY : Z;
  TAGLIB_ERR_SAVE : Z;
  taglib_read : string -> W -> COutcome (Z * list Callback) * W;
  taglib_write_tag : string -> string -> string -> W -> COutcome Z * W;
  os_OpenFile : string -> W -> OpenResult * W;
  WriteLyrics : string -> string -> string -> W -> option error * W
}.
Arguments TAGLIB_ERR_PARSE {W}.
Arguments TAGLIB_ERR_AUDIO_PROPS {W}.
Arguments TAGLIB_ERR_READONLY {W}.
Arguments TAGLIB_ERR_SAVE {W}.
Arguments taglib_read {W}.
Arguments taglib_write_tag {W}.
Arguments os_OpenFile {W}.
Arguments WriteLyrics {W}.

(** [doPutTag]: [m[k] = append(m[k], v)] under the lower-cased key. *)
Definition doPutTag (m : gmap string (list string)) (key val : string)
  : gmap string (list string) :=
  if String.eqb key "" then m
  else
    let k := GoStrings.ToLower key in
    let v := TrimSpace val in
    <[k := (default [] (m !! k) ++ [v])%list]> m.

Definition goPutM4AStr (m : gmap string (list string)) (key val : string) :=
  let k := TrimPrefix key iTunesKeyPrefix in
  doPutTag m k val.

Definition goPutStr (m : gmap string (list string)) (key val : string) :=
  doPutTag m key val.

Definition goPutInt (m : gmap string (list string)) (key : string) (val : Z) :=
  let valStr := Itoa val in
  goPutStr m key valStr.

Definition goPutLyrics (m : gmap string (list string)) (lang val : string) :=
  doPutTag m ("lyrics:" ++ lang) val.

(** [%02d] *)
Definition fmt02d (n : Z) : string :=
  if (0 <=? n) && (n <? 10) then "0" ++ Itoa n else Itoa n.

(** [goPutLyricLine]; [None] is the index panic of [existing[0]] on an
    empty slice. *)
Definition goPutLyricLine (m : gmap string (list string))
    (lang text : string) (time : Z) : option (gmap string (list string)) :=
  let language := lang in
  let line := text in
  let timeGo := time in
  let ms := Z.rem timeGo 1000 in
  let timeGo := Z.quot timeGo 1000 in
  let sec := Z.rem timeGo 60 in
  let timeGo := Z.quot timeGo 60 in
  let minimum := Z.rem timeGo 60 in
  let formattedLine :=
    "[" ++ fmt02d minimum ++ ":" ++ fmt02d sec ++ "." ++ fmt02d (Z.quot ms 10)
        ++ "]" ++ line ++ String (ascii_of_nat 10) "" in
  let key := "lyrics:" ++ language in
  let k := GoStrings.ToLower key in
  match m !! k with
  | Some (first :: others) => Some (<[k := (first ++ formattedLine) :: others]> m)
  | Some [] => None
  | None => Some (<[k := [formattedLine]]> m)
  end.

Definition runCallback (m : gmap string (list string)) (c : Callback)
  : option (gmap string (list string)) :=
  match c with
  | CallPutM4AStr key val => Some (goPutM4AStr m key val)
  | CallPutStr key val => Some (goPutStr m key val)
  | CallPutInt key val => Some (goPutInt m key val)
  | CallPutLyrics lang val => Some (goPutLyrics m lang val)
  | CallPutLyricLine lang text time => goPutLyricLine m lang text time
  end.

Fixpoint runCallbacks (cs : list Callback) (m : gmap string (list string))
  : option (gmap string (list string)) :=
  match cs with
  | [] => Some m
  | c :: rest =>
      match runCallback m c with
      | Some m' => runCallbacks rest m'
      | None => None
      end
  end.

Section functions.
Context {W : Type} (P : Prims W).

(** [Read]: a fresh map is registered for the call, the C library fills
    it through the callbacks, and the result code decides. *)
Definition Read (filename : string)
  : M W (result (gmap string (list string))) :=
  out <- call (EvTaglibRead filename) (taglib_read P filename) ;;
  match out with
  | Fault r => ret (inr (ErrNew ("extractor: recovered from panic: " ++ r)))
  | Returned (res, calls) =>
      match runCallbacks calls ∅ with
      | None =>
          ret (inr (ErrNew ("extractor: recovered from panic: "
                            ++ "runtime error: index out of range [0] with length 0")))
      | Some m =>
          if res =? TAGLIB_ERR_PARSE P then
            opened <- call (EvOpenFile filename) (os_OpenFile P filename) ;;
            match opened with
            | OpenFailed true fileErr =>
                ret (inr (ErrWrap "navidrome does not have permission: " fileErr))
            | OpenFailed false fileErr =>
                ret (inr (ErrWrap "cannot parse file media file: " fileErr))
            | Opened => ret (inr (ErrNew "cannot parse file media file"))
            end
          else if res =? TAGLIB_ERR_AUDIO_PROPS P then
            ret (inr (ErrNew "can't get audio properties from file"))
          else ret (inl m)
      end
  end.

(** [WriteTag] *)
Definition WriteTag (filename tagName tagValue : string) : M W (option error) :=
  out <- call (EvTaglibWriteTag filename tagName tagValue)
              (taglib_write_tag P filename tagName tagValue) ;;
  match out with
  | Fault r => ret (Some (ErrNew ("taglib: recovered from panic: " ++ r)))
  | Returned res =>
      if res =? TAGLIB_ERR_PARSE P then
        ret (Some (ErrNew ("cannot open file: " ++ filename)))
      else if res =? TAGLIB_ERR_READONLY P then
        ret (Some (ErrNew ("file is read-only: " ++ filename)))
      else if res =? TAGLIB_ERR_SAVE P then
        ret (Some (ErrNew ("failed to save file: " ++ filename)))
      else if res =? 0 then ret None
      else ret (Some (ErrNew ("unknown error writing tag: " ++ Itoa res)))
  end.
End functions.

End taglib.

(* ===================================================================== *)
(** ** package trackanalysis: the track-metrics client *)
(* ===================================================================== *)

Module trackanalysis.

Definition ErrRateLimited : error := ErrNew "API rate limit exceeded".
Definition ErrTrackAnalysisNotAvailable : error :=
  ErrNew "track analysis API not available".
Definition ErrTrackNotFound : error := ErrNew "track not found in analysis API".

Record TrackData := {
  EnergyVal : Z;
  Happiness : Z;
  Instrumentalness : Z
}.

Record apiResponse := {
  api_ID : string;
  api_Key : string;
  api_Mode : string;
  api_Camelot : string;
  api_Tempo : Z;
  api_Duration : string;
  api_Popularity : Z;
  api_Energy : Z;
  api_Danceability : Z;
  api_Happiness : Z;
  api_Acousticness : Z;
  api_Instrumentalness : Z;
  api_Liveness : Z;
  api_Speechiness : Z;
  api_Loudness : string
}.

Definition apiBaseURL : string := "https://track-analysis.p.rapidapi.com/pktx/analysis".
Definition apiHost : string := "track-analysis.p.rapidapi.com".
Definition envAPIKey : string := "RAPIDAPI_KEY".

Definition StatusOK : Z := 200.
Definition StatusNotFound : Z := 404.
Definition StatusTooManyRequests : Z := 429.
(** [time.Second], in nanoseconds *)
Definition Second : Z := 1000000000.

(** A request as [FetchTrackData] builds it: the URL and the two headers. *)
Record Request := {
  req_URL : string;
  req_host : string;
  req_key : string
}.

(** A response: the status, and what decoding the body as JSON gives. *)
Record Response := {
  StatusCode : Z;
  Body : result apiResponse
}.

(** - [os_Getenv]: the environment, read once per process;
    - [QueryEscape]: the escaping [url.Values.Encode] applies;
    - [client_Do]: the round trip, with its 30 s timeout;
    - [ctx_wait d]: the [select] between [ctx.Done()] and
      [time.After(d)]: [Some e] when the context is done first, with
      [e = ctx.Err()], [None] when the timer fires. *)
Record Prims (W : Type) := {
  os_Getenv : string -> string;
  QueryEscape : string -> string;
  client_Do : Request -> W -> result Response * W;
  ctx_wait : Z -> W -> option error * W
}.
Arguments os_Getenv {W}.
Arguments QueryEscape {W}.
Arguments client_Do {W}.
Arguments ctx_wait {W}.

(** How the retry loop is left. *)
Inductive LoopExit :=
| Return (r : result TrackData)
| Leave (resp : option Response).

Section functions.
Context {W : Type} (P : Prims W).

Definition getAPIKey : string := os_Getenv P envAPIKey.

Definition IsAvailable : bool := negb (String.eqb getAPIKey "").

(** The loop [for attempt := 0; attempt < maxRetries; attempt++], by
    recursion on the iterations that remain; [resp] is the variable the
    loop assigns. *)
Fixpoint attempts (maxRetries : Z) (req : Request)
    (remaining : nat) (attempt : Z) (resp : option Response)
  : M W LoopExit :=
  match remaining with
  | O => ret (Leave resp)
  | S remaining' =>
      cancelled <-
        (if 0 <? attempt then
           (* Exponential backoff *)
           let backoff := wrap64 (wrap64 (Z.shiftl 1 attempt) * Second) in
           call (EvBackoff backoff) (ctx_wait P backoff)
         else ret None) ;;
      match cancelled with
      | Some ctxErr => ret (Return (inr ctxErr))
      | None =>
          done <- call (EvHttpDo (req_URL req)) (client_Do P req) ;;
          match done with
          | inr err => ret (Return (inr (ErrWrap "API request failed: " err)))
          | inl resp =>
              if negb (StatusCode resp =? StatusTooManyRequests)
              then ret (Leave (Some resp))
              else if attempt =? maxRetries - 1
              then ret (Return (inr ErrRateLimited))
              else attempts maxRetries req remaining' (attempt + 1) (Some resp)
          end
      end
  end.

(** [FetchTrackData].  [url.Parse] of the constant base URL and
    [http.NewRequestWithContext] with a constant method cannot fail. *)
Definition FetchTrackData (artist title : string) : M W (result TrackData) :=
  tell (EvFetchTrackData artist title) ;;;
  let key := getAPIKey in
  if String.eqb key "" then ret (inr ErrTrackAnalysisNotAvailable)
  else if String.eqb artist "" || String.eqb title "" then
    ret (inr (ErrNew "artist and title are required"))
  else
    let u := apiBaseURL ++ "?artist=" ++ QueryEscape P artist
                        ++ "&song=" ++ QueryEscape P title in
    let req := {| req_URL := u; req_host := apiHost; req_key := key |} in
    (* Retry logic with exponential backoff for rate limiting *)
    let maxRetries := 6 in
    exit <- attempts maxRetries req (Z.to_nat maxRetries) 0 None ;;
    match exit with
    | Return r => ret r
    | Leave None =>
        (* resp is nil: unreachable, the loop body runs at least once *)
        ret (inr (ErrNew "runtime error: invalid memory address or nil pointer dereference"))
    | Leave (Some resp) =>
        if StatusCode resp =? StatusNotFound then ret (inr ErrTrackNotFound)
        else if negb (StatusCode resp =? StatusOK) then
          ret (inr (ErrNew ("API returned status " ++ Itoa (StatusCode resp))))
        else
          match Body resp with
          | inr err => ret (inr (ErrWrap "failed to decode API response: " err))
          | inl apiResp =>
              ret (inl {| EnergyVal := api_Energy apiResp;
                          Happiness := api_Happiness apiResp;
                          Instrumentalness := api_Instrumentalness apiResp |})
          end
    end.
End functions.

End trackanalysis.

(* ===================================================================== *)
(** ** package lyrics: the Genius provider *)
(* ===================================================================== *)

Module lyrics.

Definition ErrGeniusNotAvailable : error := ErrNew "genius lyrics fetcher not available".
Definition ErrNoLyricsFound : error := ErrNew "no lyrics found on Genius".

(** [L] stands for [model.Lyrics].
    - [geniusCmd]: the memoized probe: python path, script path, error;
    - [cmd_Output]: running the script on artist and title;
    - [ToLyrics], [IsEmpty]: [model.ToLyrics] and the method [IsEmpty] of its result. *)
Record Prims (W L : Type) := {
  geniusCmd : string * string * option error;
  cmd_Output : string -> string -> string -> string -> W -> result string * W;
  ToLyrics : string -> string -> result (option L);
  IsEmpty : L -> bool
}.
Arguments geniusCmd {W L}.
Arguments cmd_Output {W L}.
Arguments ToLyrics {W L}.
Arguments IsEmpty {W L}.

Section functions.
Context {W L : Type} (P : Prims W L) (T : taglib.Prims W).
Context (AbsolutePath : MediaFile -> string).

Definition IsGeniusAvailable : bool :=
  match geniusCmd P with
  | (_, _, None) => true
  | (_, _, Some _) => false
  end.

(** [saveLyricsToFile] *)
Definition saveLyricsToFile (mf : MediaFile) (lyricsText : string)
  : M W (option error) :=
  let path := AbsolutePath mf in
  err <- call (EvTaglibWriteLyrics path "xxx" lyricsText)
              (taglib.WriteLyrics T path "xxx" lyricsText) ;;
  match err with
  | Some e => ret (Some e)
  | None => ret None
  end.

(** [fromGenius]; [(nil, nil)] is [inl []]. *)
Definition fromGenius (mf : MediaFile) : M W (result (list L)) :=
  match geniusCmd P with
  | (_, _, Some _) => ret (inl [])
  | (pythonPath, scriptPath, None) =>
      let artist := Artist mf in
      let title := Title mf in
      if String.eqb artist "" || String.eqb title "" then ret (inl [])
      else
        out <- call (EvGeniusScript artist title)
                    (cmd_Output P pythonPath scriptPath artist title) ;;
        match out with
        | inr _ => ret (inl [])
        | inl output =>
            let lyricsText := TrimSpace output in
            if String.eqb lyricsText "" then ret (inl [])
            else
              (* Parse the lyrics into structured format *)
              match ToLyrics P "xxx" lyricsText with
              | inr err => ret (inr err)
              | inl None => ret (inl [])
              | inl (Some lyrics) =>
                  if IsEmpty P lyrics then ret (inl [])
                  else
                    (* Save lyrics to the audio file; a failure is only logged *)
                    saveLyricsToFile mf lyricsText ;;;
                    ret (inl [lyrics])
              end
        end
  end.

(** [FetchFromGenius] *)
Definition FetchFromGenius (mf : MediaFile) : M W (result (list L)) :=
  tell (EvFetchFromGenius mf) ;;;
  fromGenius mf.
End functions.

End lyrics.

(* ===================================================================== *)
(** ** package nativeapi *)
(* ===================================================================== *)

Module nativeapi.

(** What the handlers reach: the three packages above, the data store
    ([ds.MediaFile(ctx)] and [ds.Playlist(ctx)], the latter already
    flattened to the playlist's media files), the clock, [json.Marshal] of
    a lyric list, and the two path functions. *)
Record Sys (W L : Type) := {
  tagPrims : taglib.Prims W;
  trackPrims : trackanalysis.Prims W;
  lyricsPrims : lyrics.Prims W L;
  ds_Get : string -> W -> result MediaFile * W;
  ds_GetAll : string -> W -> result (list MediaFile) * W;
  ds_GetWithTracks : string -> W -> result (list MediaFile) * W;
  ds_Put : MediaFile -> W -> option error * W;
  time_Now : W -> Z * W;
  json_Marshal : list L -> result string;
  filepath_Join : string -> string -> string;
  AbsolutePath : MediaFile -> string
}.
Arguments tagPrims {W L}.
Arguments trackPrims {W L}.
Arguments lyricsPrims {W L}.
Arguments ds_Get {W L}.
Arguments ds_GetAll {W L}.
Arguments ds_GetWithTracks {W L}.
Arguments ds_Put {W L}.
Arguments time_Now {W L}.
Arguments json_Marshal {W L}.
Arguments filepath_Join {W L}.
Arguments AbsolutePath {W L}.

(** What a handler writes to the [http.ResponseWriter]: [http.Error] with
    a message and a status, or a JSON body with status 200. *)
Inductive Reply (A : Type) :=
| HttpError (msg : string) (code : Z)
| HttpJSON (body : A).
Arguments HttpError {A} msg code.
Arguments HttpJSON {A} body.

Definition StatusBadRequest : Z := 400.
Definition StatusNotFound : Z := 404.
Definition StatusInternalServerError : Z := 500.
Definition StatusServiceUnavailable : Z := 503.

(** The keys a [for key := range tags] visits, in one of its orders. *)
Definition rangeKeys (tags : gmap string (list string)) : list string :=
  (map_to_list tags).*1.

(** [for _, x := range xs { s = body(s, x) }] *)
Fixpoint forRange {W A S : Type} (body : S -> A -> M W S) (xs : list A) (s : S)
  : M W S :=
  match xs with
  | [] => ret s
  | x :: rest => s' <- body s x ;; forRange body rest s'
  end.

End nativeapi.
Export nativeapi.

(** *** lyrics.go *)
Module nativeapi_lyrics.

(** The counters are Go [int]s; none can exceed [len(songs)], so no
    increment wraps. *)
Record fetchLyricsResponse := {
  Total : Z;
  Fetched : Z;
  Failed : Z;
  Skipped : Z
}.

Definition incFetched (r : fetchLyricsResponse) :=
  {| Total := Total r; Fetched := Fetched r + 1; Failed := Failed r;
     Skipped := Skipped r |}.
Definition incFailed (r : fetchLyricsResponse) :=
  {| Total := Total r; Fetched := Fetched r; Failed := Failed r + 1;
     Skipped := Skipped r |}.
Definition incSkipped (r : fetchLyricsResponse) :=
  {| Total := Total r; Fetched := Fetched r; Failed := Failed r;
     Skipped := Skipped r + 1 |}.

Section functions.
Context {W L : Type} (S : Sys W L).

(** The body of the loop of [fetchLyricsForSongs]. *)
Definition fetchLyricsForSong (resp : fetchLyricsResponse) (song : MediaFile)
  : M W fetchLyricsResponse :=
  let filePath := AbsolutePath S song in
  read <- taglib.Read (tagPrims S) filePath ;;
  let hasCorrectlyStoredLyrics :=
    match read with
    | inl tags =>
        existsb (fun key =>
                   let keyLower := GoStrings.ToLower key in
                   GoStrings.HasPrefix keyLower "lyrics:")
                (rangeKeys tags)
    | inr _ => false
    end in
  if hasCorrectlyStoredLyrics then ret (incSkipped resp)
  else
    (* Fetch lyrics from Genius *)
    fetched <- lyrics.FetchFromGenius (lyricsPrims S) (tagPrims S)
                                      (AbsolutePath S) song ;;
    match fetched with
    | inr _ => ret (incFailed resp)
    | inl lyricsList =>
        if (length lyricsList =? 0)%nat then ret (incFailed resp)
        else
          (* Update the database with the new lyrics *)
          match json_Marshal S lyricsList with
          | inr _ => ret (incFailed resp)
          | inl lyricsJSON =>
              let song := set_Lyrics lyricsJSON song in
              err <- call (EvPut song) (ds_Put S song) ;;
              match err with
              | Some _ => ret (incFailed resp)
              | None => ret (incFetched resp)
              end
          end
    end.

Definition fetchLyricsForSongs (songs : list MediaFile) : M W fetchLyricsResponse :=
  let resp := {| Total := Z.of_nat (length songs);
                 Fetched := 0; Failed := 0; Skipped := 0 |} in
  forRange fetchLyricsForSong songs resp.

Definition notAvailable : string :=
  "Genius lyrics fetcher not available. Please set GENIUS_CLIENT_ACCESS_TOKEN environment variable and install lyricsgenius.".

Definition fetchAlbumLyrics (albumID : string) : M W (Reply fetchLyricsResponse) :=
  if negb (lyrics.IsGeniusAvailable (lyricsPrims S)) then
    ret (HttpError notAvailable StatusServiceUnavailable)
  else
    got <- call (EvGetAll albumID) (ds_GetAll S albumID) ;;
    match got with
    | inr err =>
        if errors_Is err ErrNotFound
        then ret (HttpError "Album not found" StatusNotFound)
        else ret (HttpError "Internal server error" StatusInternalServerError)
    | inl songs =>
        if (length songs =? 0)%nat
        then ret (HttpError "No songs found in album" StatusNotFound)
        else resp <- fetchLyricsForSongs songs ;; ret (HttpJSON resp)
    end.

Definition fetchPlaylistLyrics (playlistID : string) : M W (Reply fetchLyricsResponse) :=
  if negb (lyrics.IsGeniusAvailable (lyricsPrims S)) then
    ret (HttpError notAvailable StatusServiceUnavailable)
  else
    got <- call (EvGetWithTracks playlistID) (ds_GetWithTracks S playlistID) ;;
    match got with
    | inr err =>
        if errors_Is err ErrNotFound
        then ret (HttpError "Playlist not found" StatusNotFound)
        else ret (HttpError "Internal server error" StatusInternalServerError)
    | inl songs =>
        if (length songs =? 0)%nat
        then ret (HttpError "No songs found in playlist" StatusNotFound)
        else resp <- fetchLyricsForSongs songs ;; ret (HttpJSON resp)
    end.
End functions.

End nativeapi_lyrics.

(** *** trackdata.go *)
Module nativeapi_trackdata.

Record fetchTrackDataResponse := {
  Total : Z;
  Fetched : Z;
  Failed : Z;
  Skipped : Z
}.

(** [songResult] holds the result of processing a single song. *)
Record songResult := {
  fetched : bool;
  failed : bool;
  skipped : bool
}.

Section functions.
Context {W L : Type} (S : Sys W L).

Definition writeTrackDataTags (filePath : string) (data : trackanalysis.TrackData)
  : M W (option error) :=
  e1 <- taglib.WriteTag (tagPrims S) filePath "ENERGYVAL"
                        (Itoa (trackanalysis.EnergyVal data)) ;;
  match e1 with
  | Some err => ret (Some (ErrWrap "failed to write ENERGYVAL tag: " err))
  | None =>
      e2 <- taglib.WriteTag (tagPrims S) filePath "HAPPINESS"
                            (Itoa (trackanalysis.Happiness data)) ;;
      match e2 with
      | Some err => ret (Some (ErrWrap "failed to write HAPPINESS tag: " err))
      | None =>
          e3 <- taglib.WriteTag (tagPrims S) filePath "INSTRUMENTALNESS"
                                (Itoa (trackanalysis.Instrumentalness data)) ;;
          match e3 with
          | Some err =>
              ret (Some (ErrWrap "failed to write INSTRUMENTALNESS tag: " err))
          | None => ret None
          end
      end
  end.

Definition processSong (song : MediaFile) : M W songResult :=
  (* Check if the song already has track data stored *)
  let filePath := AbsolutePath S song in
  read <- taglib.Read (tagPrims S) filePath ;;
  let hasTrackData :=
    match read with
    | inl tags =>
        existsb (fun key =>
                   let keyLower := GoStrings.ToLower key in
                   String.eqb keyLower "energyval"
                   || String.eqb keyLower "happiness"
                   || String.eqb keyLower "instrumentalness")
                (rangeKeys tags)
    | inr _ => false
    end in
  if hasTrackData then
    ret {| fetched := false; failed := false; skipped := true |}
  else
    (* Fetch track data from API *)
    got <- trackanalysis.FetchTrackData (trackPrims S) (Artist song) (Title song) ;;
    match got with
    | inr _ => ret {| fetched := false; failed := true; skipped := false |}
    | inl data =>
        (* Write tags to the audio file *)
        err <- writeTrackDataTags filePath data ;;
        match err with
        | Some _ => ret {| fetched := false; failed := true; skipped := false |}
        | None => ret {| fetched := true; failed := false; skipped := false |}
        end
    end.

(** The loop variables [fetched, failed, skipped] and the loop body. *)
Definition tally (counts : Z * Z * Z) (song : MediaFile) : M W (Z * Z * Z) :=
  let '(nFetched, nFailed, nSkipped) := counts in
  result <- processSong song ;;
  if fetched result then ret (nFetched + 1, nFailed, nSkipped)
  else if failed result then ret (nFetched, nFailed + 1, nSkipped)
  else if skipped result then ret (nFetched, nFailed, nSkipped + 1)
  else ret (nFetched, nFailed, nSkipped).

Definition fetchTrackDataForSongs (songs : list MediaFile)
  : M W fetchTrackDataResponse :=
  let total := Z.of_nat (length songs) in
  counts <- forRange tally songs (0, 0, 0) ;;
  let '(nFetched, nFailed, nSkipped) := counts in
  ret {| Total := total; Fetched := nFetched; Failed := nFailed;
         Skipped := nSkipped |}.

Definition notAvailable : string :=
  "Track analysis API not available. Please set RAPIDAPI_KEY environment variable.".

Definition fetchAlbumTrackData (albumID : string)
  : M W (Reply fetchTrackDataResponse) :=
  if negb (trackanalysis.IsAvailable (trackPrims S)) then
    ret (HttpError notAvailable StatusServiceUnavailable)
  else
    got <- call (EvGetAll albumID) (ds_GetAll S albumID) ;;
    match got with
    | inr err =>
        if errors_Is err ErrNotFound
        then ret (HttpError "Album not found" StatusNotFound)
        else ret (HttpError "Internal server error" StatusInternalServerError)
    | inl songs =>
        if (length songs =? 0)%nat
        then ret (HttpError "No songs found in album" StatusNotFound)
        else resp <- fetchTrackDataForSongs songs ;; ret (HttpJSON resp)
    end.

Definition fetchPlaylistTrackData (playlistID : string)
  : M W (Reply fetchTrackDataResponse) :=
  if negb (trackanalysis.IsAvailable (trackPrims S)) then
    ret (HttpError notAvailable StatusServiceUnavailable)
  else
    got <- call (EvGetWithTracks playlistID) (ds_GetWithTracks S playlistID) ;;
    match got with
    | inr err =>
        if errors_Is err ErrNotFound
        then ret (HttpError "Playlist not found" StatusNotFound)
        else ret (HttpError "Internal server error" StatusInternalServerError)
    | inl songs =>
        if (length songs =? 0)%nat
        then ret (HttpError "No songs found in playlist" StatusNotFound)
        else resp <- fetchTrackDataForSongs songs ;; ret (HttpJSON resp)
    end.
End functions.

End nativeapi_trackdata.

(** *** song_tag.go *)
Module nativeapi_song_tag.

(** Valid energy values *)
Definition validEnergyValues : list string := [""; "low"; "medium"; "high"].

(** Valid mood values *)
Definition validMoodValues : list string := [""; "negative"; "neutral"; "positive"].

Record setEnergyRequest := { energyValue : string }.
Record setEnergyResponse := { energyID : string; Energy : string }.
Record setMoodRequest := { moodValue : string }.
Record setMoodResponse := { moodID : string; Mood : string }.

(** [slices.Contains] *)
Definition Contains (values : list string) (v : string) : bool :=
  existsb (String.eqb v) values.

Section functions.
Context {W L : Type} (S : Sys W L).

(** [setEnergy].  [body] is what decoding the request body as JSON gives.
    Next to the reply the embedding returns the handler's record [mf] as
    it stands when the handler returns ([None] before it is loaded). *)
Definition setEnergy (id : string) (body : result setEnergyRequest)
  : M W (Reply setEnergyResponse * option MediaFile) :=
  match body with
  | inr _ => ret (HttpError "Invalid request body" StatusBadRequest, None)
  | inl req =>
      (* Validate energy value *)
      if negb (Contains validEnergyValues (energyValue req)) then
        ret (HttpError "Invalid energy value. Must be one of: '', 'low', 'medium', 'high'"
                       StatusBadRequest, None)
      else
        (* Get the media file *)
        got <- call (EvGet id) (ds_Get S id) ;;
        match got with
        | inr err =>
            if errors_Is err ErrNotFound
            then ret (HttpError "Song not found" StatusNotFound, None)
            else ret (HttpError "Internal server error" StatusInternalServerError, None)
        | inl mf =>
            (* Build the full path to the file *)
            let fullPath := filepath_Join S (LibraryPath mf) (Path mf) in
            (* Write the tag to the file *)
            werr <- taglib.WriteTag (tagPrims S) fullPath "ENERGY" (energyValue req) ;;
            match werr with
            | Some err =>
                ret (HttpError ("Failed to write tag to file: " ++ Error err)
                               StatusInternalServerError, Some mf)
            | None =>
                (* Update the tags in memory *)
                let tags := default ∅ (Tags mf) in
                let tags :=
                  if String.eqb (energyValue req) "" then delete "energy" tags
                  else <["energy" := [energyValue req]]> tags in
                let mf := set_Tags (Some tags) mf in
                (* Update the media file in the database *)
                now <- call EvNow (time_Now S) ;;
                let mf := set_UpdatedAt now mf in
                perr <- call (EvPut mf) (ds_Put S mf) ;;
                match perr with
                | Some _ =>
                    ret (HttpError "Failed to update database"
                                   StatusInternalServerError, Some mf)
                | None =>
                    ret (HttpJSON {| energyID := id; Energy := energyValue req |},
                         Some mf)
                end
            end
        end
  end.

(** [setMood] *)
Definition setMood (id : string) (body : result setMoodRequest)
  : M W (Reply setMoodResponse * option MediaFile) :=
  match body with
  | inr _ => ret (HttpError "Invalid request body" StatusBadRequest, None)
  | inl req =>
      (* Validate mood value *)
      if negb (Contains validMoodValues (moodValue req)) then
        ret (HttpError "Invalid mood value. Must be one of: '', 'negative', 'neutral', 'positive'"
                       StatusBadRequest, None)
      else
        (* Get the media file *)
        got <- call (EvGet id) (ds_Get S id) ;;
        match got with
        | inr err =>
            if errors_Is err ErrNotFound
            then ret (HttpError "Song not found" StatusNotFound, None)
            else ret (HttpError "Internal server error" StatusInternalServerError, None)
        | inl mf =>
            (* Build the full path to the file *)
            let fullPath := filepath_Join S (LibraryPath mf) (Path mf) in
            (* Write the tag to the file *)
            werr <- taglib.WriteTag (tagPrims S) fullPath "MOOD" (moodValue req) ;;
            match werr with
            | Some err =>
                ret (HttpError ("Failed to write tag to file: " ++ Error err)
                               StatusInternalServerError, Some mf)
            | None =>
                (* Update the tags in memory *)
                let tags := default ∅ (Tags mf) in
                let tags :=
                  if String.eqb (moodValue req) "" then delete "mood" tags
                  else <["mood" := [moodValue req]]> tags in
                let mf := set_Tags (Some tags) mf in
                (* Update the media file in the database *)
                now <- call EvNow (time_Now S) ;;
                let mf := set_UpdatedAt now mf in
                perr <- call (EvPut mf) (ds_Put S mf) ;;
                match perr with
                | Some _ =>
                    ret (HttpError "Failed to update database"
                                   StatusInternalServerError, Some mf)
                | None =>
                    ret (HttpJSON {| moodID := id; Mood := moodValue req |},
                         Some mf)
                end
            end
        end
  end.
End functions.

End nativeapi_song_tag.

(* ===================================================================== *)
(** ** A small concrete world, to run the embedding on *)
(* ===================================================================== *)

Module sim.

(** - [files]: for each file the tag library can parse, what it reports;
    - [readOnly]: the files it cannot save;
    - [db]: the media-file table, by id;
    - [dbDown]: the data store refuses writes;
    - [clock], [deadline]: the time in nanoseconds and the deadline of
      the caller's context;
    - [upstream]: the answers of the track-metrics service, in order
      (404 once they are used up);
    - [genius]: what the lookup script prints, by title. *)
Record World := {
  files : gmap string (list taglib.Callback);
  readOnly : list string;
  db : gmap string MediaFile;
  dbDown : bool;
  clock : Z;
  deadline : Z;
  upstream : list trackanalysis.Response;
  genius : gmap string string
}.

Definition set_files f (w : World) :=
  {| files := f; readOnly := readOnly w; db := db w; dbDown := dbDown w;
     clock := clock w; deadline := deadline w; upstream := upstream w;
     genius := genius w |}.
Definition set_db d (w : World) :=
  {| files := files w; readOnly := readOnly w; db := d; dbDown := dbDown w;
     clock := clock w; deadline := deadline w; upstream := upstream w;
     genius := genius w |}.
Definition set_clock c (w : World) :=
  {| files := files w; readOnly := readOnly w; db := db w; dbDown := dbDown w;
     clock := c; deadline := deadline w; upstream := upstream w;
     genius := genius w |}.
Definition set_upstream u (w : World) :=
  {| files := files w; readOnly := readOnly w; db := db w; dbDown := dbDown w;
     clock := clock w; deadline := deadline w; upstream := u;
     genius := genius w |}.

Definition isReadOnly (w : World) (filename : string) : bool :=
  existsb (String.eqb filename) (readOnly w).

Definition sameTag (name : string) (c : taglib.Callback) : bool :=
  match c with
  | taglib.CallPutStr key _ =>
      String.eqb (GoStrings.ToLower key) (GoStrings.ToLower name)
  | _ => false
  end.

Definition tagPrims : taglib.Prims World := {|
  taglib.TAGLIB_ERR_PARSE := -1;
  taglib.TAGLIB_ERR_AUDIO_PROPS := -2;
  taglib.TAGLIB_ERR_READONLY := -3;
  taglib.TAGLIB_ERR_SAVE := -4;
  taglib.taglib_read := fun filename w =>
    match files w !! filename with
    | Some calls => (taglib.Returned (0, calls), w)
    | None => (taglib.Returned (-1, []), w)
    end;
  taglib.taglib_write_tag := fun filename tagName tagValue w =>
    match files w !! filename with
    | None => (taglib.Returned (-1), w)
    | Some calls =>
        if isReadOnly w filename then (taglib.Returned (-3), w)
        else
          let kept := List.filter (fun c => negb (sameTag tagName c)) calls in
          let calls' :=
            if String.eqb tagValue "" then kept
            else (kept ++ [taglib.CallPutStr tagName tagValue])%list in
          (taglib.Returned 0, set_files (<[filename := calls']> (files w)) w)
    end;
  taglib.os_OpenFile := fun filename w =>
    (taglib.OpenFailed false (ErrNew "no such file or directory"), w);
  taglib.WriteLyrics := fun filename lang text w =>
    match files w !! filename with
    | None => (Some (ErrNew ("cannot open file: " ++ filename)), w)
    | Some calls =>
        if isReadOnly w filename
        then (Some (ErrNew ("file is read-only: " ++ filename)), w)
        else (None, set_files (<[filename :=
                 (calls ++ [taglib.CallPutLyrics lang text])%list]> (files w)) w)
    end
|}.

Definition trackPrims (apiKey : string) : trackanalysis.Prims World := {|
  trackanalysis.os_Getenv := fun name =>
    if String.eqb name trackanalysis.envAPIKey then apiKey else "";
  trackanalysis.QueryEscape := fun s => s;
  trackanalysis.client_Do := fun req w =>
    match upstream w with
    | [] => (inl {| trackanalysis.StatusCode := 404;
                    trackanalysis.Body := inr (ErrNew "EOF") |}, w)
    | resp :: rest => (inl resp, set_upstream rest w)
    end;
  trackanalysis.ctx_wait := fun d w =>
    if deadline w <? clock w + d
    then (Some (ErrNew "context deadline exceeded"), set_clock (deadline w) w)
    else (None, set_clock (clock w + d) w)
|}.

(** An upstream that answers 429 to every request, and a context that is
    never done. *)
Definition trackPrimsBusy (apiKey : string) : trackanalysis.Prims World := {|
  trackanalysis.os_Getenv := fun name =>
    if String.eqb name trackanalysis.envAPIKey then apiKey else "";
  trackanalysis.QueryEscape := fun s => s;
  trackanalysis.client_Do := fun req w =>
    (inl {| trackanalysis.StatusCode := 429;
            trackanalysis.Body := inr (ErrNew "EOF") |}, w);
  trackanalysis.ctx_wait := fun d w => (None, set_clock (clock w + d) w)
|}.

(** Here a lyric is its text. *)
Definition lyricsPrims : lyrics.Prims World string := {|
  lyrics.geniusCmd := ("python3", "scripts/genius_lyrics.py", None);
  lyrics.cmd_Output := fun pythonPath scriptPath artist title w =>
    match genius w !! title with
    | Some out => (inl out, w)
    | None => (inr (ErrNew "exit status 1"), w)
    end;
  lyrics.ToLyrics := fun lang text => inl (Some text);
  lyrics.IsEmpty := fun text => String.eqb text ""
|}.

Definition system (apiKey : string) : Sys World string := {|
  nativeapi.tagPrims := tagPrims;
  nativeapi.trackPrims := trackPrims apiKey;
  nativeapi.lyricsPrims := lyricsPrims;
  ds_Get := fun id w =>
    match db w !! id with
    | Some mf => (inl mf, w)
    | None => (inr ErrNotFound, w)
    end;
  ds_GetAll := fun albumID w => (inl (map_to_list (db w)).*2, w);
  ds_GetWithTracks := fun playlistID w => (inl (map_to_list (db w)).*2, w);
  ds_Put := fun mf w =>
    if dbDown w then (Some (ErrNew "database is locked"), w)
    else (None, set_db (<[ID mf := mf]> (db w)) w);
  time_Now := fun w => (clock w, w);
  json_Marshal := fun l => inl (String.concat "," l);
  filepath_Join := fun a b => a ++ "/" ++ b;
  AbsolutePath := fun mf => LibraryPath mf ++ "/" ++ Path mf
|}.

(** One song and the worlds the examples start from. *)
Definition song1 : MediaFile := {|
  ID := "s1"; LibraryPath := "/music"; Path := "a.flac";
  Artist := "Artist"; Title := "Song"; Tags := None; Lyrics := "";
  UpdatedAt := 1000
|}.

Definition metrics (e h i : Z) : trackanalysis.apiResponse := {|
  trackanalysis.api_ID := "x"; trackanalysis.api_Key := "C";
  trackanalysis.api_Mode := "major"; trackanalysis.api_Camelot := "8B";
  trackanalysis.api_Tempo := 120; trackanalysis.api_Duration := "3:00";
  trackanalysis.api_Popularity := 50; trackanalysis.api_Energy := e;
  trackanalysis.api_Danceability := 50; trackanalysis.api_Happiness := h;
  trackanalysis.api_Acousticness := 10;
  trackanalysis.api_Instrumentalness := i;
  trackanalysis.api_Liveness := 10; trackanalysis.api_Speechiness := 5;
  trackanalysis.api_Loudness := "-7 dB"
|}.

Definition ok200 (e h i : Z) : trackanalysis.Response :=
  {| trackanalysis.StatusCode := 200; trackanalysis.Body := inl (metrics e h i) |}.
Definition busy429 : trackanalysis.Response :=
  {| trackanalysis.StatusCode := 429; trackanalysis.Body := inr (ErrNew "EOF") |}.

(** The file of [song1] reports [calls]; the upstream answers [answers]. *)
Definition worldWith (calls : list taglib.Callback)
    (answers : list trackanalysis.Response) : World := {|
  files := {[ "/music/a.flac" := calls ]};
  readOnly := [];
  db := {[ "s1" := song1 ]};
  dbDown := false;
  clock := 0;
  deadline := 3600 * trackanalysis.Second;
  upstream := answers;
  genius := {[ "Song" := "la la la" ]}
|}.

(** The file of [song1] cannot be parsed at all. *)
Definition worldUnreadable (answers : list trackanalysis.Response) : World :=
  set_files ∅ (worldWith [] answers).

(** The file of [song1] can be read but not saved. *)
Definition worldReadOnly (calls : list taglib.Callback) : World := {|
  files := {[ "/music/a.flac" := calls ]};
  readOnly := ["/music/a.flac"];
  db := {[ "s1" := song1 ]};
  dbDown := false;
  clock := 0;
  deadline := 3600 * trackanalysis.Second;
  upstream := [];
  genius := {[ "Song" := "la la la" ]}
|}.

End sim.

(* ===================================================================== *)
(** ** The stages of the per-file processing, named for the statements *)
(* ===================================================================== *)

Module stages.

(** The skip conditions, as the two loops compute them from the result of
    [taglib.Read]. *)
Definition hasCorrectlyStoredLyrics (read : result (gmap string (list string))) : bool :=
  match read with
  | inl tags =>
      existsb (fun key => GoStrings.HasPrefix (GoStrings.ToLower key) "lyrics:")
              (rangeKeys tags)
  | inr _ => false
  end.

Definition isMetricTag (key : string) : bool :=
  let keyLower := GoStrings.ToLower key in
  String.eqb keyLower "energyval"
  || String.eqb keyLower "happiness"
  || String.eqb keyLower "instrumentalness".

Definition hasTrackData (read : result (gmap string (list string))) : bool :=
  match read with
  | inl tags => existsb isMetricTag (rangeKeys tags)
  | inr _ => false
  end.

(** The condition the specification words: all three metric tags are
    there. *)
Definition carriesTag (tags : gmap string (list string)) (name : string) : bool :=
  existsb (fun key => String.eqb (GoStrings.ToLower key) name) (rangeKeys tags).

Definition carriesAllMetricTags (tags : gmap string (list string)) : bool :=
  carriesTag tags "energyval" && carriesTag tags "happiness"
  && carriesTag tags "instrumentalness".

Definition songFetched := {| nativeapi_trackdata.fetched := true;
                             nativeapi_trackdata.failed := false;
                             nativeapi_trackdata.skipped := false |}.
Definition songFailed := {| nativeapi_trackdata.fetched := false;
                            nativeapi_trackdata.failed := true;
                            nativeapi_trackdata.skipped := false |}.
Definition songSkipped := {| nativeapi_trackdata.fetched := false;
                             nativeapi_trackdata.failed := false;
                             nativeapi_trackdata.skipped := true |}.

Section stages.
Context {W L : Type} (S : Sys W L).

(** [processSong] from its comment "Fetch track data from API" on. *)
Definition trackFetchStage (song : MediaFile) : M W nativeapi_trackdata.songResult :=
  got <- trackanalysis.FetchTrackData (trackPrims S) (Artist song) (Title song) ;;
  match got with
  | inr _ => ret songFailed
  | inl data =>
      err <- nativeapi_trackdata.writeTrackDataTags S (AbsolutePath S song) data ;;
      match err with
      | Some _ => ret songFailed
      | None => ret songFetched
      end
  end.

(** The loop body of [fetchLyricsForSongs] from its comment
    "Fetch lyrics from Genius" on. *)
Definition lyricsFetchStage (resp : nativeapi_lyrics.fetchLyricsResponse)
    (song : MediaFile) : M W nativeapi_lyrics.fetchLyricsResponse :=
  fetched <- lyrics.FetchFromGenius (lyricsPrims S) (tagPrims S)
                                    (AbsolutePath S) song ;;
  match fetched with
  | inr _ => ret (nativeapi_lyrics.incFailed resp)
  | inl lyricsList =>
      if (length lyricsList =? 0)%nat then ret (nativeapi_lyrics.incFailed resp)
      else
        match json_Marshal S lyricsList with
        | inr _ => ret (nativeapi_lyrics.incFailed resp)
        | inl lyricsJSON =>
            let song := set_Lyrics lyricsJSON song in
            err <- call (EvPut song) (ds_Put S song) ;;
            match err with
            | Some _ => ret (nativeapi_lyrics.incFailed resp)
            | None => ret (nativeapi_lyrics.incFetched resp)
            end
        end
  end.
End stages.

(** The waits of a log, in order. *)
Definition backoffsOf (l : list Event) : list Z :=
  omap (fun ev => match ev with EvBackoff d => Some d | _ => None end) l.

(** The requests of a log. *)
Definition requestsOf (l : list Event) : nat :=
  length (List.filter (fun ev => match ev with EvHttpDo _ => true | _ => false end) l).

(** The duration the retry loop waits before attempt [attempt]. *)
Definition backoffBefore (attempt : Z) : Z :=
  wrap64 (wrap64 (Z.shiftl 1 attempt) * trackanalysis.Second).

(** What the three counters add up to. *)
Definition lyricsSum (r : nativeapi_lyrics.fetchLyricsResponse) : Z :=
  nativeapi_lyrics.Fetched r + nativeapi_lyrics.Failed r
  + nativeapi_lyrics.Skipped r.

Definition trackSum (r : nativeapi_trackdata.fetchTrackDataResponse) : Z :=
  nativeapi_trackdata.Fetched r + nativeapi_trackdata.Failed r
  + nativeapi_trackdata.Skipped r.

Definition tallySum (counts : Z * Z * Z) : Z :=
  let '(f, x, s) := counts in f + x + s.

(** What a batch handler answers with, when it answers with counters. *)
Definition repliesBalanced {R} (total sum : R -> Z) (got : result (list MediaFile))
    (reply : Reply R) : Prop :=
  match reply with
  | HttpJSON resp =>
      total resp = sum resp
      /\ exists songs, got = inl songs /\ total resp = Z.of_nat (length songs)
  | HttpError _ _ => True
  end.

(** What the retry loop logs when every answer is 429 and no wait is cut
    short: before each attempt but the first a wait, then the request. *)
Fixpoint busyLog (url : string) (remaining : nat) (attempt : Z) : list Event :=
  match remaining with
  | O => []
  | S remaining' =>
      ((if 0 <? attempt then [EvBackoff (backoffBefore attempt)] else [])
         ++ EvHttpDo url :: busyLog url remaining' (attempt + 1))%list
  end.

(** The URL [FetchTrackData] requests. *)
Definition requestURL {W} (P : trackanalysis.Prims W) (artist title : string) : string :=
  trackanalysis.apiBaseURL ++ "?artist=" ++ trackanalysis.QueryEscape P artist
                           ++ "&song=" ++ trackanalysis.QueryEscape P title.

Definition isPut (ev : Event) : bool :=
  match ev with EvPut _ => true | _ => false end.

Definition isTagWrite (ev : Event) : bool :=
  match ev with
  | EvTaglibWriteTag _ _ _ | EvTaglibWriteLyrics _ _ _ => true
  | _ => false
  end.

End stages.
Import stages.

(* ===================================================================== *)
(** ** The capability probes (analyzer.go, the lyrics provider) *)
(* ===================================================================== *)

Module probes.

(** What a probe asks of the host, once per process:
    - [LookPath]: [exec.LookPath], the path and the error;
    - [Run]: [exec.Command(name, args...).Run()];
    - [Executable], [Getwd]: the path and the error;
    - [Stat]: the error of [os.Stat];
    - [Dir], [Join]: [filepath.Dir] and [filepath.Join];
    - [Getenv]: [os.Getenv]. *)
Record Host := {
  LookPath : string -> string * option error;
  Run : string -> list string -> option error;
  Executable : string * option error;
  Getwd : string * option error;
  Stat : string -> option error;
  Dir : string -> string;
  Join : list string -> string;
  Getenv : string -> string
}.

(** [for _, loc := range scriptLocations]: the first location that
    [os.Stat] finds. *)
Definition firstExisting (H : Host) (scriptLocations : list string) : option string :=
  List.find (fun loc => if Stat H loc is None then true else false) scriptLocations.

(** [pythonPath, _ = exec.LookPath("python3")], then "python" if that is
    empty. *)
Definition lookPython (H : Host) : string :=
  let pythonPath := fst (LookPath H "python3") in
  if String.eqb pythonPath "" then fst (LookPath H "python") else pythonPath.

(** The package variables [essentiaCmd] sets. *)
Record Essentia := {
  essentiaPath : string;
  essentiaErr : option error;
  pythonPath : string;
  useScriptMode : bool
}.

Definition essentiaLocations (H : Host) : list string :=
  let scriptLocations :=
    ["scripts/essentia_analyze.py";
     "./scripts/essentia_analyze.py";
     "/workspaces/navidrome/scripts/essentia_analyze.py";
     "/app/scripts/essentia_analyze.py"] in
  (* Also try relative to executable *)
  let scriptLocations :=
    match Executable H with
    | (execPath, None) =>
        let execDir := Dir H execPath in
        (scriptLocations
           ++ [Join H [execDir; "scripts"; "essentia_analyze.py"];
               Join H [execDir; ".."; "scripts"; "essentia_analyze.py"]])%list
    | (_, Some _) => scriptLocations
    end in
  (* Also try relative to working directory *)
  match Getwd H with
  | (wd, None) =>
      (scriptLocations ++ [Join H [wd; "scripts"; "essentia_analyze.py"]])%list
  | (_, Some _) => scriptLocations
  end.

(** The body that [essentiaCmd] runs once. *)
Definition essentiaCmd (H : Host) : Essentia :=
  (* First try to find the official CLI tool *)
  let '(path, err) := LookPath H "essentia_streaming_extractor_music" in
  match err with
  | None => {| essentiaPath := path; essentiaErr := None;
               pythonPath := ""; useScriptMode := false |}
  | Some _ =>
      (* Fall back to our Python script wrapper *)
      let python := lookPython H in
      if String.eqb python "" then
        {| essentiaPath := path;
           essentiaErr := Some (ErrNew "neither essentia CLI nor python found");
           pythonPath := python; useScriptMode := false |}
      else
        (* Check if essentia module is installed *)
        match Run H python ["-c"; "import essentia"] with
        | Some _ =>
            {| essentiaPath := path;
               essentiaErr := Some (ErrNew "essentia python module not installed");
               pythonPath := python; useScriptMode := false |}
        | None =>
            match firstExisting H (essentiaLocations H) with
            | Some loc =>
                {| essentiaPath := loc; essentiaErr := None;
                   pythonPath := python; useScriptMode := true |}
            | None =>
                {| essentiaPath := path;
                   essentiaErr := Some (ErrNew "essentia_analyze.py script not found");
                   pythonPath := python; useScriptMode := false |}
            end
        end
  end.

Definition geniusLocations (H : Host) : list string :=
  let scriptLocations :=
    ["scripts/genius_lyrics.py";
     "./scripts/genius_lyrics.py";
     "/workspaces/navidrome/scripts/genius_lyrics.py";
     "/app/scripts/genius_lyrics.py"] in
  let scriptLocations :=
    match Executable H with
    | (execPath, None) =>
        let execDir := Dir H execPath in
        (scriptLocations
           ++ [Join H [execDir; "scripts"; "genius_lyrics.py"];
               Join H [execDir; ".."; "scripts"; "genius_lyrics.py"]])%list
    | (_, Some _) => scriptLocations
    end in
  match Getwd H with
  | (wd, None) =>
      (scriptLocations ++ [Join H [wd; "scripts"; "genius_lyrics.py"]])%list
  | (_, Some _) => scriptLocations
  end.

(** The body that [geniusCmd] runs once: python path, script path, error. *)
Definition geniusCmd (H : Host) : string * string * option error :=
  (* Check if GENIUS_CLIENT_ACCESS_TOKEN is set *)
  if String.eqb (Getenv H "GENIUS_CLIENT_ACCESS_TOKEN") "" then
    ("", "", Some (ErrNew "GENIUS_CLIENT_ACCESS_TOKEN environment variable not set"))
  else
    (* Find Python *)
    let geniusPythonPath := lookPython H in
    if String.eqb geniusPythonPath "" then
      (geniusPythonPath, "", Some (ErrNew "python not found"))
    else
      (* Check if lyricsgenius module is installed *)
      match Run H geniusPythonPath ["-c"; "import lyricsgenius"] with
      | Some _ =>
          (geniusPythonPath, "",
           Some (ErrNew "lyricsgenius python module not installed (run: pip install lyricsgenius)"))
      | None =>
          match firstExisting H (geniusLocations H) with
          | Some loc => (geniusPythonPath, loc, None)
          | None =>
              (geniusPythonPath, "", Some (ErrNew "genius_lyrics.py script not found"))
          end
      end.

End probes.

(* ===================================================================== *)
(** ** core/audio/analyzer.go: the analysis; song_analysis.go *)
(* ===================================================================== *)

Module analyzer.

Definition ErrAnalyzerNotAvailable : error := ErrNew "audio analyzer not available".
Definition ErrAnalysisFailed : error := ErrNew "audio analysis failed".

(** An error of [Analyze]: an [error] as above, or
    [fmt.Errorf("%w: %v", ErrAnalysisFailed, err)], which wraps
    [ErrAnalysisFailed] and prints [err] after it. *)
Inductive AnalyzeError :=
| Plain (e : error)
| Failed (err : error).

Definition ErrorOf (e : AnalyzeError) : string :=
  match e with
  | Plain e => Error e
  | Failed err => Error ErrAnalysisFailed ++ ": " ++ Error err
  end.

Definition Is (e : AnalyzeError) (target : error) : bool :=
  match e with
  | Plain e => errors_Is e target
  | Failed _ => errors_Is ErrAnalysisFailed target
  end.

(** [AnalysisResult] *)
Record AnalysisResult := {
  SuggestedEnergy : string;
  Metrics : audio.AudioMetrics;
  Score : audio.ScoreBreakdown
}.

(** [essentiaOutput], the fields of Essentia's JSON output that are read:
    rhythm.bpm, rhythm.beats_loudness.mean, lowlevel.average_loudness,
    highlevel.danceability.all.danceable. *)
Record essentiaOutput := {
  Rhythm_BPM : float;
  Rhythm_BeatsLoudness_Mean : float;
  Lowlevel_AverageLoudness : float;
  Highlevel_Danceability_All_Danceable : float
}.

(** The calls [Analyze] makes, as the log of an analysis keeps them. *)
Inductive Call :=
| CallStat (path : string)
| CallCreateTemp
| CallRemove (path : string)
| CallRun (name : string) (args : list string)
| CallReadFile (path : string).

(** - [os_Stat]: the error of [os.Stat];
    - [os_CreateTemp]: [os.CreateTemp("", "essentia-*.json")], then the
      name of the file, which is closed;
    - [os_Remove], whose error is dropped;
    - [cmd_Run]: [exec.CommandContext(ctx, name, args...).Run()];
    - [os_ReadFile], [json_Unmarshal]. *)
Record Prims (W : Type) := {
  os_Stat : string -> W -> option error * W;
  os_CreateTemp : W -> result string * W;
  os_Remove : string -> W -> option error * W;
  cmd_Run : string -> list string -> W -> option error * W;
  os_ReadFile : string -> W -> result string * W;
  json_Unmarshal : string -> result essentiaOutput
}.
Arguments os_Stat {W}.
Arguments os_CreateTemp {W}.
Arguments os_Remove {W}.
Arguments cmd_Run {W}.
Arguments os_ReadFile {W}.
Arguments json_Unmarshal {W}.

Section functions.
Context {W : Type} (P : Prims W) (E : probes.Essentia).

(** An analysis runs in a world that carries the log of its calls. *)
Definition acall {A} (c : Call) (prim : W -> A * W) : M (W * list Call) A :=
  fun st =>
    let (a, w') := prim (fst (world st)) in
    (a, {| world := (w', (snd (world st) ++ [c])%list); log := log st |}).

(** [parseEssentiaOutput] *)
Definition parseEssentiaOutput (outputPath : string)
  : M (W * list Call) (result audio.AudioMetrics) :=
  read <- acall (CallReadFile outputPath) (os_ReadFile P outputPath) ;;
  match read with
  | inr err => ret (inr err)
  | inl data =>
      match json_Unmarshal P data with
      | inr err => ret (inr err)
      | inl output =>
          ret (inl {| audio.BPM := Rhythm_BPM output;
                      audio.BeatsLoudness := Rhythm_BeatsLoudness_Mean output;
                      audio.AverageLoudness := Lowlevel_AverageLoudness output;
                      audio.Danceability :=
                        Highlevel_Danceability_All_Danceable output |})
      end
  end.

(** [IsAvailable] *)
Definition IsAvailable : bool :=
  if probes.essentiaErr E is None then true else false.

(** [Analyze]; the deferred [os.Remove(outputPath)] runs on every return
    after the temporary file exists. *)
Definition Analyze (audioPath : string)
  : M (W * list Call) (AnalysisResult + AnalyzeError) :=
  let cmdPath := probes.essentiaPath E in
  match probes.essentiaErr E with
  | Some _ => ret (inr (Plain ErrAnalyzerNotAvailable))
  | None =>
      (* Check if file exists *)
      serr <- acall (CallStat audioPath) (os_Stat P audioPath) ;;
      match serr with
      | Some err => ret (inr (Plain (ErrWrap "audio file not found: " err)))
      | None =>
          (* Create temp file for output *)
          tmp <- acall CallCreateTemp (os_CreateTemp P) ;;
          match tmp with
          | inr err => ret (inr (Plain (ErrWrap "failed to create temp file: " err)))
          | inl outputPath =>
              r <- ((* Run essentia analysis *)
                    rerr <- (if probes.useScriptMode E
                             then acall (CallRun (probes.pythonPath E)
                                                 [cmdPath; audioPath; outputPath])
                                        (cmd_Run P (probes.pythonPath E)
                                                 [cmdPath; audioPath; outputPath])
                             else acall (CallRun cmdPath [audioPath; outputPath])
                                        (cmd_Run P cmdPath [audioPath; outputPath])) ;;
                    match rerr with
                    | Some err => ret (inr (Failed err))
                    | None =>
                        (* Parse output JSON *)
                        parsed <- parseEssentiaOutput outputPath ;;
                        match parsed with
                        | inr err =>
                            ret (inr (Plain (ErrWrap "failed to parse essentia output: "
                                                     err)))
                        | inl metrics =>
                            (* Classify energy *)
                            let '(suggestedEnergy, scoreBreakdown) :=
                              audio.classifyEnergy metrics in
                            ret (inl {| SuggestedEnergy := suggestedEnergy;
                                        Metrics := metrics;
                                        Score := scoreBreakdown |})
                        end
                    end) ;;
              acall (CallRemove outputPath) (os_Remove P outputPath) ;;;
              ret r
          end
      end
  end.
End functions.

(** [GetAudioFilePath] *)
Definition GetAudioFilePath (Join : string -> string -> string)
    (libraryPath relativePath : string) : string :=
  Join libraryPath relativePath.

(** The interface [Analyzer], over a world [V]. *)
Record Analyzer (V : Type) := {
  analyzer_Analyze : string -> M V (AnalysisResult + AnalyzeError);
  analyzer_IsAvailable : bool
}.
Arguments analyzer_Analyze {V}.
Arguments analyzer_IsAvailable {V}.

(** [EssentiaAnalyzer] *)
Definition EssentiaAnalyzer {W} (P : Prims W) (E : probes.Essentia)
  : Analyzer (W * list Call) :=
  {| analyzer_Analyze := Analyze P E; analyzer_IsAvailable := IsAvailable E |}.

(** song_analysis.go *)
Record suggestedEnergyResponse := {
  respID : string;
  respSuggestedEnergy : string;
  respMetrics : audio.AudioMetrics;
  respScore : audio.ScoreBreakdown
}.

Section handler.
Context {V : Type}.
Context (ds_Get : string -> V -> result MediaFile * V).
Context (filepath_Join : string -> string -> string).

(** [getSuggestedEnergy]; a nil analyzer is [None]. *)
Definition getSuggestedEnergy (analyzer : option (Analyzer V)) (id : string)
  : M V (Reply suggestedEnergyResponse) :=
  match analyzer with
  | None =>
      ret (HttpError "Audio analyzer not available. Please install essentia_streaming_extractor_music."
                     StatusServiceUnavailable)
  | Some analyzer =>
      (* Check if analyzer is available *)
      if negb (analyzer_IsAvailable analyzer) then
        ret (HttpError "Audio analyzer not available. Please install essentia_streaming_extractor_music."
                       StatusServiceUnavailable)
      else
        (* Get the media file *)
        got <- call (EvGet id) (ds_Get id) ;;
        match got with
        | inr err =>
            if errors_Is err ErrNotFound
            then ret (HttpError "Song not found" StatusNotFound)
            else ret (HttpError "Internal server error" StatusInternalServerError)
        | inl mf =>
            (* Build the full path to the file *)
            let fullPath := filepath_Join (LibraryPath mf) (Path mf) in
            (* Run analysis *)
            analysed <- analyzer_Analyze analyzer fullPath ;;
            match analysed with
            | inr err =>
                if Is err ErrAnalyzerNotAvailable
                then ret (HttpError "Audio analyzer not available"
                                    StatusServiceUnavailable)
                else ret (HttpError ("Failed to analyze audio: " ++ ErrorOf err)
                                    StatusInternalServerError)
            | inl result =>
                ret (HttpJSON {| respID := id;
                                 respSuggestedEnergy := SuggestedEnergy result;
                                 respMetrics := Metrics result;
                                 respScore := Score result |})
            end
        end
  end.
End handler.

End analyzer.

(* ===================================================================== *)
(** ** ui: the album tag fields and the energy and mood fields *)
(* ===================================================================== *)

Module ui.

(** A song record as the UI receives it; [tags] may be undefined. *)
Record Song := { tags : option (gmap string (list string)) }.

Definition ENERGY_VALUES : list string := ["low"; "medium"; "high"].
Definition MOOD_VALUES : list string := ["negative"; "neutral"; "positive"].

(** [song?.tags?.[tagName]?.[0] || ''], for a song that may be null. *)
Definition firstValue (song : option Song) (tagName : string) : string :=
  match song with
  | None => ""
  | Some song =>
      match tags song with
      | None => ""
      | Some tags =>
          match tags !! tagName with
          | Some (v :: _) => v
          | _ => ""
          end
      end
  end.

(** [getCommonTagValue]: the common value for a tag across all songs, or
    '' if mixed; [songs] may be null. *)
Definition getCommonTagValue (songs : option (list (option Song))) (tagName : string)
  : string :=
  match songs with
  | None => ""
  | Some [] => ""
  | Some ((song0 :: _) as songs) =>
      let firstValue0 := firstValue song0 tagName in
      let allSame :=
        forallb (fun song => String.eqb (firstValue song tagName) firstValue0) songs in
      if allSame then firstValue0 else ""
  end.

(** [const newValue = value === current ? '' : value]: clicking the
    current value unsets it. *)
Definition newValue (value current : string) : string :=
  if String.eqb value current then "" else value.

End ui.

(* ===================================================================== *)
(** ** Further notions for the statements *)
(* ===================================================================== *)

Module notions.

(** A tag map as [taglib.Read] builds it: no empty key, every key in lower
    case, every list of values non-empty. *)
Definition wellFormed (m : gmap string (list string)) : Prop :=
  forall k vs, m !! k = Some vs ->
    k <> "" /\ GoStrings.ToLower k = k /\ vs <> [].

(** The line [goPutLyricLine] formats from a text and a time in
    milliseconds. *)
Definition lyricLine (text : string) (time : Z) : string :=
  let timeGo := time in
  let ms := Z.rem timeGo 1000 in
  let timeGo := Z.quot timeGo 1000 in
  let sec := Z.rem timeGo 60 in
  let timeGo := Z.quot timeGo 60 in
  let minimum := Z.rem timeGo 60 in
  "[" ++ taglib.fmt02d minimum ++ ":" ++ taglib.fmt02d sec ++ "."
      ++ taglib.fmt02d (Z.quot ms 10) ++ "]" ++ text ++ String (ascii_of_nat 10) "".

(** The key under which lyrics in language [lang] are recorded. *)
Definition lyricsKey (lang : string) : string :=
  GoStrings.ToLower ("lyrics:" ++ lang).

(** The files whose tag block a log shows being read, in order. *)
Definition readsOf (l : list Event) : list string :=
  omap (fun ev => match ev with EvTaglibRead f => Some f | _ => None end) l.

(** The total of the waits of a log, in nanoseconds. *)
Definition totalBackoff (l : list Event) : Z :=
  fold_right Z.add 0 (backoffsOf l).

(** What [FetchTrackData] makes of a response whose status is not 429. *)
Definition answerOf (resp : trackanalysis.Response) : result trackanalysis.TrackData :=
  if trackanalysis.StatusCode resp =? 404 then inr trackanalysis.ErrTrackNotFound
  else if negb (trackanalysis.StatusCode resp =? 200) then
    inr (ErrNew ("API returned status " ++ Itoa (trackanalysis.StatusCode resp)))
  else
    match trackanalysis.Body resp with
    | inr err => inr (ErrWrap "failed to decode API response: " err)
    | inl apiResp =>
        inl {| trackanalysis.EnergyVal := trackanalysis.api_Energy apiResp;
               trackanalysis.Happiness := trackanalysis.api_Happiness apiResp;
               trackanalysis.Instrumentalness :=
                 trackanalysis.api_Instrumentalness apiResp |}
    end.

(** The calls the two fetch stages can make. *)
Definition isLyricsStageEvent (ev : Event) : bool :=
  match ev with
  | EvFetchFromGenius _ | EvGeniusScript _ _ | EvTaglibWriteLyrics _ _ _
  | EvPut _ => true
  | _ => false
  end.

Definition isTrackStageEvent (ev : Event) : bool :=
  match ev with
  | EvFetchTrackData _ _ | EvHttpDo _ | EvBackoff _ | EvTaglibWriteTag _ _ _ => true
  | _ => false
  end.

(** The calls of the data store and of the clock. *)
Definition isStoreCall (ev : Event) : bool :=
  match ev with
  | EvGet _ | EvGetAll _ | EvGetWithTracks _ | EvPut _ | EvNow => true
  | _ => false
  end.

(** The number of Puts a log shows. *)
Definition putsOf (l : list Event) : Z := Z.of_nat (length (List.filter isPut l)).

(** The data store gave no songs: an error, or an empty list. *)
Definition noSongs (got : result (list MediaFile)) : bool :=
  match got with
  | inl (_ :: _) => false
  | _ => true
  end.

(** What a batch handler answers then; [what] is "Album" or "Playlist". *)
Definition noSongsReply {R} (what : string) (got : result (list MediaFile))
    (reply : Reply R) : Prop :=
  match got with
  | inr err =>
      reply = if errors_Is err ErrNotFound
              then HttpError (what ++ " not found") 404
              else HttpError "Internal server error" 500
  | inl [] => reply = HttpError ("No songs found in " ++ GoStrings.ToLower what) 404
  | inl (_ :: _) => True
  end.

(** A location that [os.Stat] finds. *)
Definition exists_ (H : probes.Host) (loc : string) : Prop := probes.Stat H loc = None.

(** [loc] is the first of [locations] that exists. *)
Definition firstOf (H : probes.Host) (locations : list string) (loc : string) : Prop :=
  exists before after,
    locations = (before ++ loc :: after)%list
    /\ exists_ H loc
    /\ Forall (fun l => ~ exists_ H l) before.

(** The calls of an analysis between the creation and the removal of its
    temporary file: the run of the tool, and the reading of the output
    when the run succeeded. *)
Definition analysisCalls (E : probes.Essentia) (audioPath outputPath : string)
    (ranWell : bool) : list analyzer.Call :=
  let run :=
    if probes.useScriptMode E
    then analyzer.CallRun (probes.pythonPath E)
                          [probes.essentiaPath E; audioPath; outputPath]
    else analyzer.CallRun (probes.essentiaPath E) [audioPath; outputPath] in
  if ranWell then [run; analyzer.CallReadFile outputPath] else [run].

End notions.
Import notions.

(* ===================================================================== *)
(** ** More of the small concrete world *)
(* ===================================================================== *)

Module sim_more.

(** The world of [sim.worldWith] with a data store that refuses writes. *)
Definition worldDbDown : sim.World := {|
  sim.files := {[ "/music/a.flac" := [] ]};
  sim.readOnly := [];
  sim.db := {[ "s1" := sim.song1 ]};
  sim.dbDown := true;
  sim.clock := 0;
  sim.deadline := 3600 * trackanalysis.Second;
  sim.upstream := [];
  sim.genius := ∅
|}.

(** A host: whether the Essentia tool and python3 are on the path, the
    scripts that exist, and the Genius token. *)
Definition host (cli python : bool) (scripts : list string) (token : string)
  : probes.Host := {|
  probes.LookPath := fun name =>
    if String.eqb name "essentia_streaming_extractor_music" && cli
    then ("/usr/bin/essentia_streaming_extractor_music", None)
    else if String.eqb name "python3" && python then ("/usr/bin/python3", None)
    else ("", Some (ErrNew "executable file not found in $PATH"));
  probes.Run := fun name args => None;
  probes.Executable := ("/app/navidrome", None);
  probes.Getwd := ("/data", None);
  probes.Stat := fun path =>
    if existsb (String.eqb path) scripts then None
    else Some (ErrNew "no such file or directory");
  probes.Dir := fun path => "/app";
  probes.Join := String.concat "/";
  probes.Getenv := fun name =>
    if String.eqb name "GENIUS_CLIENT_ACCESS_TOKEN" then token else ""
|}.

(** A file system for the analysis: the temporary files that exist.  The
    tool fails when [runFails]; its output always decodes to the same
    metrics. *)
Definition analyzerPrims (runFails : bool) : analyzer.Prims (list string) := {|
  analyzer.os_Stat := fun path w =>
    if String.eqb path "/music/a.flac" then (None, w)
    else (Some (ErrNew "no such file or directory"), w);
  analyzer.os_CreateTemp := fun w =>
    (inl "/tmp/essentia-1.json", "/tmp/essentia-1.json" :: w);
  analyzer.os_Remove := fun path w =>
    (None, List.filter (fun f => negb (String.eqb f path)) w);
  analyzer.cmd_Run := fun name args w =>
    if runFails then (Some (ErrNew "exit status 1"), w) else (None, w);
  analyzer.os_ReadFile := fun path w => (inl "{}", w);
  analyzer.json_Unmarshal := fun data =>
    inl {| analyzer.Rhythm_BPM := 140;
           analyzer.Rhythm_BeatsLoudness_Mean := 0.75;
           analyzer.Lowlevel_AverageLoudness := 0.85;
           analyzer.Highlevel_Danceability_All_Danceable := 0.75 |}
|}.

(** The Essentia tool found on the path. *)
Definition essentiaCli : probes.Essentia :=
  probes.essentiaCmd (host true false [] "").

(** The data store of the analysis handler: one song. *)
Definition getSong (id : string) (v : list string * list analyzer.Call)
  : result MediaFile * (list string * list analyzer.Call) :=
  if String.eqb id "s1" then (inl sim.song1, v) else (inr ErrNotFound, v).

End sim_more.

(* ===================================================================== *)
(** * Theorems *)
(* ===================================================================== *)

(** ** Strings *)

Lemma HasPrefix_app (p s : string) : GoStrings.HasPrefix (p ++ s) p = true.
Proof.
  induction p as [|c p IH]; simpl.
  - by destruct s.
  - by rewrite Ascii.eqb_refl.
Qed.

Lemma HasPrefix_inv (s p : string) :
  GoStrings.HasPrefix s p = true -> exists rest, s = p ++ rest.
Proof.
  revert s; induction p as [|c p IH]; intros s H.
  - by exists s.
  - destruct s as [|d s]; simpl in H; [discriminate|].
    destruct (Ascii.eqb d c) eqn:E; [|discriminate].
    apply Ascii.eqb_eq in E; subst d.
    destruct (IH _ H) as [rest ->]. by exists rest.
Qed.

Lemma ToLower_app (a b : string) :
  GoStrings.ToLower (a ++ b) = GoStrings.ToLower a ++ GoStrings.ToLower b.
Proof. induction a as [|c a IH]; simpl; [done|by rewrite IH]. Qed.

Lemma lowerByte_idem (c : ascii) :
  GoStrings.lowerByte (GoStrings.lowerByte c) = GoStrings.lowerByte c.
Proof.
  destruct c as [[] [] [] [] [] [] [] []]; reflexivity.
Qed.

Lemma ToLower_idem (s : string) :
  GoStrings.ToLower (GoStrings.ToLower s) = GoStrings.ToLower s.
Proof.
  induction s as [|c s IH]; simpl; [done|].
  by rewrite lowerByte_idem, IH.
Qed.

(** ** The monad and the loops *)

Lemma forRange_app {W A St} (body : St -> A -> M W St) (pre post : list A)
    (s : St) (st : State W) :
  forRange body (pre ++ post) s st =
  let (s1, st1) := forRange body pre s st in forRange body post s1 st1.
Proof.
  revert s st; induction pre as [|x pre IH]; intros s st; simpl.
  - reflexivity.
  - unfold bind. destruct (body s x st) as [s' st']. apply IH.
Qed.

(** A quantity every iteration raises by one is raised by the length. *)
Lemma forRange_count {W A St} (body : St -> A -> M W St) (mu : St -> Z) :
  (forall s x st, mu (fst (body s x st)) = mu s + 1) ->
  forall xs s st, mu (fst (forRange body xs s st)) = mu s + Z.of_nat (length xs).
Proof.
  intros Hstep xs; induction xs as [|x xs IH]; intros s st.
  - simpl. lia.
  - cbn [forRange]. unfold bind.
    specialize (Hstep s x st). destruct (body s x st) as [s' st']; simpl in Hstep.
    rewrite IH, Hstep. cbn [length]. lia.
Qed.

(** A quantity no iteration changes is unchanged. *)
Lemma forRange_keep {W A St B} (body : St -> A -> M W St) (f : St -> B) :
  (forall s x st, f (fst (body s x st)) = f s) ->
  forall xs s st, f (fst (forRange body xs s st)) = f s.
Proof.
  intros Hstep xs; induction xs as [|x xs IH]; intros s st.
  - reflexivity.
  - cbn [forRange]. unfold bind.
    specialize (Hstep s x st). destruct (body s x st) as [s' st']; simpl in Hstep.
    by rewrite IH.
Qed.

(** ** The classifier *)

Section classifier.
Import audio.

(** C4. [classifyEnergy] is a function of the metrics alone: its four
    sub-scores are those of the scoring table (BPM >= 130 gives 3,
    >= 110 gives 2, >= 85 gives 1, else 0; beat loudness >= 0.7 gives 2,
    >= 0.4 gives 1, else 0; average loudness >= 0.8 gives 1, else 0;
    danceability >= 0.7 gives 1, else 0), the total is their sum, and the
    label is high from 5, medium from 2, else low.  On
    (140, 0.75, 0.85, 0.75) it yields 3,2,1,1, total 7, high; on
    (90, 0.3, 0.5, 0.2) it yields 1,0,0,0, total 1, low. *)
Theorem classifyEnergy_scoring_table :
  (forall m : AudioMetrics,
      let total := bpmPoints (BPM m) + beatPoints (BeatsLoudness m)
                   + loudnessPoints (AverageLoudness m)
                   + dancePoints (Danceability m) in
      classifyEnergy m =
        (labelOf total,
         {| BPMScore := bpmPoints (BPM m);
            BeatsScore := beatPoints (BeatsLoudness m);
            LoudnessScore := loudnessPoints (AverageLoudness m);
            DanceabilityScore := dancePoints (Danceability m);
            TotalScore := total |})
      /\ 0 <= total <= 7)
  /\ (forall m1 m2 : AudioMetrics,
         BPM m1 = BPM m2 -> BeatsLoudness m1 = BeatsLoudness m2 ->
         AverageLoudness m1 = AverageLoudness m2 ->
         Danceability m1 = Danceability m2 ->
         classifyEnergy m1 = classifyEnergy m2)
  /\ classifyEnergy {| BPM := 140; BeatsLoudness := 0.75;
                       AverageLoudness := 0.85; Danceability := 0.75 |}
     = ("high", {| BPMScore := 3; BeatsScore := 2; LoudnessScore := 1;
                   DanceabilityScore := 1; TotalScore := 7 |})
  /\ classifyEnergy {| BPM := 90; BeatsLoudness := 0.3;
                       AverageLoudness := 0.5; Danceability := 0.2 |}
     = ("low", {| BPMScore := 1; BeatsScore := 0; LoudnessScore := 0;
                  DanceabilityScore := 0; TotalScore := 1 |}).
Proof.
  split; [|split; [|split; reflexivity]].
  - intros [bpm beats loud dance]; simpl.
    unfold classifyEnergy, bpmPoints, beatPoints, loudnessPoints, dancePoints,
      labelOf; simpl.
    destruct (fge bpm 130); [|destruct (fge bpm 110); [|destruct (fge bpm 85)]];
      (destruct (fge beats 0.7); [|destruct (fge beats 0.4)]);
      destruct (fge loud 0.8); destruct (fge dance 0.7);
      (split; [reflexivity | lia]).
  - intros [a1 b1 c1 d1] [a2 b2 c2 d2]; simpl; intros -> -> -> ->.
    reflexivity.
Qed.
End classifier.

(** ** What the tag reader and writer leave in the log *)

Section taglib_facts.
Context {W : Type} (P : taglib.Prims W).

Lemma WriteTag_log (filename tagName tagValue : string) (st : State W) :
  log (snd (taglib.WriteTag P filename tagName tagValue st))
  = (log st ++ [EvTaglibWriteTag filename tagName tagValue])%list.
Proof.
  unfold taglib.WriteTag, bind, call, ret.
  destruct (taglib.taglib_write_tag P filename tagName tagValue (world st))
    as [[res|r] w']; simpl; [|reflexivity].
  repeat (match goal with |- context [if ?c then _ else _] => destruct c end);
    reflexivity.
Qed.

(** A successful [Read] made the C call and nothing else. *)
Lemma Read_ok_log (filename : string) (st : State W) tags :
  fst (taglib.Read P filename st) = inl tags ->
  log (snd (taglib.Read P filename st)) = (log st ++ [EvTaglibRead filename])%list.
Proof.
  unfold taglib.Read, bind, call, ret.
  destruct (taglib.taglib_read P filename (world st)) as [[[res calls]|r] w'];
    simpl; [|intros H; discriminate H].
  destruct (taglib.runCallbacks calls ∅); simpl; [|intros H; discriminate H].
  destruct (res =? taglib.TAGLIB_ERR_PARSE P).
  - simpl. destruct (taglib.os_OpenFile P filename w') as [[|b e] w''];
      [|destruct b]; simpl; intros H; discriminate H.
  - destruct (res =? taglib.TAGLIB_ERR_AUDIO_PROPS P); simpl;
      [intros H; discriminate H|done].
Qed.

(** Whatever [Read] returns, the log only grows, and by reads. *)
Lemma Read_log (filename : string) (st : State W) :
  log (snd (taglib.Read P filename st)) = (log st ++ [EvTaglibRead filename])%list
  \/ log (snd (taglib.Read P filename st))
     = (log st ++ [EvTaglibRead filename; EvOpenFile filename])%list.
Proof.
  unfold taglib.Read, bind, call, ret.
  destruct (taglib.taglib_read P filename (world st)) as [[[res calls]|r] w'];
    simpl; [|by left].
  destruct (taglib.runCallbacks calls ∅); simpl; [|by left].
  destruct (res =? taglib.TAGLIB_ERR_PARSE P).
  - simpl. destruct (taglib.os_OpenFile P filename w') as [[|b e] w''];
      [|destruct b]; simpl; right; by rewrite <- app_assoc.
  - destruct (res =? taglib.TAGLIB_ERR_AUDIO_PROPS P); simpl; by left.
Qed.
End taglib_facts.

(** ** The batch counters *)

Section counters.
Context {W L : Type} (S : Sys W L).

Lemma fetchLyricsForSong_stages (resp : nativeapi_lyrics.fetchLyricsResponse)
    (song : MediaFile) (st : State W) :
  nativeapi_lyrics.fetchLyricsForSong S resp song st =
  let (read, st1) := taglib.Read (tagPrims S) (AbsolutePath S song) st in
  if hasCorrectlyStoredLyrics read then (nativeapi_lyrics.incSkipped resp, st1)
  else lyricsFetchStage S resp song st1.
Proof.
  unfold nativeapi_lyrics.fetchLyricsForSong, bind.
  destruct (taglib.Read _ _ st) as [read st1].
  fold (hasCorrectlyStoredLyrics read).
  by destruct (hasCorrectlyStoredLyrics read).
Qed.

Lemma processSong_stages (song : MediaFile) (st : State W) :
  nativeapi_trackdata.processSong S song st =
  let (read, st1) := taglib.Read (tagPrims S) (AbsolutePath S song) st in
  if hasTrackData read then (songSkipped, st1)
  else trackFetchStage S song st1.
Proof.
  unfold nativeapi_trackdata.processSong, bind.
  destruct (taglib.Read _ _ st) as [read st1].
  fold isMetricTag. fold (hasTrackData read).
  by destruct (hasTrackData read).
Qed.

Lemma lyricsFetchStage_outcome resp song st :
  fst (lyricsFetchStage S resp song st) = nativeapi_lyrics.incFetched resp
  \/ fst (lyricsFetchStage S resp song st) = nativeapi_lyrics.incFailed resp.
Proof.
  unfold lyricsFetchStage, bind, ret.
  destruct (lyrics.FetchFromGenius _ _ _ song st) as [[lyricsList|e] st1]; simpl;
    [|by right].
  destruct (length lyricsList =? 0)%nat; simpl; [by right|].
  destruct (json_Marshal S lyricsList) as [js|e]; simpl; [|by right].
  destruct (call _ _ st1) as [[e|] st2]; simpl; [by right|by left].
Qed.

Lemma trackFetchStage_outcome song st :
  fst (trackFetchStage S song st) = songFetched
  \/ fst (trackFetchStage S song st) = songFailed.
Proof.
  unfold trackFetchStage, bind, ret.
  destruct (trackanalysis.FetchTrackData _ _ _ st) as [[data|e] st1]; simpl;
    [|by right].
  destruct (nativeapi_trackdata.writeTrackDataTags S _ data st1) as [[e|] st2];
    simpl; [by right|by left].
Qed.

Lemma fetchLyricsForSong_outcome resp song st :
  let resp' := fst (nativeapi_lyrics.fetchLyricsForSong S resp song st) in
  resp' = nativeapi_lyrics.incFetched resp
  \/ resp' = nativeapi_lyrics.incFailed resp
  \/ resp' = nativeapi_lyrics.incSkipped resp.
Proof.
  cbv zeta. rewrite fetchLyricsForSong_stages.
  destruct (taglib.Read _ _ st) as [read st1].
  destruct (hasCorrectlyStoredLyrics read); simpl; [by right; right|].
  destruct (lyricsFetchStage_outcome resp song st1) as [->| ->]; auto.
Qed.

Lemma processSong_outcome song st :
  let r := fst (nativeapi_trackdata.processSong S song st) in
  r = songFetched \/ r = songFailed \/ r = songSkipped.
Proof.
  cbv zeta. rewrite processSong_stages.
  destruct (taglib.Read _ _ st) as [read st1].
  destruct (hasTrackData read); simpl; [by right; right|].
  destruct (trackFetchStage_outcome song st1) as [->| ->]; auto.
Qed.

Lemma tally_outcome (counts : Z * Z * Z) song st :
  let '(f, x, s) := counts in
  let counts' := fst (nativeapi_trackdata.tally S counts song st) in
  counts' = (f + 1, x, s) \/ counts' = (f, x + 1, s) \/ counts' = (f, x, s + 1).
Proof.
  destruct counts as [[f x] s]. cbv zeta.
  unfold nativeapi_trackdata.tally, bind, ret.
  pose proof (processSong_outcome song st) as H; cbv zeta in H.
  destruct (nativeapi_trackdata.processSong S song st) as [r st1]; simpl in *.
  destruct H as [->|[->| ->]]; simpl; auto.
Qed.

Lemma fetchLyricsForSongs_balance songs st :
  let resp := fst (nativeapi_lyrics.fetchLyricsForSongs S songs st) in
  nativeapi_lyrics.Total resp = Z.of_nat (length songs)
  /\ nativeapi_lyrics.Total resp = lyricsSum resp.
Proof.
  cbv zeta. unfold nativeapi_lyrics.fetchLyricsForSongs.
  rewrite (forRange_keep _ nativeapi_lyrics.Total).
  2:{ intros s x st'.
      destruct (fetchLyricsForSong_outcome s x st') as [->|[->| ->]]; done. }
  rewrite (forRange_count _ lyricsSum).
  2:{ intros s x st'. unfold lyricsSum.
      destruct (fetchLyricsForSong_outcome s x st') as [->|[->| ->]]; simpl; lia. }
  unfold lyricsSum; simpl. lia.
Qed.

Lemma fetchTrackDataForSongs_balance songs st :
  let resp := fst (nativeapi_trackdata.fetchTrackDataForSongs S songs st) in
  nativeapi_trackdata.Total resp = Z.of_nat (length songs)
  /\ nativeapi_trackdata.Total resp = trackSum resp.
Proof.
  cbv zeta. unfold nativeapi_trackdata.fetchTrackDataForSongs, bind, ret.
  pose proof (forRange_count (nativeapi_trackdata.tally S) tallySum) as H.
  specialize (H ltac:(intros [[f x] s] song st';
    pose proof (tally_outcome (f, x, s) song st') as T; cbv zeta in T;
    destruct T as [->|[->| ->]]; simpl; lia) songs (0, 0, 0) st).
  destruct (forRange _ songs (0, 0, 0) st) as [[[f x] s] st1]; simpl in *.
  unfold trackSum; simpl. split; [done|lia].
Qed.

Lemma fetchAlbumLyrics_balance albumID st :
  repliesBalanced nativeapi_lyrics.Total lyricsSum
    (fst (ds_GetAll S albumID (world st)))
    (fst (nativeapi_lyrics.fetchAlbumLyrics S albumID st)).
Proof.
  unfold nativeapi_lyrics.fetchAlbumLyrics, bind, call, ret.
  destruct (negb _); simpl; [done|].
  destruct (ds_GetAll S albumID (world st)) as [[songs|e] w']; simpl.
  2:{ by destruct (errors_Is e ErrNotFound). }
  destruct (length songs =? 0)%nat; simpl; [done|].
  match goal with |- context [nativeapi_lyrics.fetchLyricsForSongs S songs ?st'] =>
    pose proof (fetchLyricsForSongs_balance songs st') as [H1 H2];
    destruct (nativeapi_lyrics.fetchLyricsForSongs S songs st') as [resp st2]
  end; simpl in *.
  split; [done|]. by exists songs.
Qed.

Lemma fetchPlaylistLyrics_balance playlistID st :
  repliesBalanced nativeapi_lyrics.Total lyricsSum
    (fst (ds_GetWithTracks S playlistID (world st)))
    (fst (nativeapi_lyrics.fetchPlaylistLyrics S playlistID st)).
Proof.
  unfold nativeapi_lyrics.fetchPlaylistLyrics, bind, call, ret.
  destruct (negb _); simpl; [done|].
  destruct (ds_GetWithTracks S playlistID (world st)) as [[songs|e] w']; simpl.
  2:{ by destruct (errors_Is e ErrNotFound). }
  destruct (length songs =? 0)%nat; simpl; [done|].
  match goal with |- context [nativeapi_lyrics.fetchLyricsForSongs S songs ?st'] =>
    pose proof (fetchLyricsForSongs_balance songs st') as [H1 H2];
    destruct (nativeapi_lyrics.fetchLyricsForSongs S songs st') as [resp st2]
  end; simpl in *.
  split; [done|]. by exists songs.
Qed.

Lemma fetchAlbumTrackData_balance albumID st :
  repliesBalanced nativeapi_trackdata.Total trackSum
    (fst (ds_GetAll S albumID (world st)))
    (fst (nativeapi_trackdata.fetchAlbumTrackData S albumID st)).
Proof.
  unfold nativeapi_trackdata.fetchAlbumTrackData, bind, call, ret.
  destruct (negb _); simpl; [done|].
  destruct (ds_GetAll S albumID (world st)) as [[songs|e] w']; simpl.
  2:{ by destruct (errors_Is e ErrNotFound). }
  destruct (length songs =? 0)%nat; simpl; [done|].
  match goal with |- context [nativeapi_trackdata.fetchTrackDataForSongs S songs ?st'] =>
    pose proof (fetchTrackDataForSongs_balance songs st') as [H1 H2];
    destruct (nativeapi_trackdata.fetchTrackDataForSongs S songs st') as [resp st2]
  end; simpl in *.
  split; [done|]. by exists songs.
Qed.

Lemma fetchPlaylistTrackData_balance playlistID st :
  repliesBalanced nativeapi_trackdata.Total trackSum
    (fst (ds_GetWithTracks S playlistID (world st)))
    (fst (nativeapi_trackdata.fetchPlaylistTrackData S playlistID st)).
Proof.
  unfold nativeapi_trackdata.fetchPlaylistTrackData, bind, call, ret.
  destruct (negb _); simpl; [done|].
  destruct (ds_GetWithTracks S playlistID (world st)) as [[songs|e] w']; simpl.
  2:{ by destruct (errors_Is e ErrNotFound). }
  destruct (length songs =? 0)%nat; simpl; [done|].
  match goal with |- context [nativeapi_trackdata.fetchTrackDataForSongs S songs ?st'] =>
    pose proof (fetchTrackDataForSongs_balance songs st') as [H1 H2];
    destruct (nativeapi_trackdata.fetchTrackDataForSongs S songs st') as [resp st2]
  end; simpl in *.
  split; [done|]. by exists songs.
Qed.

(** C1. For every batch run of the enrichment orchestrator, lyrics or
    track metrics, called for an album or for a playlist: the returned
    [total] is the number of member files supplied, it equals
    [fetched + failed + skipped], and each file raises exactly one of the
    three counters, by one. *)
Theorem batch_counters_account_for_every_file :
  (forall songs st,
      let resp := fst (nativeapi_lyrics.fetchLyricsForSongs S songs st) in
      nativeapi_lyrics.Total resp = Z.of_nat (length songs)
      /\ nativeapi_lyrics.Total resp
         = nativeapi_lyrics.Fetched resp + nativeapi_lyrics.Failed resp
           + nativeapi_lyrics.Skipped resp)
  /\ (forall songs st,
      let resp := fst (nativeapi_trackdata.fetchTrackDataForSongs S songs st) in
      nativeapi_trackdata.Total resp = Z.of_nat (length songs)
      /\ nativeapi_trackdata.Total resp
         = nativeapi_trackdata.Fetched resp + nativeapi_trackdata.Failed resp
           + nativeapi_trackdata.Skipped resp)
  /\ (forall resp song st,
      let resp' := fst (nativeapi_lyrics.fetchLyricsForSong S resp song st) in
      resp' = nativeapi_lyrics.incFetched resp
      \/ resp' = nativeapi_lyrics.incFailed resp
      \/ resp' = nativeapi_lyrics.incSkipped resp)
  /\ (forall f x s song st,
      let counts' := fst (nativeapi_trackdata.tally S (f, x, s) song st) in
      counts' = (f + 1, x, s) \/ counts' = (f, x + 1, s)
      \/ counts' = (f, x, s + 1))
  /\ (forall id st,
      repliesBalanced nativeapi_lyrics.Total lyricsSum
        (fst (ds_GetAll S id (world st)))
        (fst (nativeapi_lyrics.fetchAlbumLyrics S id st))
      /\ repliesBalanced nativeapi_lyrics.Total lyricsSum
        (fst (ds_GetWithTracks S id (world st)))
        (fst (nativeapi_lyrics.fetchPlaylistLyrics S id st))
      /\ repliesBalanced nativeapi_trackdata.Total trackSum
        (fst (ds_GetAll S id (world st)))
        (fst (nativeapi_trackdata.fetchAlbumTrackData S id st))
      /\ repliesBalanced nativeapi_trackdata.Total trackSum
        (fst (ds_GetWithTracks S id (world st)))
        (fst (nativeapi_trackdata.fetchPlaylistTrackData S id st))).
Proof.
  split; [intros songs st; exact (fetchLyricsForSongs_balance songs st)|].
  split; [intros songs st; exact (fetchTrackDataForSongs_balance songs st)|].
  split; [intros resp song st; exact (fetchLyricsForSong_outcome resp song st)|].
  split; [intros f x s song st; exact (tally_outcome (f, x, s) song st)|].
  intros id st. split; [apply fetchAlbumLyrics_balance|].
  split; [apply fetchPlaylistLyrics_balance|].
  split; [apply fetchAlbumTrackData_balance|apply fetchPlaylistTrackData_balance].
Qed.
End counters.

(** ** Keys of a tag block *)

Lemma rangeKeys_spec (tags : gmap string (list string)) (key : string) :
  key ∈ rangeKeys tags <-> is_Some (tags !! key).
Proof.
  unfold rangeKeys. rewrite list_elem_of_fmap. split.
  - intros [[k v] [-> Hin]]. apply elem_of_map_to_list in Hin. by exists v.
  - intros [v Hv]. exists (key, v). split; [done|]. by apply elem_of_map_to_list.
Qed.

Lemma existsb_rangeKeys (p : string -> bool) (tags : gmap string (list string)) :
  existsb p (rangeKeys tags) = true
  <-> exists key, is_Some (tags !! key) /\ p key = true.
Proof.
  rewrite existsb_exists. split.
  - intros [key [Hin Hp]]. exists key. split; [|done].
    apply rangeKeys_spec. by apply list_elem_of_In.
  - intros [key [Hin Hp]]. exists key. split; [|done].
    apply list_elem_of_In. by apply rangeKeys_spec.
Qed.

Lemma lyrics_prefix_lower (key : string) :
  GoStrings.HasPrefix key "lyrics:" = true ->
  GoStrings.HasPrefix (GoStrings.ToLower key) "lyrics:" = true.
Proof.
  intros H. destruct (HasPrefix_inv _ _ H) as [rest ->].
  rewrite ToLower_app.
  change (GoStrings.ToLower "lyrics:") with "lyrics:".
  apply HasPrefix_app.
Qed.

Lemma isMetricTag_spec (key : string) :
  isMetricTag key = true
  <-> GoStrings.ToLower key = "energyval"
      \/ GoStrings.ToLower key = "happiness"
      \/ GoStrings.ToLower key = "instrumentalness".
Proof.
  unfold isMetricTag. cbv zeta.
  rewrite !orb_true_iff, !String.eqb_eq. tauto.
Qed.

(** ** What the providers and the writer leave in the log *)

Section provider_logs.
Context {W L : Type} (S : Sys W L).

Lemma attempts_log (P : trackanalysis.Prims W) maxRetries req remaining :
  forall attempt resp st,
    exists evs,
      log (snd (trackanalysis.attempts P maxRetries req remaining attempt resp st))
      = (log st ++ evs)%list.
Proof.
  induction remaining as [|k IH]; intros attempt resp st.
  - exists []. simpl. by rewrite app_nil_r.
  - cbn [trackanalysis.attempts]. unfold bind.
    assert (Hwait : exists evs0 st0 c,
      (if 0 <? attempt
       then call (EvBackoff (wrap64 (wrap64 (Z.shiftl 1 attempt) * trackanalysis.Second)))
                 (trackanalysis.ctx_wait P
                    (wrap64 (wrap64 (Z.shiftl 1 attempt) * trackanalysis.Second)))
       else ret None) st = (c, st0) /\ log st0 = (log st ++ evs0)%list).
    { destruct (0 <? attempt).
      - unfold call. destruct (trackanalysis.ctx_wait P _ (world st)) as [c w'].
        by eexists [_], _, c.
      - exists [], st, None. split; [done|]. by rewrite app_nil_r. }
    destruct Hwait as (evs0 & st0 & c & -> & Hlog0).
    destruct c as [e|].
    + by exists evs0.
    + unfold call. destruct (trackanalysis.client_Do P req (world st0)) as [[r|e] w'].
      * destruct (negb (trackanalysis.StatusCode r =? trackanalysis.StatusTooManyRequests)).
        { eexists. simpl. rewrite Hlog0, <- app_assoc. reflexivity. }
        destruct (attempt =? maxRetries - 1).
        { eexists. simpl. rewrite Hlog0, <- app_assoc. reflexivity. }
        match goal with |- context [trackanalysis.attempts _ _ _ _ ?a ?r' ?s'] =>
          destruct (IH a r' s') as [evs Hevs] end.
        eexists. rewrite Hevs. simpl. rewrite Hlog0, <- !app_assoc. reflexivity.
      * eexists. simpl. rewrite Hlog0, <- app_assoc. reflexivity.
Qed.

(** The provider is entered, and the log only grows from there. *)
Lemma FetchTrackData_log (P : trackanalysis.Prims W) artist title st :
  exists evs,
    log (snd (trackanalysis.FetchTrackData P artist title st))
    = (log st ++ EvFetchTrackData artist title :: evs)%list.
Proof.
  unfold trackanalysis.FetchTrackData, bind, tell.
  destruct (String.eqb _ ""); [by exists []|].
  destruct (_ || _); [by exists []|].
  match goal with |- context [trackanalysis.attempts P ?m ?r ?n ?a ?o ?s] =>
    destruct (attempts_log P m r n a o s) as [evs Hevs];
    destruct (trackanalysis.attempts P m r n a o s) as [exit st1] end.
  simpl in Hevs.
  exists evs. rewrite <- app_assoc in Hevs. simpl in Hevs.
  destruct exit as [r|[resp|]]; [done| |done].
  destruct (_ =? trackanalysis.StatusNotFound); [done|].
  destruct (negb _); [done|].
  by destruct (trackanalysis.Body resp).
Qed.

(** [writeTrackDataTags] writes the three tags in order and stops at the
    first write that fails. *)
Lemma writeTrackDataTags_log filePath data st :
  let out := nativeapi_trackdata.writeTrackDataTags S filePath data st in
  let writes :=
    [EvTaglibWriteTag filePath "ENERGYVAL" (Itoa (trackanalysis.EnergyVal data));
     EvTaglibWriteTag filePath "HAPPINESS" (Itoa (trackanalysis.Happiness data));
     EvTaglibWriteTag filePath "INSTRUMENTALNESS"
                      (Itoa (trackanalysis.Instrumentalness data))] in
  exists n, (1 <= n <= 3)%nat
            /\ log (snd out) = (log st ++ take n writes)%list
            /\ (fst out = None -> n = 3%nat).
Proof.
  cbv zeta. unfold nativeapi_trackdata.writeTrackDataTags, bind, ret.
  pose proof (WriteTag_log (tagPrims S) filePath "ENERGYVAL"
                (Itoa (trackanalysis.EnergyVal data)) st) as H1.
  destruct (taglib.WriteTag _ filePath "ENERGYVAL" _ st) as [[e1|] st1];
    simpl in H1.
  { exists 1%nat. simpl. repeat split; [lia|lia|done|done]. }
  pose proof (WriteTag_log (tagPrims S) filePath "HAPPINESS"
                (Itoa (trackanalysis.Happiness data)) st1) as H2.
  destruct (taglib.WriteTag _ filePath "HAPPINESS" _ st1) as [[e2|] st2];
    simpl in H2.
  { exists 2%nat. simpl. rewrite H2, H1, <- app_assoc.
    repeat split; [lia|lia|done]. }
  pose proof (WriteTag_log (tagPrims S) filePath "INSTRUMENTALNESS"
                (Itoa (trackanalysis.Instrumentalness data)) st2) as H3.
  destruct (taglib.WriteTag _ filePath "INSTRUMENTALNESS" _ st2) as [[e3|] st3];
    simpl in H3; exists 3%nat; simpl; rewrite H3, H2, H1, <- !app_assoc;
    repeat split; lia.
Qed.

(** The lyrics provider is entered; it runs the script at most once and
    then attempts the file write at most once. *)
Lemma FetchFromGenius_log song st :
  let out := lyrics.FetchFromGenius (lyricsPrims S) (tagPrims S) (AbsolutePath S)
                                    song st in
  exists evs,
    log (snd out) = (log st ++ EvFetchFromGenius song :: evs)%list
    /\ (evs = []
        \/ evs = [EvGeniusScript (Artist song) (Title song)]
        \/ exists text,
             evs = [EvGeniusScript (Artist song) (Title song);
                    EvTaglibWriteLyrics (AbsolutePath S song) "xxx" text]).
Proof.
  cbv zeta. unfold lyrics.FetchFromGenius, lyrics.fromGenius, bind, tell, ret.
  destruct (lyrics.geniusCmd (lyricsPrims S)) as [[py script] [e|]]; simpl.
  { exists []. auto. }
  destruct (_ || _); simpl.
  { exists []. auto. }
  unfold call; simpl.
  destruct (lyrics.cmd_Output _ py script _ _ (world st)) as [[output|e] w1]; simpl.
  2:{ eexists. rewrite <- app_assoc. simpl. split; [reflexivity|auto]. }
  destruct (String.eqb (TrimSpace output) ""); simpl.
  { eexists. rewrite <- app_assoc. simpl. split; [reflexivity|auto]. }
  destruct (lyrics.ToLyrics _ "xxx" (TrimSpace output)) as [[l|]|e]; simpl.
  - destruct (lyrics.IsEmpty _ l); simpl.
    { eexists. rewrite <- app_assoc. simpl. split; [reflexivity|auto]. }
    unfold lyrics.saveLyricsToFile, bind, call, ret; simpl.
    destruct (taglib.WriteLyrics _ _ "xxx" _ w1) as [[e|] w2]; simpl;
      eexists; rewrite <- !app_assoc; simpl; (split; [reflexivity|]);
      right; right; by eexists.
  - eexists. rewrite <- app_assoc. simpl. split; [reflexivity|auto].
  - eexists. rewrite <- app_assoc. simpl. split; [reflexivity|auto].
Qed.
End provider_logs.

(** ** The skip policies *)

Section skip.
Context {W L : Type} (S : Sys W L).

Lemma hasTrackData_spec (read : result (gmap string (list string))) :
  hasTrackData read = true
  <-> exists tags key,
        read = inl tags /\ is_Some (tags !! key)
        /\ (GoStrings.ToLower key = "energyval"
            \/ GoStrings.ToLower key = "happiness"
            \/ GoStrings.ToLower key = "instrumentalness").
Proof.
  destruct read as [tags|e]; simpl.
  - rewrite existsb_rangeKeys. split.
    + intros (key & Hin & Hp). exists tags, key.
      by rewrite <- isMetricTag_spec.
    + intros (tags' & key & Heq & Hin & Hp). inversion Heq; subst tags'.
      exists key. by rewrite isMetricTag_spec.
  - split; [done|]. intros (tags & key & Heq & _). discriminate Heq.
Qed.

Lemma trackFetchStage_log song st :
  exists evs,
    log (snd (trackFetchStage S song st))
    = (log st ++ EvFetchTrackData (Artist song) (Title song) :: evs)%list.
Proof.
  unfold trackFetchStage, bind, ret.
  destruct (FetchTrackData_log (trackPrims S) (Artist song) (Title song) st)
    as [evs Hevs].
  destruct (trackanalysis.FetchTrackData _ _ _ st) as [[data|e] st1];
    simpl in *; [|by exists evs].
  destruct (writeTrackDataTags_log S (AbsolutePath S song) data st1)
    as (n & _ & Hw & _).
  destruct (nativeapi_trackdata.writeTrackDataTags S _ data st1) as [[e|] st2];
    simpl in *; eexists; rewrite Hw, Hevs, <- app_assoc; reflexivity.
Qed.

Lemma lyricsFetchStage_log resp song st :
  exists evs,
    log (snd (lyricsFetchStage S resp song st))
    = (log st ++ EvFetchFromGenius song :: evs)%list.
Proof.
  unfold lyricsFetchStage, bind, ret.
  destruct (FetchFromGenius_log S song st) as (evs & Hevs & _).
  destruct (lyrics.FetchFromGenius _ _ _ song st) as [[lyricsList|e] st1];
    simpl in *; [|by exists evs].
  destruct (length lyricsList =? 0)%nat; [by exists evs|].
  destruct (json_Marshal S lyricsList) as [js|e]; [|by exists evs].
  unfold call. destruct (ds_Put S _ (world st1)) as [[e|] w2]; simpl;
    eexists; rewrite Hevs, <- app_assoc; reflexivity.
Qed.

(** C2 (as amended). In the track-metrics flow a member file is counted as
    skipped exactly when its tag block can be read and carries at least
    one of the three metric tags (a key that lower-cases to energyval,
    happiness or instrumentalness); a skipped file sees nothing after the
    read, and a file that is not skipped proceeds to the provider fetch. *)
Theorem processSong_skips_on_any_metric_tag (song : MediaFile) (st : State W) :
  let read := taglib.Read (tagPrims S) (AbsolutePath S song) st in
  let out := nativeapi_trackdata.processSong S song st in
  (nativeapi_trackdata.skipped (fst out) = true
   <-> exists tags key,
         fst read = inl tags /\ is_Some (tags !! key)
         /\ (GoStrings.ToLower key = "energyval"
             \/ GoStrings.ToLower key = "happiness"
             \/ GoStrings.ToLower key = "instrumentalness"))
  /\ (nativeapi_trackdata.skipped (fst out) = true -> out = (songSkipped, snd read))
  /\ (nativeapi_trackdata.skipped (fst out) = false ->
      out = trackFetchStage S song (snd read)
      /\ exists evs,
           log (snd out)
           = (log (snd read) ++ EvFetchTrackData (Artist song) (Title song) :: evs)%list).
Proof.
  cbv zeta. rewrite processSong_stages.
  pose proof (hasTrackData_spec (fst (taglib.Read (tagPrims S) (AbsolutePath S song) st)))
    as Hspec.
  destruct (taglib.Read (tagPrims S) (AbsolutePath S song) st) as [read st1];
    simpl in *.
  destruct (hasTrackData read) eqn:Hhas; simpl.
  - split; [|split]; [by rewrite <- Hspec|done|discriminate].
  - destruct (trackFetchStage_outcome S song st1) as [Hout|Hout].
    + split; [|split].
      * rewrite Hout, <- Hspec. simpl. split; discriminate.
      * rewrite Hout. discriminate.
      * intros _. split; [done|]. apply trackFetchStage_log.
    + split; [|split].
      * rewrite Hout, <- Hspec. simpl. split; discriminate.
      * rewrite Hout. discriminate.
      * intros _. split; [done|]. apply trackFetchStage_log.
Qed.
End skip.

(** The file of the song carries one metric tag out of three, and the
    upstream is ready to answer: the file is skipped all the same. *)
Lemma processSong_skips_on_any_metric_tag_witness :
  nativeapi_trackdata.skipped
    (fst (nativeapi_trackdata.processSong (sim.system "key") sim.song1
            (start (sim.worldWith [taglib.CallPutStr "ENERGYVAL" "50"]
                                  [sim.ok200 1 2 3])))) = true.
Proof.
  apply (proj1 (processSong_skips_on_any_metric_tag (sim.system "key") sim.song1
                  (start (sim.worldWith [taglib.CallPutStr "ENERGYVAL" "50"]
                                        [sim.ok200 1 2 3])))).
  exists {[ "energyval" := ["50"] ]}, "energyval".
  split; [vm_compute; reflexivity|].
  split; [by eexists|by left].
Defined.

(** C2, counterexample. A file whose tag block carries [energyval] alone,
    so fewer than all three metric tags, is skipped and no fetch is made. *)
Lemma processSong_skips_with_one_metric_tag :
  let st := start (sim.worldWith [taglib.CallPutStr "ENERGYVAL" "50"]
                                 [sim.ok200 1 2 3]) in
  let out := nativeapi_trackdata.processSong (sim.system "key") sim.song1 st in
  fst (taglib.Read sim.tagPrims "/music/a.flac" st) = inl {[ "energyval" := ["50"] ]}
  /\ carriesAllMetricTags {[ "energyval" := ["50"] ]} = false
  /\ fst out = songSkipped
  /\ log (snd out) = [EvTaglibRead "/music/a.flac"].
Proof. vm_compute. repeat split. Qed.

(** ** Lyrics reported by the tag library end up under a [lyrics:] key *)

Lemma doPutTag_keeps m key val k :
  is_Some (m !! k) -> is_Some (taglib.doPutTag m key val !! k).
Proof.
  intros Hk. unfold taglib.doPutTag. destruct (String.eqb key ""); [done|].
  cbv zeta. destruct (decide (GoStrings.ToLower key = k)) as [->|Hne].
  - rewrite lookup_insert_eq. by eexists.
  - by rewrite lookup_insert_ne.
Qed.

Lemma doPutTag_puts m key val :
  key <> "" -> is_Some (taglib.doPutTag m key val !! GoStrings.ToLower key).
Proof.
  intros Hne. unfold taglib.doPutTag.
  destruct (String.eqb key "") eqn:E; [by apply String.eqb_eq in E|].
  cbv zeta. rewrite lookup_insert_eq. by eexists.
Qed.

Lemma goPutLyricLine_keeps m lang text time m' k :
  taglib.goPutLyricLine m lang text time = Some m' ->
  is_Some (m !! k) -> is_Some (m' !! k).
Proof.
  unfold taglib.goPutLyricLine. cbv zeta.
  intros H Hk.
  destruct (m !! GoStrings.ToLower ("lyrics:" ++ lang)) as [[|first others]|] eqn:E;
    [discriminate| |]; inversion H; subst m'; clear H.
  - destruct (decide (GoStrings.ToLower ("lyrics:" ++ lang) = k)) as [<-|Hne].
    + rewrite lookup_insert_eq. by eexists.
    + by rewrite lookup_insert_ne.
  - destruct (decide (GoStrings.ToLower ("lyrics:" ++ lang) = k)) as [<-|Hne].
    + rewrite lookup_insert_eq. by eexists.
    + by rewrite lookup_insert_ne.
Qed.

Lemma runCallback_keeps m c m' k :
  taglib.runCallback m c = Some m' -> is_Some (m !! k) -> is_Some (m' !! k).
Proof.
  destruct c; simpl; intros H Hk;
    try (inversion H; subst m'; by apply doPutTag_keeps).
  by eapply goPutLyricLine_keeps.
Qed.

Lemma runCallbacks_keeps calls : forall m m' k,
  taglib.runCallbacks calls m = Some m' -> is_Some (m !! k) -> is_Some (m' !! k).
Proof.
  induction calls as [|c calls IH]; simpl; intros m m' k H Hk.
  - by inversion H; subst.
  - destruct (taglib.runCallback m c) as [m1|] eqn:E; [|discriminate].
    eapply IH; [exact H|]. by eapply runCallback_keeps.
Qed.

(** [goPutLyrics] records its value under ["lyrics:" + lang], lower-cased. *)
Lemma goPutLyrics_key m lang val :
  let k := GoStrings.ToLower ("lyrics:" ++ lang) in
  is_Some (taglib.goPutLyrics m lang val !! k)
  /\ GoStrings.HasPrefix k "lyrics:" = true.
Proof.
  cbv zeta. split.
  - unfold taglib.goPutLyrics. by apply doPutTag_puts.
  - rewrite ToLower_app. apply HasPrefix_app.
Qed.

Lemma runCallbacks_lyrics calls lang val : forall m m',
  In (taglib.CallPutLyrics lang val) calls ->
  taglib.runCallbacks calls m = Some m' ->
  exists key, is_Some (m' !! key) /\ GoStrings.HasPrefix key "lyrics:" = true.
Proof.
  induction calls as [|c calls IH]; simpl; intros m m' Hin H; [done|].
  destruct (taglib.runCallback m c) as [m1|] eqn:E; [|discriminate].
  destruct Hin as [->|Hin].
  - simpl in E. inversion E; subst m1.
    destruct (goPutLyrics_key m lang val) as [Hk Hp].
    eexists. split; [|exact Hp]. by eapply runCallbacks_keeps.
  - by eapply IH.
Qed.

(** What [Read] returns when the C call returns: the map the callbacks
    built. *)
Lemma Read_ok_inv {W} (P : taglib.Prims W) filename st tags :
  fst (taglib.Read P filename st) = inl tags ->
  exists res calls w',
    taglib.taglib_read P filename (world st) = (taglib.Returned (res, calls), w')
    /\ taglib.runCallbacks calls ∅ = Some tags.
Proof.
  unfold taglib.Read, bind, call, ret.
  destruct (taglib.taglib_read P filename (world st)) as [[[res calls]|r] w'];
    simpl; [|intros H; discriminate H].
  destruct (taglib.runCallbacks calls ∅) as [m|] eqn:Hrun; simpl;
    [|intros H; discriminate H].
  destruct (res =? taglib.TAGLIB_ERR_PARSE P).
  - simpl. destruct (taglib.os_OpenFile P filename w') as [[|b e] w''];
      [|destruct b]; simpl; intros H; discriminate H.
  - destruct (res =? taglib.TAGLIB_ERR_AUDIO_PROPS P); simpl;
      intros H; [discriminate H|].
    inversion H; subst. exists res, calls, w'. by split.
Qed.

Section lyrics_skip.
Context {W L : Type} (S : Sys W L).

Lemma hasCorrectlyStoredLyrics_prefix tags key :
  is_Some (tags !! key) -> GoStrings.HasPrefix key "lyrics:" = true ->
  hasCorrectlyStoredLyrics (inl tags) = true.
Proof.
  intros Hin Hp. simpl. apply existsb_rangeKeys. exists key.
  split; [done|]. by apply lyrics_prefix_lower.
Qed.

Lemma fetchLyricsForSong_skip resp song st tags key :
  fst (taglib.Read (tagPrims S) (AbsolutePath S song) st) = inl tags ->
  is_Some (tags !! key) ->
  GoStrings.HasPrefix key "lyrics:" = true ->
  nativeapi_lyrics.fetchLyricsForSong S resp song st
  = (nativeapi_lyrics.incSkipped resp,
     snd (taglib.Read (tagPrims S) (AbsolutePath S song) st)).
Proof.
  intros Hread Hin Hp. rewrite fetchLyricsForSong_stages.
  destruct (taglib.Read (tagPrims S) (AbsolutePath S song) st) as [read st1];
    simpl in *. subst read.
  by rewrite (hasCorrectlyStoredLyrics_prefix tags key).
Qed.

(** C9. In the lyrics flow a member file whose readable tag block has a
    key beginning with "lyrics:" is counted as skipped, and nothing
    happens for it after the tag read: the provider is not entered,
    whatever it would have answered.  This holds wherever the file stands
    in the batch, and in particular for every file for which the tag
    library reported lyrics through [goPutLyrics]. *)
Theorem lyrics_tagged_file_is_skipped
    (resp : nativeapi_lyrics.fetchLyricsResponse) (song : MediaFile)
    (st : State W) (tags : gmap string (list string)) (key : string) :
  fst (taglib.Read (tagPrims S) (AbsolutePath S song) st) = inl tags ->
  is_Some (tags !! key) ->
  GoStrings.HasPrefix key "lyrics:" = true ->
  let out := nativeapi_lyrics.fetchLyricsForSong S resp song st in
  fst out = nativeapi_lyrics.incSkipped resp
  /\ snd out = snd (taglib.Read (tagPrims S) (AbsolutePath S song) st)
  /\ log (snd out) = (log st ++ [EvTaglibRead (AbsolutePath S song)])%list
  /\ (forall post resp0 st0 pre,
         forRange (nativeapi_lyrics.fetchLyricsForSong S) pre resp0 st0 = (resp, st) ->
         forRange (nativeapi_lyrics.fetchLyricsForSong S) (pre ++ song :: post) resp0 st0
         = forRange (nativeapi_lyrics.fetchLyricsForSong S) post
             (nativeapi_lyrics.incSkipped resp)
             (snd (taglib.Read (tagPrims S) (AbsolutePath S song) st)))
  /\ (forall lang val res calls w',
         taglib.taglib_read (tagPrims S) (AbsolutePath S song) (world st)
         = (taglib.Returned (res, calls), w') ->
         In (taglib.CallPutLyrics lang val) calls ->
         exists key', is_Some (tags !! key')
                      /\ GoStrings.HasPrefix key' "lyrics:" = true).
Proof.
  intros Hread Hin Hp. cbv zeta.
  rewrite (fetchLyricsForSong_skip resp song st tags key Hread Hin Hp). simpl.
  split; [done|]. split; [done|].
  split; [by apply (Read_ok_log _ _ _ tags)|].
  split.
  - intros post resp0 st0 pre Hpre.
    rewrite forRange_app, Hpre. cbn [forRange]. unfold bind.
    by rewrite (fetchLyricsForSong_skip resp song st tags key Hread Hin Hp).
  - intros lang val res calls w' Hc Hcall.
    destruct (Read_ok_inv _ _ _ _ Hread) as (res' & calls' & w'' & Hc' & Hrun).
    rewrite Hc in Hc'. inversion Hc'; subst.
    by eapply runCallbacks_lyrics.
Qed.
End lyrics_skip.

(** The tag library reports lyrics in English for the file; the lookup
    script would find the song: the file is skipped. *)
Lemma lyrics_tagged_file_is_skipped_witness :
  let st := start (sim.worldWith [taglib.CallPutLyrics "eng" "la la"] []) in
  let resp := {| nativeapi_lyrics.Total := 1; nativeapi_lyrics.Fetched := 0;
                 nativeapi_lyrics.Failed := 0; nativeapi_lyrics.Skipped := 0 |} in
  fst (nativeapi_lyrics.fetchLyricsForSong (sim.system "key") resp sim.song1 st)
  = nativeapi_lyrics.incSkipped resp.
Proof.
  cbv zeta.
  apply (lyrics_tagged_file_is_skipped (sim.system "key") _ sim.song1 _
           {[ "lyrics:eng" := ["la la"] ]} "lyrics:eng").
  - vm_compute. reflexivity.
  - by eexists.
  - reflexivity.
Defined.

(** ** Files whose tag block cannot be read *)

Section unreadable.
Context {W L : Type} (S : Sys W L).

(** C10. In both skip-detection paths, when reading the file's tag block
    returns an error the file is treated as having no stored data: it is
    not counted as skipped, what happens to it is exactly what the fetch
    stage does from the state the read left (so the read error alone does
    not make it failed), and the provider is entered next. *)
Theorem unreadable_file_proceeds_to_fetch
    (resp : nativeapi_lyrics.fetchLyricsResponse) (song : MediaFile)
    (st : State W) (err : error) :
  fst (taglib.Read (tagPrims S) (AbsolutePath S song) st) = inr err ->
  let st1 := snd (taglib.Read (tagPrims S) (AbsolutePath S song) st) in
  let track := nativeapi_trackdata.processSong S song st in
  let lyr := nativeapi_lyrics.fetchLyricsForSong S resp song st in
  (track = trackFetchStage S song st1
   /\ nativeapi_trackdata.skipped (fst track) = false
   /\ exists evs,
        log (snd track)
        = (log st1 ++ EvFetchTrackData (Artist song) (Title song) :: evs)%list)
  /\ (lyr = lyricsFetchStage S resp song st1
      /\ nativeapi_lyrics.Skipped (fst lyr) = nativeapi_lyrics.Skipped resp
      /\ exists evs,
           log (snd lyr) = (log st1 ++ EvFetchFromGenius song :: evs)%list).
Proof.
  intros Hread. cbv zeta.
  rewrite processSong_stages, fetchLyricsForSong_stages.
  destruct (taglib.Read (tagPrims S) (AbsolutePath S song) st) as [read st1];
    simpl in *. subst read. simpl.
  split; (split; [reflexivity|split]).
  - by destruct (trackFetchStage_outcome S song st1) as [->| ->].
  - apply trackFetchStage_log.
  - by destruct (lyricsFetchStage_outcome S resp song st1) as [->| ->].
  - apply lyricsFetchStage_log.
Qed.
End unreadable.

(** The file of the song cannot be parsed; the upstream has the metrics:
    the song goes to the fetch stage. *)
Lemma unreadable_file_proceeds_to_fetch_witness :
  let st := start (sim.worldUnreadable [sim.ok200 1 2 3]) in
  nativeapi_trackdata.skipped
    (fst (nativeapi_trackdata.processSong (sim.system "key") sim.song1 st)) = false.
Proof.
  cbv zeta.
  refine (proj1 (proj2 (proj1
    (unreadable_file_proceeds_to_fetch (sim.system "key")
       {| nativeapi_lyrics.Total := 1; nativeapi_lyrics.Fetched := 0;
          nativeapi_lyrics.Failed := 0; nativeapi_lyrics.Skipped := 0 |}
       sim.song1 (start (sim.worldUnreadable [sim.ok200 1 2 3]))
       (ErrWrap "cannot parse file media file: " (ErrNew "no such file or directory"))
       _)))).
  vm_compute. reflexivity.
Defined.

(** ** What happens after a successful fetch *)

Section after_fetch.
Context {W L : Type} (S : Sys W L).

End after_fetch.



(** ** The retry loop of the track-metrics client *)

Section retry.
Context {W : Type} (P : trackanalysis.Prims W).

(** The waits do not wrap: before attempts 1 to 5 they are 2, 4, 8, 16 and
    32 seconds. *)
Lemma backoffBefore_values :
  map backoffBefore [1; 2; 3; 4; 5]
  = map (fun s => s * trackanalysis.Second) [2; 4; 8; 16; 32].
Proof. reflexivity. Qed.

(** A wait the context cuts short ends the call with the context's error,
    before any further request. *)
Lemma attempts_cancelled maxRetries req k attempt resp st e w' :
  0 < attempt ->
  trackanalysis.ctx_wait P (backoffBefore attempt) (world st) = (Some e, w') ->
  trackanalysis.attempts P maxRetries req (S k) attempt resp st
  = (trackanalysis.Return (inr e),
     {| world := w'; log := (log st ++ [EvBackoff (backoffBefore attempt)])%list |}).
Proof.
  intros Hpos Hwait. cbn [trackanalysis.attempts]. unfold bind, call, ret.
  apply Z.ltb_lt in Hpos. rewrite Hpos.
  fold (backoffBefore attempt). by rewrite Hwait.
Qed.

(** The loop is never left with [resp] nil once its body has run, so the
    nil case after the loop in [FetchTrackData] is dead. *)
Lemma attempts_leaves_a_response maxRetries req remaining :
  forall attempt resp st,
    (0 < remaining)%nat \/ resp <> None ->
    fst (trackanalysis.attempts P maxRetries req remaining attempt resp st)
    <> trackanalysis.Leave None.
Proof.
  induction remaining as [|k IH]; intros attempt resp st Hsome.
  - simpl. destruct Hsome as [Hlt|Hne]; [lia|]. congruence.
  - cbn [trackanalysis.attempts]. unfold bind.
    match goal with |- context [let (_, _) := ?waited in _] =>
      destruct waited as [[e|] st0] end; [done|].
    unfold call. destruct (trackanalysis.client_Do P req (world st0)) as [[r|e] w'];
      [|done].
    destruct (negb _); [simpl; congruence|].
    destruct (attempt =? maxRetries - 1); [done|].
    apply IH. by right.
Qed.

Section always_busy.
Hypothesis Hbusy : forall req w,
  exists resp w', trackanalysis.client_Do P req w = (inl resp, w')
                  /\ trackanalysis.StatusCode resp = 429.
Hypothesis Hpatient : forall d w, fst (trackanalysis.ctx_wait P d w) = None.

Lemma attempts_busy maxRetries req remaining :
  forall attempt resp st,
    (0 < remaining)%nat ->
    attempt + Z.of_nat remaining = maxRetries ->
    let out := trackanalysis.attempts P maxRetries req remaining attempt resp st in
    fst out = trackanalysis.Return (inr trackanalysis.ErrRateLimited)
    /\ log (snd out)
       = (log st ++ busyLog (trackanalysis.req_URL req) remaining attempt)%list.
Proof.
  induction remaining as [|k IH]; intros attempt resp st Hpos Hsum; [lia|].
  cbv zeta. cbn [trackanalysis.attempts busyLog]. unfold bind.
  fold (backoffBefore attempt).
  set (waited := (if 0 <? attempt
                  then call (EvBackoff (backoffBefore attempt))
                            (trackanalysis.ctx_wait P (backoffBefore attempt))
                  else ret None) st).
  assert (Hw : exists st0,
             waited = (None, st0)
             /\ log st0 = (log st ++ (if 0 <? attempt
                                       then [EvBackoff (backoffBefore attempt)]
                                       else []))%list).
  { subst waited. destruct (0 <? attempt).
    - unfold call. pose proof (Hpatient (backoffBefore attempt) (world st)) as Hp.
      destruct (trackanalysis.ctx_wait P _ (world st)) as [c w']; simpl in Hp.
      subst c. by eexists.
    - exists st. split; [done|]. by rewrite app_nil_r. }
  destruct Hw as (st0 & -> & Hlog0).
  unfold call. destruct (Hbusy req (world st0)) as (r & w1 & -> & Hcode).
  rewrite Hcode. change (negb (429 =? trackanalysis.StatusTooManyRequests)) with false.
  cbv iota.
  destruct (attempt =? maxRetries - 1) eqn:Hlast.
  - apply Z.eqb_eq in Hlast. assert (k = 0%nat) as -> by lia.
    simpl. split; [done|]. by rewrite Hlog0, <- app_assoc.
  - apply Z.eqb_neq in Hlast.
    match goal with |- context [trackanalysis.attempts P _ _ k ?a ?r' ?s'] =>
      destruct (IH a r' s') as [Hres Hlog]; [lia|lia|] end.
    split; [exact Hres|].
    rewrite Hlog. simpl. rewrite Hlog0, <- !app_assoc. reflexivity.
Qed.

Lemma FetchTrackData_busy artist title st :
  trackanalysis.getAPIKey P <> "" -> artist <> "" -> title <> "" ->
  let out := trackanalysis.FetchTrackData P artist title st in
  fst out = inr trackanalysis.ErrRateLimited
  /\ log (snd out)
     = (log st ++ EvFetchTrackData artist title
               :: busyLog (requestURL P artist title) 6 0)%list.
Proof.
  intros Hkey Ha Ht. cbv zeta.
  unfold trackanalysis.FetchTrackData, bind, tell.
  apply String.eqb_neq in Hkey, Ha, Ht. rewrite Hkey, Ha, Ht.
  change (false || false) with false. cbv beta iota.
  match goal with |- context [trackanalysis.attempts P ?m ?r ?n ?a ?o ?s] =>
    destruct (attempts_busy m r n a o s) as [Hres Hlog]; [simpl; lia|reflexivity|];
    destruct (trackanalysis.attempts P m r n a o s) as [exit st1] end.
  simpl in Hres, Hlog. subst exit. simpl.
  split; [done|]. rewrite Hlog, <- app_assoc. reflexivity.
Qed.
End always_busy.

(** C5 (as amended). When the upstream answers 429 to every attempt, the
    track-metrics fetch makes 6 attempts, waits 2, 4, 8, 16 and 32
    seconds before the second to the sixth of them (five waits, none
    before the first attempt or after the last), and then returns
    RateLimited.  A backoff wait that the caller's context cuts short
    ends the call with the context's error, no further request being
    made. *)
Theorem FetchTrackData_rate_limited :
  ((forall req w,
       exists resp w', trackanalysis.client_Do P req w = (inl resp, w')
                       /\ trackanalysis.StatusCode resp = 429) ->
   (forall d w, fst (trackanalysis.ctx_wait P d w) = None) ->
   forall artist title st,
     trackanalysis.getAPIKey P <> "" -> artist <> "" -> title <> "" ->
     let out := trackanalysis.FetchTrackData P artist title st in
     let url := requestURL P artist title in
     fst out = inr trackanalysis.ErrRateLimited
     /\ log (snd out)
        = (log st ++
           [EvFetchTrackData artist title;
            EvHttpDo url; EvBackoff (2 * trackanalysis.Second);
            EvHttpDo url; EvBackoff (4 * trackanalysis.Second);
            EvHttpDo url; EvBackoff (8 * trackanalysis.Second);
            EvHttpDo url; EvBackoff (16 * trackanalysis.Second);
            EvHttpDo url; EvBackoff (32 * trackanalysis.Second);
            EvHttpDo url])%list)
  /\ (forall maxRetries req k attempt resp st e w',
         0 < attempt ->
         trackanalysis.ctx_wait P (backoffBefore attempt) (world st) = (Some e, w') ->
         trackanalysis.attempts P maxRetries req (S k) attempt resp st
         = (trackanalysis.Return (inr e),
            {| world := w';
               log := (log st ++ [EvBackoff (backoffBefore attempt)])%list |}))
  /\ (forall artist title st resp w1 e w2,
         trackanalysis.getAPIKey P <> "" -> artist <> "" -> title <> "" ->
         let req := {| trackanalysis.req_URL := requestURL P artist title;
                       trackanalysis.req_host := trackanalysis.apiHost;
                       trackanalysis.req_key := trackanalysis.getAPIKey P |} in
         trackanalysis.client_Do P req (world st) = (inl resp, w1) ->
         trackanalysis.StatusCode resp = 429 ->
         trackanalysis.ctx_wait P (2 * trackanalysis.Second) w1 = (Some e, w2) ->
         trackanalysis.FetchTrackData P artist title st
         = (inr e,
            {| world := w2;
               log := (log st ++ [EvFetchTrackData artist title;
                                  EvHttpDo (requestURL P artist title);
                                  EvBackoff (2 * trackanalysis.Second)])%list |})).
Proof.
  split; [|split].
  - intros Hbusy Hpatient artist title st Hkey Ha Ht. cbv zeta.
    exact (FetchTrackData_busy Hbusy Hpatient artist title st Hkey Ha Ht).
  - intros. by apply attempts_cancelled.
  - intros artist title st resp w1 e w2 Hkey Ha Ht req Hdo Hcode Hwait.
    unfold trackanalysis.FetchTrackData, bind, tell.
    apply String.eqb_neq in Hkey, Ha, Ht. rewrite Hkey, Ha, Ht.
    change (false || false) with false. cbv beta iota.
    change (Z.to_nat 6) with 6%nat. cbn [trackanalysis.attempts].
    unfold bind, call, ret. simpl.
    fold (requestURL P artist title). fold req. rewrite Hdo. simpl.
    rewrite Hcode. simpl.
    change (wrap64 (wrap64 (Z.shiftl 1 (0 + 1)) * trackanalysis.Second))
      with (2 * trackanalysis.Second).
    rewrite Hwait. simpl. by rewrite <- !app_assoc.
Qed.
End retry.

(** The upstream is always busy and the context never done: six attempts,
    then RateLimited. *)
Lemma FetchTrackData_rate_limited_witness :
  fst (trackanalysis.FetchTrackData (sim.trackPrimsBusy "key") "Artist" "Song"
         (start (sim.worldWith [] [])))
  = inr trackanalysis.ErrRateLimited.
Proof.
  refine (proj1 (proj1 (FetchTrackData_rate_limited (sim.trackPrimsBusy "key"))
                   _ _ "Artist" "Song" (start (sim.worldWith [] [])) _ _ _)).
  - intros req w. eexists _, w. split; reflexivity.
  - intros d w. reflexivity.
  - discriminate.
  - discriminate.
  - discriminate.
Defined.

(** C5, counterexample. Against an upstream that is always busy the waits
    are 2, 4, 8, 16 and 32 seconds, five of them between six requests:
    not the six waits 1, 2, 4, 8, 16, 32. *)
Lemma backoff_waits_are_five_from_two_seconds :
  let out := trackanalysis.FetchTrackData (sim.trackPrimsBusy "key") "Artist" "Song"
               (start (sim.worldWith [] [])) in
  fst out = inr trackanalysis.ErrRateLimited
  /\ requestsOf (log (snd out)) = 6%nat
  /\ backoffsOf (log (snd out))
     = map (fun s => s * trackanalysis.Second) [2; 4; 8; 16; 32]
  /\ backoffsOf (log (snd out))
     <> map (fun s => s * trackanalysis.Second) [1; 2; 4; 8; 16; 32]
  /\ sim.clock (world (snd out)) = 62 * trackanalysis.Second.
Proof. vm_compute. repeat split. discriminate. Qed.

(** Two busy answers and a deadline one second away: the first wait, of
    two seconds, is cut short and the call ends with the context's error
    after a single request. *)
Example FetchTrackData_deadline_in_first_wait :
  let w := sim.set_clock (3599 * trackanalysis.Second)
             (sim.worldWith [] [sim.busy429; sim.busy429]) in
  let out := trackanalysis.FetchTrackData (sim.trackPrims "key") "Artist" "Song"
               (start w) in
  fst out = inr (ErrNew "context deadline exceeded")
  /\ requestsOf (log (snd out)) = 1%nat
  /\ backoffsOf (log (snd out)) = [2 * trackanalysis.Second].
Proof. vm_compute. repeat split. Qed.

(** ** The tag handlers *)

Section handlers.
Context {W L : Type} (S : Sys W L).
Import nativeapi_song_tag.

Lemma Contains_In (values : list string) (v : string) :
  Contains values v = true <-> In v values.
Proof.
  unfold Contains. rewrite existsb_exists. split.
  - intros [x [Hin Heq]]. apply String.eqb_eq in Heq. by subst x.
  - intros Hin. exists v. split; [done|]. apply String.eqb_refl.
Qed.

Lemma Contains_not_In (values : list string) (v : string) :
  ~ In v values -> Contains values v = false.
Proof.
  intros Hn. destruct (Contains values v) eqn:E; [|done].
  by apply Contains_In in E.
Qed.

(** C7. A SetTag request whose value is outside the enumeration of its
    tag (energy: "", low, medium, high; mood: "", negative, neutral,
    positive) is answered with status 400 and nothing else happens: the
    handler makes no call at all, so neither the file tag nor the
    database record is touched. *)
Theorem setTag_invalid_value_rejected :
  (forall id v (st : State W),
      ~ In v [""; "low"; "medium"; "high"] ->
      setEnergy S id (inl {| energyValue := v |}) st
      = ((HttpError "Invalid energy value. Must be one of: '', 'low', 'medium', 'high'"
                    400, None), st))
  /\ (forall id v (st : State W),
      ~ In v [""; "negative"; "neutral"; "positive"] ->
      setMood S id (inl {| moodValue := v |}) st
      = ((HttpError "Invalid mood value. Must be one of: '', 'negative', 'neutral', 'positive'"
                    400, None), st)).
Proof.
  split; intros id v st Hv.
  - unfold setEnergy. cbn [energyValue].
    by rewrite (Contains_not_In validEnergyValues v Hv).
  - unfold setMood. cbn [moodValue].
    by rewrite (Contains_not_In validMoodValues v Hv).
Qed.

(** C6. When the write of the file tag fails, a SetTag request (energy or
    mood) is answered with an error (status 500), the handler's record is
    the one the data store returned (same tag mapping, same updatedAt),
    and the handler stops there: after the Get and the failed write no
    clock read and no Put follow. *)
Theorem setTag_file_write_failure_leaves_record :
  (forall id v (st : State W) mf w1 err st2,
      In v validEnergyValues ->
      ds_Get S id (world st) = (inl mf, w1) ->
      taglib.WriteTag (tagPrims S) (filepath_Join S (LibraryPath mf) (Path mf))
                      "ENERGY" v
                      {| world := w1; log := (log st ++ [EvGet id])%list |}
      = (Some err, st2) ->
      setEnergy S id (inl {| energyValue := v |}) st
      = ((HttpError ("Failed to write tag to file: " ++ Error err) 500, Some mf), st2)
      /\ log st2
         = (log st ++ [EvGet id;
                       EvTaglibWriteTag (filepath_Join S (LibraryPath mf) (Path mf))
                                        "ENERGY" v])%list)
  /\ (forall id v (st : State W) mf w1 err st2,
      In v validMoodValues ->
      ds_Get S id (world st) = (inl mf, w1) ->
      taglib.WriteTag (tagPrims S) (filepath_Join S (LibraryPath mf) (Path mf))
                      "MOOD" v
                      {| world := w1; log := (log st ++ [EvGet id])%list |}
      = (Some err, st2) ->
      setMood S id (inl {| moodValue := v |}) st
      = ((HttpError ("Failed to write tag to file: " ++ Error err) 500, Some mf), st2)
      /\ log st2
         = (log st ++ [EvGet id;
                       EvTaglibWriteTag (filepath_Join S (LibraryPath mf) (Path mf))
                                        "MOOD" v])%list).
Proof.
  split; intros id v st mf w1 err st2 Hv Hget Hwrite.
  - split.
    + unfold setEnergy. cbn [energyValue].
      apply Contains_In in Hv. rewrite Hv. cbn [negb].
      unfold bind at 1. unfold call at 1. rewrite Hget.
      unfold bind at 1. by rewrite Hwrite.
    + pose proof (WriteTag_log (tagPrims S)
                    (filepath_Join S (LibraryPath mf) (Path mf)) "ENERGY" v
                    {| world := w1; log := (log st ++ [EvGet id])%list |}) as Hlog.
      rewrite Hwrite in Hlog. simpl in Hlog. by rewrite Hlog, <- app_assoc.
  - split.
    + unfold setMood. cbn [moodValue].
      apply Contains_In in Hv. rewrite Hv. cbn [negb].
      unfold bind at 1. unfold call at 1. rewrite Hget.
      unfold bind at 1. by rewrite Hwrite.
    + pose proof (WriteTag_log (tagPrims S)
                    (filepath_Join S (LibraryPath mf) (Path mf)) "MOOD" v
                    {| world := w1; log := (log st ++ [EvGet id])%list |}) as Hlog.
      rewrite Hwrite in Hlog. simpl in Hlog. by rewrite Hlog, <- app_assoc.
Qed.
End handlers.

Section handlers_success.
Context {W L : Type} (S : Sys W L).
Import nativeapi_song_tag.


End handlers_success.

(** "extreme" is no energy value: status 400, and the world is the one it
    was. *)
Lemma setTag_invalid_value_rejected_witness :
  nativeapi_song_tag.setEnergy (sim.system "key") "s1"
    (inl {| nativeapi_song_tag.energyValue := "extreme" |})
    (start (sim.worldWith [] []))
  = ((HttpError "Invalid energy value. Must be one of: '', 'low', 'medium', 'high'"
                400, None),
     start (sim.worldWith [] [])).
Proof.
  apply (proj1 (setTag_invalid_value_rejected (sim.system "key"))).
  intros [H|[H|[H|[H|[]]]]]; discriminate H.
Defined.

(** The file is read-only: status 500, the record as loaded, and the data
    store as it was. *)
Lemma setTag_file_write_failure_leaves_record_witness :
  let st := start (sim.worldReadOnly []) in
  let out := nativeapi_song_tag.setEnergy (sim.system "key") "s1"
               (inl {| nativeapi_song_tag.energyValue := "low" |}) st in
  fst out
  = (HttpError "Failed to write tag to file: file is read-only: /music/a.flac" 500,
     Some sim.song1)
  /\ log (snd out) = [EvGet "s1"; EvTaglibWriteTag "/music/a.flac" "ENERGY" "low"]
  /\ sim.db (world (snd out)) = sim.db (world st).
Proof.
  cbv zeta.
  destruct (proj1 (setTag_file_write_failure_leaves_record (sim.system "key"))
              "s1" "low" (start (sim.worldReadOnly [])) sim.song1
              (sim.worldReadOnly [])
              (ErrNew "file is read-only: /music/a.flac")
              {| world := sim.worldReadOnly [];
                 log := [EvGet "s1";
                         EvTaglibWriteTag "/music/a.flac" "ENERGY" "low"] |})
    as [Hout Hlog].
  - right; left; reflexivity.
  - reflexivity.
  - vm_compute. reflexivity.
  - rewrite Hout. repeat split.
Defined.


(* ===================================================================== *)
(** * Further properties of the code *)
(* ===================================================================== *)

(** ** The tag map the callbacks build *)

Lemma ToLower_nonempty (s : string) : s <> "" -> GoStrings.ToLower s <> "".
Proof. by destruct s. Qed.

Lemma wellFormed_empty : wellFormed ∅.
Proof. intros k vs H. by rewrite lookup_empty in H. Qed.

Lemma wellFormed_insert m k vs :
  wellFormed m -> k <> "" -> GoStrings.ToLower k = k -> vs <> [] ->
  wellFormed (<[k := vs]> m).
Proof.
  intros Hm Hk Hl Hv k' vs' H.
  destruct (decide (k = k')) as [<-|Hne].
  - rewrite lookup_insert_eq in H. by inversion H; subst.
  - rewrite lookup_insert_ne in H by done. by apply Hm.
Qed.

Lemma doPutTag_wellFormed m key val :
  wellFormed m -> wellFormed (taglib.doPutTag m key val).
Proof.
  intros Hm. unfold taglib.doPutTag.
  destruct (String.eqb key "") eqn:E; [done|]. cbv zeta.
  apply String.eqb_neq in E.
  apply wellFormed_insert; [done|by apply ToLower_nonempty|apply ToLower_idem|].
  by destruct (default [] (m !! GoStrings.ToLower key)).
Qed.

Lemma goPutLyricLine_lookup m lang text time :
  taglib.goPutLyricLine m lang text time =
  match m !! lyricsKey lang with
  | Some (first :: others) =>
      Some (<[lyricsKey lang := (first ++ lyricLine text time) :: others]> m)
  | Some [] => None
  | None => Some (<[lyricsKey lang := [lyricLine text time]]> m)
  end.
Proof. reflexivity. Qed.

Lemma goPutLyricLine_wellFormed m lang text time :
  wellFormed m ->
  exists m', taglib.goPutLyricLine m lang text time = Some m' /\ wellFormed m'.
Proof.
  intros Hm. rewrite goPutLyricLine_lookup.
  assert (Hk : lyricsKey lang <> "") by done.
  assert (Hl : GoStrings.ToLower (lyricsKey lang) = lyricsKey lang)
    by apply ToLower_idem.
  destruct (m !! lyricsKey lang) as [[|first others]|] eqn:E.
  - by destruct (Hm _ _ E) as (_ & _ & ?).
  - eexists. split; [done|]. by apply wellFormed_insert.
  - eexists. split; [done|]. by apply wellFormed_insert.
Qed.

Lemma runCallback_wellFormed m c :
  wellFormed m -> exists m', taglib.runCallback m c = Some m' /\ wellFormed m'.
Proof.
  intros Hm. destruct c; simpl;
    try (eexists; split; [done|]; by apply doPutTag_wellFormed).
  by apply goPutLyricLine_wellFormed.
Qed.

Lemma runCallbacks_wellFormed calls : forall m,
  wellFormed m -> exists m', taglib.runCallbacks calls m = Some m' /\ wellFormed m'.
Proof.
  induction calls as [|c calls IH]; intros m Hm; simpl.
  - by exists m.
  - destruct (runCallback_wellFormed m c Hm) as (m1 & -> & Hm1). by apply IH.
Qed.

(** X1. Whatever the C library reports, and in whatever order, the
    callbacks build a map and never hit the index panic of
    [goPutLyricLine]; in the map no key is empty, every key is in lower
    case and every key has at least one value. *)
Theorem callbacks_build_a_well_formed_map (calls : list taglib.Callback) :
  exists m, taglib.runCallbacks calls ∅ = Some m
            /\ (forall k vs, m !! k = Some vs ->
                   k <> "" /\ GoStrings.ToLower k = k /\ vs <> []).
Proof. apply runCallbacks_wellFormed, wellFormed_empty. Qed.

(** X2. What [Read] returns is decided by the C call alone: a fault or the
    result codes TAGLIB_ERR_PARSE and TAGLIB_ERR_AUDIO_PROPS give an
    error; any other result code gives the map the callbacks built, after
    the C call and nothing else.  The file is opened a second time only
    after TAGLIB_ERR_PARSE. *)
Theorem Read_is_decided_by_the_C_call {W} (P : taglib.Prims W)
    (filename : string) (st : State W) :
  let out := taglib.Read P filename st in
  match taglib.taglib_read P filename (world st) with
  | (taglib.Fault r, w') =>
      out = (inr (ErrNew ("extractor: recovered from panic: " ++ r)),
             {| world := w'; log := (log st ++ [EvTaglibRead filename])%list |})
  | (taglib.Returned (res, calls), w') =>
      if (res =? taglib.TAGLIB_ERR_PARSE P) then
        (exists e, fst out = inr e)
        /\ log (snd out)
           = (log st ++ [EvTaglibRead filename; EvOpenFile filename])%list
      else if (res =? taglib.TAGLIB_ERR_AUDIO_PROPS P) then
        out = (inr (ErrNew "can't get audio properties from file"),
               {| world := w'; log := (log st ++ [EvTaglibRead filename])%list |})
      else
        exists m, taglib.runCallbacks calls ∅ = Some m
                  /\ out = (inl m,
                            {| world := w';
                               log := (log st ++ [EvTaglibRead filename])%list |})
  end.
Proof.
  cbv zeta. unfold taglib.Read, bind, call, ret.
  destruct (taglib.taglib_read P filename (world st)) as [[[res calls]|r] w'];
    [|done].
  destruct (runCallbacks_wellFormed calls ∅ wellFormed_empty) as (m & -> & _).
  destruct (res =? taglib.TAGLIB_ERR_PARSE P).
  - simpl. destruct (taglib.os_OpenFile P filename w') as [[|b e] w''];
      [|destruct b]; simpl; (split; [by eexists|by rewrite <- app_assoc]).
  - destruct (res =? taglib.TAGLIB_ERR_AUDIO_PROPS P); [done|]. by exists m.
Qed.

(** ** Values of one tag, lyrics lines, iTunes keys *)

Lemma runCallbacks_app calls1 calls2 m :
  taglib.runCallbacks (calls1 ++ calls2) m
  = match taglib.runCallbacks calls1 m with
    | Some m1 => taglib.runCallbacks calls2 m1
    | None => None
    end.
Proof.
  revert m; induction calls1 as [|c calls1 IH]; intros m; simpl; [done|].
  by destruct (taglib.runCallback m c).
Qed.




Lemma substring_all (s : string) : String.substring 0 (String.length s) s = s.
Proof. induction s as [|c s IH]; simpl; [done|by rewrite IH]. Qed.

Lemma TrimPrefix_app (p s : string) : TrimPrefix (p ++ s) p = s.
Proof.
  unfold TrimPrefix. rewrite HasPrefix_app.
  induction p as [|c p IH]; simpl.
  - rewrite Nat.sub_0_r. apply substring_all.
  - exact IH.
Qed.

(** X4. A key of the form "----:com.apple.itunes:NAME" is recorded under
    NAME; the bare prefix, a key with no actual name, is not recorded at
    all; a key without the prefix is recorded as it is. *)
Theorem goPutM4AStr_strips_the_itunes_prefix
    (m : gmap string (list string)) (val : string) :
  (forall name, taglib.goPutM4AStr m (taglib.iTunesKeyPrefix ++ name) val
                = taglib.goPutStr m name val)
  /\ taglib.goPutM4AStr m taglib.iTunesKeyPrefix val = m
  /\ (forall key, GoStrings.HasPrefix key taglib.iTunesKeyPrefix = false ->
                  taglib.goPutM4AStr m key val = taglib.goPutStr m key val).
Proof.
  split; [|split].
  - intros name. unfold taglib.goPutM4AStr. cbv zeta. by rewrite TrimPrefix_app.
  - reflexivity.
  - intros key Hno. unfold taglib.goPutM4AStr, TrimPrefix. cbv zeta. by rewrite Hno.
Qed.

Lemma string_app_nil_r (s : string) : s ++ "" = s.
Proof.
  induction s as [|c s IH]; [done|].
  change (String c (s ++ "") = String c s). by rewrite IH.
Qed.





Lemma lyricLine_hour (text : string) (time : Z) :
  0 <= time -> lyricLine text (time + 3600000) = lyricLine text time.
Proof.
  intros Hpos. unfold lyricLine. cbv zeta.
  assert (Hms : Z.rem (time + 3600000) 1000 = Z.rem time 1000).
  { change 3600000 with (3600 * 1000). apply Z.rem_add; nia. }
  assert (Hq : Z.quot (time + 3600000) 1000 = Z.quot time 1000 + 3600).
  { change 3600000 with (3600 * 1000). apply Z.quot_add; nia. }
  assert (Hq0 : 0 <= Z.quot time 1000) by (apply Z.quot_pos; lia).
  rewrite Hms, Hq.
  assert (Hsec : Z.rem (Z.quot time 1000 + 3600) 60 = Z.rem (Z.quot time 1000) 60).
  { change 3600 with (60 * 60). apply Z.rem_add; nia. }
  assert (Hq2 : Z.quot (Z.quot time 1000 + 3600) 60 = Z.quot (Z.quot time 1000) 60 + 60).
  { change 3600 with (60 * 60). apply Z.quot_add; nia. }
  assert (Hq3 : 0 <= Z.quot (Z.quot time 1000) 60) by (apply Z.quot_pos; lia).
  rewrite Hsec, Hq2.
  assert (Hmin : Z.rem (Z.quot (Z.quot time 1000) 60 + 60) 60
                 = Z.rem (Z.quot (Z.quot time 1000) 60) 60).
  { change 60 with (1 * 60) at 2. apply Z.rem_add; nia. }
  by rewrite Hmin.
Qed.

(** X6. The time stamp of a lyrics line has minutes, seconds and
    hundredths only: the hours are dropped, so a line at a time of zero or
    more milliseconds and the same line one hour later are recorded
    alike. *)
Theorem goPutLyricLine_drops_the_hours
    (m : gmap string (list string)) (lang text : string) (time : Z) :
  0 <= time ->
  taglib.goPutLyricLine m lang text (time + 3600000)
  = taglib.goPutLyricLine m lang text time.
Proof.
  intros Hpos. rewrite !goPutLyricLine_lookup. by rewrite lyricLine_hour.
Qed.

(** A line at 61.234 s and the same line at 1 h 61.234 s. *)
Lemma goPutLyricLine_drops_the_hours_witness :
  taglib.goPutLyricLine ∅ "eng" "two" (61234 + 3600000)
  = Some {[ "lyrics:eng" := ["[01:01.23]two" ++ String (ascii_of_nat 10) ""] ]}.
Proof.
  rewrite (goPutLyricLine_drops_the_hours ∅ "eng" "two" 61234) by lia.
  vm_compute. reflexivity.
Defined.

(** ** The tag writer *)

(** X7. [WriteTag] makes one C call and nothing else.  It returns nil only
    if the call returned 0; and it returns nil whenever the call returned
    0, provided 0 is none of the three error codes it tells apart.  A
    fault in the C call comes back as an error. *)
Theorem WriteTag_succeeds_only_on_zero {W} (P : taglib.Prims W)
    (filename tagName tagValue : string) (st : State W) :
  let out := taglib.WriteTag P filename tagName tagValue st in
  let c := taglib.taglib_write_tag P filename tagName tagValue (world st) in
  snd out = {| world := snd c;
               log := (log st ++ [EvTaglibWriteTag filename tagName tagValue])%list |}
  /\ (fst out = None -> fst c = taglib.Returned 0)
  /\ (fst c = taglib.Returned 0 ->
      taglib.TAGLIB_ERR_PARSE P <> 0 -> taglib.TAGLIB_ERR_READONLY P <> 0 ->
      taglib.TAGLIB_ERR_SAVE P <> 0 -> fst out = None)
  /\ (forall r, fst c = taglib.Fault r ->
                fst out = Some (ErrNew ("taglib: recovered from panic: " ++ r))).
Proof.
  cbv zeta. unfold taglib.WriteTag, bind, call, ret.
  destruct (taglib.taglib_write_tag P filename tagName tagValue (world st))
    as [[res|r] w']; simpl.
  - destruct (res =? taglib.TAGLIB_ERR_PARSE P) eqn:E1; simpl.
    { apply Z.eqb_eq in E1. repeat split; try done.
      intros H ? ? ?. inversion H; congruence. }
    destruct (res =? taglib.TAGLIB_ERR_READONLY P) eqn:E2; simpl.
    { apply Z.eqb_eq in E2. repeat split; try done.
      intros H ? ? ?. inversion H; congruence. }
    destruct (res =? taglib.TAGLIB_ERR_SAVE P) eqn:E3; simpl.
    { apply Z.eqb_eq in E3. repeat split; try done.
      intros H ? ? ?. inversion H; congruence. }
    destruct (res =? 0) eqn:E4; simpl.
    { apply Z.eqb_eq in E4. subst res. repeat split; done. }
    apply Z.eqb_neq in E4. repeat split; try done.
    intros H. inversion H; congruence.
  - repeat split; try done. intros r' H. by inversion H.
Qed.

(** The file can be saved: the call returns 0 and [WriteTag] returns nil. *)
Lemma WriteTag_succeeds_only_on_zero_witness :
  fst (taglib.WriteTag sim.tagPrims "/music/a.flac" "ENERGY" "low"
         (start (sim.worldWith [] []))) = None.
Proof.
  apply (proj1 (proj2 (proj2 (WriteTag_succeeds_only_on_zero sim.tagPrims
           "/music/a.flac" "ENERGY" "low" (start (sim.worldWith [] [])))))).
  - vm_compute. reflexivity.
  - discriminate.
  - discriminate.
  - discriminate.
Defined.

(** ** The track-metrics client, whatever the upstream does *)

Section client.
Context {W : Type} (P : trackanalysis.Prims W).

Lemma attempts_prefix maxRetries req remaining :
  forall attempt resp st,
    exists evs rest,
      log (snd (trackanalysis.attempts P maxRetries req remaining attempt resp st))
      = (log st ++ evs)%list
      /\ busyLog (trackanalysis.req_URL req) remaining attempt = (evs ++ rest)%list.
Proof.
  induction remaining as [|k IH]; intros attempt resp st.
  - exists [], []. simpl. by rewrite app_nil_r.
  - cbn [trackanalysis.attempts busyLog]. unfold bind.
    fold (backoffBefore attempt).
    set (waits := if 0 <? attempt then [EvBackoff (backoffBefore attempt)] else []).
    assert (Hw : exists c st0,
      (if 0 <? attempt
       then call (EvBackoff (backoffBefore attempt))
                 (trackanalysis.ctx_wait P (backoffBefore attempt))
       else ret None) st = (c, st0)
      /\ log st0 = (log st ++ waits)%list
      /\ (c <> None -> waits = [EvBackoff (backoffBefore attempt)])).
    { subst waits. destruct (0 <? attempt).
      - unfold call. destruct (trackanalysis.ctx_wait P _ (world st)) as [c w'].
        by eexists c, _.
      - exists None, st. split; [done|]. split; [by rewrite app_nil_r|done]. }
    destruct Hw as (c & st0 & -> & Hlog0 & Hc).
    destruct c as [e|].
    + simpl. rewrite Hlog0, Hc by done. eexists _, _. split; reflexivity.
    + unfold call.
      destruct (trackanalysis.client_Do P req (world st0)) as [[r|e] w'].
      * destruct (negb (trackanalysis.StatusCode r =? trackanalysis.StatusTooManyRequests)).
        { eexists (waits ++ [EvHttpDo (trackanalysis.req_URL req)])%list, _.
          simpl. rewrite Hlog0, <- !app_assoc. split; reflexivity. }
        destruct (attempt =? maxRetries - 1).
        { eexists (waits ++ [EvHttpDo (trackanalysis.req_URL req)])%list, _.
          simpl. rewrite Hlog0, <- !app_assoc. split; reflexivity. }
        match goal with |- context [trackanalysis.attempts _ _ _ _ ?a ?r' ?s'] =>
          destruct (IH a r' s') as (evs & rest & Hevs & Hrest) end.
        exists (waits ++ EvHttpDo (trackanalysis.req_URL req) :: evs)%list, rest.
        rewrite Hevs, Hrest. simpl. rewrite Hlog0, <- !app_assoc. split; reflexivity.
      * eexists (waits ++ [EvHttpDo (trackanalysis.req_URL req)])%list, _.
        simpl. rewrite Hlog0, <- !app_assoc. split; reflexivity.
Qed.

Lemma requestsOf_app l1 l2 : requestsOf (l1 ++ l2) = (requestsOf l1 + requestsOf l2)%nat.
Proof. unfold requestsOf. by rewrite List.filter_app, length_app. Qed.

Lemma backoffsOf_app l1 l2 : backoffsOf (l1 ++ l2) = (backoffsOf l1 ++ backoffsOf l2)%list.
Proof. apply omap_app. Qed.

Lemma totalBackoff_app l1 l2 :
  totalBackoff (l1 ++ l2) = totalBackoff l1 + totalBackoff l2.
Proof.
  unfold totalBackoff. rewrite backoffsOf_app.
  induction (backoffsOf l1) as [|d l IH]; simpl; [done|]. rewrite IH. lia.
Qed.

Lemma totalBackoff_nonneg l :
  Forall (fun d => 0 <= d) (backoffsOf l) -> 0 <= totalBackoff l.
Proof.
  unfold totalBackoff. induction 1 as [|d ds Hd _ IH]; simpl; lia.
Qed.

Lemma FetchTrackData_schedule (artist title : string) (st : State W) :
  exists evs rest,
    log (snd (trackanalysis.FetchTrackData P artist title st))
    = (log st ++ EvFetchTrackData artist title :: evs)%list
    /\ busyLog (requestURL P artist title) 6 0 = (evs ++ rest)%list.
Proof.
  unfold trackanalysis.FetchTrackData, bind, tell.
  destruct (String.eqb _ ""); [by eexists [], _|].
  destruct (_ || _); [by eexists [], _|].
  match goal with |- context [trackanalysis.attempts P ?m ?r ?n ?a ?o ?s] =>
    destruct (attempts_prefix m r n a o s) as (evs & rest & Hevs & Hrest);
    destruct (trackanalysis.attempts P m r n a o s) as [exit st1] end.
  simpl in Hevs, Hrest. fold (requestURL P artist title) in Hrest.
  exists evs, rest. split; [|exact Hrest].
  rewrite <- app_assoc in Hevs. simpl in Hevs.
  destruct exit as [r|[resp|]]; [done| |done].
  destruct (_ =? trackanalysis.StatusNotFound); [done|].
  destruct (negb _); [done|]. by destruct (trackanalysis.Body resp).
Qed.

(** X8. Whatever the upstream answers and whatever the context does, a
    call of [FetchTrackData] is a beginning of the always-busy schedule:
    request, wait 2 s, request, wait 4 s, and so on up to the sixth
    request.  So it makes at most 6 requests and at most 5 waits, and
    waits at most 62 seconds in all. *)
Theorem FetchTrackData_stays_within_the_schedule
    (artist title : string) (st : State W) :
  exists evs rest,
    log (snd (trackanalysis.FetchTrackData P artist title st))
    = (log st ++ EvFetchTrackData artist title :: evs)%list
    /\ busyLog (requestURL P artist title) 6 0 = (evs ++ rest)%list
    /\ (requestsOf evs <= 6)%nat
    /\ (length (backoffsOf evs) <= 5)%nat
    /\ totalBackoff evs <= 62 * trackanalysis.Second.
Proof.
  destruct (FetchTrackData_schedule artist title st) as (evs & rest & Hlog & Hsplit).
  exists evs, rest. split; [exact Hlog|]. split; [exact Hsplit|].
  pose proof (f_equal requestsOf Hsplit) as Hr.
  pose proof (f_equal (fun l => length (backoffsOf l)) Hsplit) as Hb.
  pose proof (f_equal totalBackoff Hsplit) as Ht.
  rewrite requestsOf_app in Hr. cbv beta in Hb.
  rewrite backoffsOf_app, length_app in Hb.
  rewrite totalBackoff_app in Ht.
  change (requestsOf (busyLog (requestURL P artist title) 6 0)) with 6%nat in Hr.
  change (length (backoffsOf (busyLog (requestURL P artist title) 6 0)))
    with 5%nat in Hb.
  change (totalBackoff (busyLog (requestURL P artist title) 6 0))
    with (62 * trackanalysis.Second) in Ht.
  assert (0 <= totalBackoff rest).
  { apply totalBackoff_nonneg.
    pose proof (f_equal backoffsOf Hsplit) as Hall.
    rewrite backoffsOf_app in Hall.
    assert (Hpos : Forall (fun d => 0 <= d)
                     (backoffsOf (busyLog (requestURL P artist title) 6 0))).
    { change (backoffsOf (busyLog (requestURL P artist title) 6 0))
        with (map (fun s => s * trackanalysis.Second) [2; 4; 8; 16; 32]).
      repeat constructor; discriminate. }
    rewrite Hall in Hpos. by apply Forall_app in Hpos as [_ ?]. }
  split; [lia|]. split; [lia|lia].
Qed.
End client.

Section client_answers.
Context {W : Type} (P : trackanalysis.Prims W).

(** X9. Without an API key, or with an empty artist or an empty title,
    [FetchTrackData] returns an error without sending any request: not
    available in the first case, "artist and title are required" in the
    second. *)
Theorem FetchTrackData_sends_nothing_without_key_artist_title
    (artist title : string) (st : State W) :
  let entered := {| world := world st;
                    log := (log st ++ [EvFetchTrackData artist title])%list |} in
  (trackanalysis.getAPIKey P = "" ->
   trackanalysis.FetchTrackData P artist title st
   = (inr trackanalysis.ErrTrackAnalysisNotAvailable, entered))
  /\ (trackanalysis.getAPIKey P <> "" -> artist = "" \/ title = "" ->
      trackanalysis.FetchTrackData P artist title st
      = (inr (ErrNew "artist and title are required"), entered)).
Proof.
  cbv zeta. unfold trackanalysis.FetchTrackData, bind, tell. split.
  - intros ->. reflexivity.
  - intros Hkey Hempty. apply String.eqb_neq in Hkey. rewrite Hkey.
    destruct Hempty as [-> | ->]; [done|].
    by rewrite orb_true_r.
Qed.

(** X10. The first answer ends the call unless it is a 429: status 404
    gives track-not-found, status 200 the three metrics of the decoded
    body (or a decode error), any other status an error that carries the
    status; a failed round trip gives an error that wraps its cause.  One
    request has been sent and there has been no wait. *)
Theorem FetchTrackData_first_answer
    (artist title : string) (st : State W) :
  trackanalysis.getAPIKey P <> "" -> artist <> "" -> title <> "" ->
  let req := {| trackanalysis.req_URL := requestURL P artist title;
                trackanalysis.req_host := trackanalysis.apiHost;
                trackanalysis.req_key := trackanalysis.getAPIKey P |} in
  let sent w := {| world := w;
                   log := (log st ++ [EvFetchTrackData artist title;
                                      EvHttpDo (requestURL P artist title)])%list |} in
  match trackanalysis.client_Do P req (world st) with
  | (inr err, w1) =>
      trackanalysis.FetchTrackData P artist title st
      = (inr (ErrWrap "API request failed: " err), sent w1)
  | (inl resp, w1) =>
      trackanalysis.StatusCode resp <> 429 ->
      trackanalysis.FetchTrackData P artist title st = (answerOf resp, sent w1)
  end.
Proof.
  intros Hkey Ha Ht. cbv zeta.
  unfold trackanalysis.FetchTrackData, bind, tell.
  apply String.eqb_neq in Hkey, Ha, Ht. rewrite Hkey, Ha, Ht.
  change (false || false) with false. cbv beta iota.
  change (Z.to_nat 6) with 6%nat. cbn [trackanalysis.attempts].
  unfold bind, call, ret. change (0 <? 0) with false. cbv beta iota.
  cbn [world log trackanalysis.req_URL]. fold (requestURL P artist title).
  destruct (trackanalysis.client_Do P _ (world st)) as [[resp|err] w1].
  - intros Hcode. apply Z.eqb_neq in Hcode.
    change trackanalysis.StatusTooManyRequests with 429. rewrite Hcode.
    cbn [negb]. cbv beta iota. unfold answerOf.
    change trackanalysis.StatusNotFound with 404.
    change trackanalysis.StatusOK with 200.
    rewrite <- app_assoc. cbn [app].
    destruct (trackanalysis.StatusCode resp =? 404); [done|].
    destruct (negb (trackanalysis.StatusCode resp =? 200)); [done|].
    by destruct (trackanalysis.Body resp).
  - cbv beta iota. by rewrite <- app_assoc.
Qed.
End client_answers.

(** The upstream answers 500 to the first request: the error carries the
    status, after a single request. *)
Lemma FetchTrackData_first_answer_witness :
  let w := sim.worldWith []
             [{| trackanalysis.StatusCode := 500;
                 trackanalysis.Body := inr (ErrNew "EOF") |}] in
  let out := trackanalysis.FetchTrackData (sim.trackPrims "key") "Artist" "Song"
               (start w) in
  fst out = inr (ErrNew "API returned status 500")
  /\ requestsOf (log (snd out)) = 1%nat
  /\ backoffsOf (log (snd out)) = [].
Proof.
  cbv zeta.
  pose proof (FetchTrackData_first_answer (sim.trackPrims "key") "Artist" "Song"
                (start (sim.worldWith []
                   [{| trackanalysis.StatusCode := 500;
                       trackanalysis.Body := inr (ErrNew "EOF") |}])))
    as H.
  specialize (H ltac:(discriminate) ltac:(discriminate) ltac:(discriminate)).
  cbv zeta in H. simpl in H. specialize (H ltac:(discriminate)).
  rewrite H. vm_compute. repeat split.
Defined.

(** No API key: not available, and no request in the log. *)
Lemma FetchTrackData_sends_nothing_without_key_artist_title_witness :
  let out := trackanalysis.FetchTrackData (sim.trackPrims "") "Artist" "Song"
               (start (sim.worldWith [] [])) in
  fst out = inr trackanalysis.ErrTrackAnalysisNotAvailable
  /\ log (snd out) = [EvFetchTrackData "Artist" "Song"].
Proof.
  cbv zeta.
  rewrite (proj1 (FetchTrackData_sends_nothing_without_key_artist_title
                    (sim.trackPrims "") "Artist" "Song"
                    (start (sim.worldWith [] []))) eq_refl).
  split; reflexivity.
Defined.

(** ** The lyrics provider *)

Section provider.
Context {W L : Type} (S : Sys W L).

(** X11. The lyrics provider returns at most one lyric.  It attempts the
    write of the lyrics into the file exactly when it returns one, after
    having run the lookup script once, and the text it writes is the text
    the lyric was parsed from.  When it returns none it has written
    nothing, and its only error is a parse error of [ToLyrics].  Without
    the probe's approval, or with an empty artist or title, it does not
    even run the script. *)
Theorem FetchFromGenius_writes_what_it_returns (song : MediaFile) (st : State W) :
  let out := lyrics.FetchFromGenius (lyricsPrims S) (tagPrims S) (AbsolutePath S)
                                    song st in
  let entered := (log st ++ [EvFetchFromGenius song])%list in
  let script := EvGeniusScript (Artist song) (Title song) in
  match fst out with
  | inl [] => log (snd out) = entered \/ log (snd out) = (entered ++ [script])%list
  | inl [l] =>
      exists text,
        log (snd out)
        = (entered ++ [script;
                       EvTaglibWriteLyrics (AbsolutePath S song) "xxx" text])%list
        /\ text <> ""
        /\ lyrics.ToLyrics (lyricsPrims S) "xxx" text = inl (Some l)
        /\ lyrics.IsEmpty (lyricsPrims S) l = false
  | inl (_ :: _ :: _) => False
  | inr e =>
      log (snd out) = (entered ++ [script])%list
      /\ exists text, lyrics.ToLyrics (lyricsPrims S) "xxx" text = inr e
  end
  /\ (lyrics.IsGeniusAvailable (lyricsPrims S) = false
      \/ Artist song = "" \/ Title song = "" ->
      out = (inl [], {| world := world st; log := entered |})).
Proof.
  cbv zeta. unfold lyrics.FetchFromGenius, lyrics.fromGenius,
    lyrics.IsGeniusAvailable, bind, tell, ret.
  destruct (lyrics.geniusCmd (lyricsPrims S)) as [[py script] [e|]]; simpl.
  { split; [by left|done]. }
  destruct (String.eqb (Artist song) "") eqn:Ea; simpl.
  { split; [by left|done]. }
  destruct (String.eqb (Title song) "") eqn:Et; simpl.
  { split; [by left|done]. }
  apply String.eqb_neq in Ea, Et.
  split; [|by intros [?|[?|?]]].
  unfold call; simpl.
  destruct (lyrics.cmd_Output _ py script _ _ (world st)) as [[output|e] w1]; simpl;
    [|by right].
  destruct (String.eqb (TrimSpace output) "") eqn:Etext; simpl; [by right|].
  apply String.eqb_neq in Etext.
  destruct (lyrics.ToLyrics _ "xxx" (TrimSpace output)) as [[l|]|e] eqn:Eparse;
    simpl.
  - destruct (lyrics.IsEmpty _ l) eqn:Eempty; simpl; [by right|].
    unfold lyrics.saveLyricsToFile, bind, call, ret; simpl.
    destruct (taglib.WriteLyrics _ _ "xxx" _ w1) as [[e|] w2]; simpl;
      exists (TrimSpace output); by rewrite <- app_assoc.
  - by right.
  - split; [done|]. by exists (TrimSpace output).
Qed.
End provider.

(** ** Every member file is examined, in order *)

Lemma forRange_trace {W A St B} (body : St -> A -> M W St)
    (f : State W -> list B) (g : A -> B) :
  (forall s x st, f (snd (body s x st)) = (f st ++ [g x])%list) ->
  forall xs s st, f (snd (forRange body xs s st)) = (f st ++ map g xs)%list.
Proof.
  intros Hstep xs; induction xs as [|x xs IH]; intros s st.
  - simpl. by rewrite app_nil_r.
  - cbn [forRange]. unfold bind.
    specialize (Hstep s x st). destruct (body s x st) as [s' st']; simpl in Hstep.
    rewrite IH, Hstep, <- app_assoc. reflexivity.
Qed.

Lemma forRange_invariant {W A St} (body : St -> A -> M W St)
    (I : St -> State W -> Prop) :
  (forall s x st, I s st -> I (fst (body s x st)) (snd (body s x st))) ->
  forall xs s st, I s st ->
    I (fst (forRange body xs s st)) (snd (forRange body xs s st)).
Proof.
  intros Hstep xs; induction xs as [|x xs IH]; intros s st Hs; [done|].
  cbn [forRange]. unfold bind.
  specialize (Hstep s x st Hs). destruct (body s x st) as [s' st']. by apply IH.
Qed.

Lemma readsOf_app l1 l2 : readsOf (l1 ++ l2) = (readsOf l1 ++ readsOf l2)%list.
Proof. apply omap_app. Qed.

Lemma readsOf_none (cls : Event -> bool) evs :
  (forall f, cls (EvTaglibRead f) = false) ->
  Forall (fun ev => cls ev = true) evs -> readsOf evs = [].
Proof.
  intros Hcls. induction 1 as [|ev evs Hev _ IH]; [done|].
  destruct ev; try exact IH. by rewrite Hcls in Hev.
Qed.

Lemma filter_none (keep cls : Event -> bool) evs :
  (forall ev, cls ev = true -> keep ev = false) ->
  Forall (fun ev => cls ev = true) evs -> List.filter keep evs = [].
Proof.
  intros Hcls. induction 1 as [|ev evs Hev _ IH]; [done|].
  simpl. by rewrite (Hcls ev Hev).
Qed.

Section stage_events.
Context {W L : Type} (S : Sys W L).

Lemma busyLog_events url remaining : forall attempt,
  Forall (fun ev => isTrackStageEvent ev = true) (busyLog url remaining attempt).
Proof.
  induction remaining as [|k IH]; intros attempt; [constructor|].
  cbn [busyLog]. apply Forall_app. split.
  - destruct (0 <? attempt); repeat constructor.
  - constructor; [done|apply IH].
Qed.

Lemma trackFetchStage_events song st :
  exists evs,
    log (snd (trackFetchStage S song st)) = (log st ++ evs)%list
    /\ Forall (fun ev => isTrackStageEvent ev = true) evs.
Proof.
  unfold trackFetchStage, bind, ret.
  destruct (FetchTrackData_schedule (trackPrims S) (Artist song) (Title song) st)
    as (evs & rest & Hlog & Hsplit).
  assert (Hevs : Forall (fun ev => isTrackStageEvent ev = true)
                   (EvFetchTrackData (Artist song) (Title song) :: evs)).
  { constructor; [done|].
    pose proof (busyLog_events (requestURL (trackPrims S) (Artist song) (Title song))
                  6 0) as Hall.
    rewrite Hsplit in Hall. by apply Forall_app in Hall as [? _]. }
  destruct (trackanalysis.FetchTrackData _ _ _ st) as [[data|e] st1];
    simpl in *; [|by eexists].
  destruct (writeTrackDataTags_log S (AbsolutePath S song) data st1)
    as (n & _ & Hw & _).
  assert (Hwrites : forall l, Forall (fun ev => isTrackStageEvent ev = true)
                                (take n [EvTaglibWriteTag (AbsolutePath S song) "ENERGYVAL" (Itoa (trackanalysis.EnergyVal data));
                                         EvTaglibWriteTag (AbsolutePath S song) "HAPPINESS" (Itoa (trackanalysis.Happiness data));
                                         EvTaglibWriteTag (AbsolutePath S song) "INSTRUMENTALNESS" l])).
  { intros l. apply Forall_take. repeat constructor. }
  destruct (nativeapi_trackdata.writeTrackDataTags S _ data st1) as [[e|] st2];
    simpl in *; eexists; (split; [rewrite Hw, Hlog, <- app_assoc; reflexivity|]);
    apply Forall_app; split; try done; apply Hwrites.
Qed.

Lemma lyricsFetchStage_events resp song st :
  exists evs,
    log (snd (lyricsFetchStage S resp song st)) = (log st ++ evs)%list
    /\ Forall (fun ev => isLyricsStageEvent ev = true) evs
    /\ (fst (lyricsFetchStage S resp song st) = nativeapi_lyrics.incFetched resp
        \/ fst (lyricsFetchStage S resp song st) = nativeapi_lyrics.incFailed resp)
    /\ (fst (lyricsFetchStage S resp song st) = nativeapi_lyrics.incFetched resp ->
        putsOf evs = 1)
    /\ 0 <= putsOf evs <= 1.
Proof.
  unfold lyricsFetchStage, bind, ret.
  destruct (FetchFromGenius_log S song st) as (evs & Hlog & Hforms).
  assert (Hevs : Forall (fun ev => isLyricsStageEvent ev = true)
                   (EvFetchFromGenius song :: evs)
                 /\ putsOf (EvFetchFromGenius song :: evs) = 0).
  { destruct Hforms as [->|[->|[text ->]]]; split; try done; repeat constructor. }
  destruct Hevs as [Hevs Hputs].
  assert (Hne : forall r : nativeapi_lyrics.fetchLyricsResponse,
             nativeapi_lyrics.incFailed r <> nativeapi_lyrics.incFetched r).
  { intros r H. apply (f_equal nativeapi_lyrics.Fetched) in H. simpl in H. lia. }
  destruct (lyrics.FetchFromGenius _ _ _ song st) as [[lyricsList|e] st1];
    simpl in *.
  2:{ eexists. split; [exact Hlog|]. split; [done|]. split; [by right|].
      split; [intros H; by apply Hne in H|lia]. }
  destruct (length lyricsList =? 0)%nat.
  { eexists. split; [exact Hlog|]. split; [done|]. split; [by right|].
    split; [intros H; by apply Hne in H|lia]. }
  destruct (json_Marshal S lyricsList) as [js|e].
  2:{ eexists. split; [exact Hlog|]. split; [done|]. split; [by right|].
      split; [intros H; by apply Hne in H|lia]. }
  unfold call.
  assert (Hput : forall mf, putsOf ((EvFetchFromGenius song :: evs) ++ [EvPut mf]) = 1).
  { intros mf. unfold putsOf in *. rewrite List.filter_app, length_app.
    simpl in *. lia. }
  destruct (ds_Put S _ (world st1)) as [[e|] w2]; simpl;
    eexists; (split; [rewrite Hlog, <- app_assoc; reflexivity|]);
    (split; [apply Forall_app; split; [done|by repeat constructor]|]).
  - split; [by right|]. split; [intros H; by apply Hne in H|]. rewrite Hput. lia.
  - split; [by left|]. split; [intros _; apply Hput|]. rewrite Hput. lia.
Qed.

Lemma Read_reads filename (st : State W) :
  let out := taglib.Read (tagPrims S) filename st in
  exists evs, log (snd out) = (log st ++ evs)%list
              /\ readsOf evs = [filename]
              /\ List.filter isStoreCall evs = []
              /\ List.filter isTagWrite evs = []
              /\ putsOf evs = 0.
Proof.
  cbv zeta. destruct (Read_log (tagPrims S) filename st) as [-> | ->];
    eexists; (split; [reflexivity|done]).
Qed.
End stage_events.

Section batches.
Context {W L : Type} (S : Sys W L).

Lemma putsOf_app l1 l2 : putsOf (l1 ++ l2) = putsOf l1 + putsOf l2.
Proof. unfold putsOf. rewrite List.filter_app, length_app. lia. Qed.

Lemma fetchLyricsForSong_events resp song st :
  let out := nativeapi_lyrics.fetchLyricsForSong S resp song st in
  exists evs,
    log (snd out) = (log st ++ evs)%list
    /\ readsOf evs = [AbsolutePath S song]
    /\ (fst out = nativeapi_lyrics.incFetched resp /\ putsOf evs = 1
        \/ fst out = nativeapi_lyrics.incFailed resp /\ 0 <= putsOf evs <= 1
        \/ fst out = nativeapi_lyrics.incSkipped resp /\ putsOf evs = 0).
Proof.
  cbv zeta. rewrite fetchLyricsForSong_stages.
  destruct (Read_reads S (AbsolutePath S song) st)
    as (evs1 & Hlog1 & Hreads1 & _ & _ & Hputs1).
  destruct (taglib.Read _ _ st) as [read st1]. simpl in Hlog1.
  destruct (hasCorrectlyStoredLyrics read).
  - exists evs1. simpl. split; [done|]. split; [done|]. right; right. done.
  - destruct (lyricsFetchStage_events S resp song st1)
      as (evs2 & Hlog2 & Hcls & Hout & Hone & Hrange).
    exists (evs1 ++ evs2)%list.
    split; [by rewrite Hlog2, Hlog1, <- app_assoc|].
    split.
    { rewrite readsOf_app, Hreads1.
      rewrite (readsOf_none isLyricsStageEvent evs2); [done|done|exact Hcls]. }
    rewrite putsOf_app, Hputs1.
    destruct Hout as [Hf|Hf].
    + left. split; [done|]. rewrite (Hone Hf). lia.
    + right; left. split; [done|]. lia.
Qed.

Lemma processSong_events song st :
  let out := nativeapi_trackdata.processSong S song st in
  exists evs,
    log (snd out) = (log st ++ evs)%list
    /\ readsOf evs = [AbsolutePath S song]
    /\ List.filter isStoreCall evs = [].
Proof.
  cbv zeta. rewrite processSong_stages.
  destruct (Read_reads S (AbsolutePath S song) st)
    as (evs1 & Hlog1 & Hreads1 & Hstore1 & _ & _).
  destruct (taglib.Read _ _ st) as [read st1]. simpl in Hlog1.
  destruct (hasTrackData read).
  - by exists evs1.
  - destruct (trackFetchStage_events S song st1) as (evs2 & Hlog2 & Hcls).
    exists (evs1 ++ evs2)%list.
    split; [by rewrite Hlog2, Hlog1, <- app_assoc|].
    split.
    + rewrite readsOf_app, Hreads1.
      rewrite (readsOf_none isTrackStageEvent evs2); [done|done|exact Hcls].
    + rewrite List.filter_app, Hstore1.
      rewrite (filter_none isStoreCall isTrackStageEvent evs2); [done| |exact Hcls].
      by intros [].
Qed.

Lemma tally_state counts song st :
  snd (nativeapi_trackdata.tally S counts song st)
  = snd (nativeapi_trackdata.processSong S song st).
Proof.
  destruct counts as [[f x] s]. unfold nativeapi_trackdata.tally, bind, ret.
  destruct (nativeapi_trackdata.processSong S song st) as [r st1]; simpl.
  destruct (nativeapi_trackdata.fetched r); [done|].
  destruct (nativeapi_trackdata.failed r); [done|].
  by destruct (nativeapi_trackdata.skipped r).
Qed.

Lemma fetchTrackDataForSongs_state songs st :
  snd (nativeapi_trackdata.fetchTrackDataForSongs S songs st)
  = snd (forRange (nativeapi_trackdata.tally S) songs (0, 0, 0) st).
Proof.
  unfold nativeapi_trackdata.fetchTrackDataForSongs, bind, ret.
  by destruct (forRange _ songs (0, 0, 0) st) as [[[f x] s] st1].
Qed.

(** X12. A batch examines every member file exactly once and in the order
    of the list, whatever happens to the files before it: the tag blocks
    read during a batch, lyrics or track metrics, are those of the
    member files, one read per file, in order.  No failure ends the batch
    early. *)
Theorem batch_reads_every_file_in_order (songs : list MediaFile) (st : State W) :
  readsOf (log (snd (nativeapi_lyrics.fetchLyricsForSongs S songs st)))
  = (readsOf (log st) ++ map (AbsolutePath S) songs)%list
  /\ readsOf (log (snd (nativeapi_trackdata.fetchTrackDataForSongs S songs st)))
     = (readsOf (log st) ++ map (AbsolutePath S) songs)%list.
Proof.
  split.
  - unfold nativeapi_lyrics.fetchLyricsForSongs.
    apply (forRange_trace _ (fun st => readsOf (log st)) (AbsolutePath S)).
    intros resp song st'.
    destruct (fetchLyricsForSong_events resp song st') as (evs & -> & Hreads & _).
    by rewrite readsOf_app, Hreads.
  - rewrite fetchTrackDataForSongs_state.
    apply (forRange_trace _ (fun st => readsOf (log st)) (AbsolutePath S)).
    intros counts song st'. rewrite tally_state.
    destruct (processSong_events song st') as (evs & -> & Hreads & _).
    by rewrite readsOf_app, Hreads.
Qed.

(** X13. The track-metrics batch never calls the data store or the clock:
    the store calls in its log are those that were there before.  In the
    lyrics batch every file counted as fetched has had its record put,
    and only files counted as fetched or failed have: the number of Puts
    made lies between [fetched] and [fetched + failed]. *)
Theorem batches_and_the_data_store (songs : list MediaFile) (st : State W) :
  List.filter isStoreCall
    (log (snd (nativeapi_trackdata.fetchTrackDataForSongs S songs st)))
  = List.filter isStoreCall (log st)
  /\ let out := nativeapi_lyrics.fetchLyricsForSongs S songs st in
     nativeapi_lyrics.Fetched (fst out)
     <= putsOf (log (snd out)) - putsOf (log st)
     <= nativeapi_lyrics.Fetched (fst out) + nativeapi_lyrics.Failed (fst out).
Proof.
  split.
  - rewrite fetchTrackDataForSongs_state.
    apply (forRange_invariant (nativeapi_trackdata.tally S)
             (fun _ st' => List.filter isStoreCall (log st')
                           = List.filter isStoreCall (log st))); [|done].
    intros counts song st' Hinv. rewrite tally_state.
    destruct (processSong_events song st') as (evs & -> & _ & Hstore).
    by rewrite List.filter_app, Hstore, app_nil_r.
  - cbv zeta. unfold nativeapi_lyrics.fetchLyricsForSongs.
    apply (forRange_invariant (nativeapi_lyrics.fetchLyricsForSong S)
             (fun resp st' =>
                nativeapi_lyrics.Fetched resp
                <= putsOf (log st') - putsOf (log st)
                <= nativeapi_lyrics.Fetched resp + nativeapi_lyrics.Failed resp));
      [|simpl; lia].
    intros resp song st' Hinv.
    destruct (fetchLyricsForSong_events resp song st') as (evs & -> & _ & Hout).
    rewrite putsOf_app.
    destruct Hout as [[-> Hp]|[[-> Hp]| [-> Hp]]]; simpl; lia.
Qed.
End batches.

(** ** The batch handlers before the first file *)

Section preflight.
Context {W L : Type} (S : Sys W L).

(** A batch handler whose provider is not available answers 503 at
    once: it does not ask the data store for the songs and touches no
    file. *)
Lemma batch_handlers_unavailable (id : string) (st : State W) :
  (lyrics.IsGeniusAvailable (lyricsPrims S) = false ->
   nativeapi_lyrics.fetchAlbumLyrics S id st
   = (HttpError nativeapi_lyrics.notAvailable 503, st)
   /\ nativeapi_lyrics.fetchPlaylistLyrics S id st
      = (HttpError nativeapi_lyrics.notAvailable 503, st))
  /\ (trackanalysis.IsAvailable (trackPrims S) = false ->
      nativeapi_trackdata.fetchAlbumTrackData S id st
      = (HttpError nativeapi_trackdata.notAvailable 503, st)
      /\ nativeapi_trackdata.fetchPlaylistTrackData S id st
         = (HttpError nativeapi_trackdata.notAvailable 503, st)).
Proof.
  split; intros Hno.
  - unfold nativeapi_lyrics.fetchAlbumLyrics, nativeapi_lyrics.fetchPlaylistLyrics.
    by rewrite Hno.
  - unfold nativeapi_trackdata.fetchAlbumTrackData,
      nativeapi_trackdata.fetchPlaylistTrackData.
    by rewrite Hno.
Qed.

(** X14. With the provider available, a batch handler (album or playlist,
    lyrics or track data) asks the data store once for the songs.  If the store fails, the answer is 404 for
    not-found and 500 for any other error; if the album or playlist has
    no songs, the answer is 404; in each of these cases nothing else is
    called, so no file is read and no counters are returned. *)
Theorem batch_handlers_without_songs (id : string) (st : State W) :
  (lyrics.IsGeniusAvailable (lyricsPrims S) = true ->
   (let got := ds_GetAll S id (world st) in
    let out := nativeapi_lyrics.fetchAlbumLyrics S id st in
    noSongsReply "Album" (fst got) (fst out)
    /\ (noSongs (fst got) = true ->
        snd out = {| world := snd got; log := (log st ++ [EvGetAll id])%list |}))
   /\ (let got := ds_GetWithTracks S id (world st) in
       let out := nativeapi_lyrics.fetchPlaylistLyrics S id st in
       noSongsReply "Playlist" (fst got) (fst out)
       /\ (noSongs (fst got) = true ->
           snd out = {| world := snd got;
                        log := (log st ++ [EvGetWithTracks id])%list |})))
  /\ (trackanalysis.IsAvailable (trackPrims S) = true ->
      (let got := ds_GetAll S id (world st) in
       let out := nativeapi_trackdata.fetchAlbumTrackData S id st in
       noSongsReply "Album" (fst got) (fst out)
       /\ (noSongs (fst got) = true ->
           snd out = {| world := snd got; log := (log st ++ [EvGetAll id])%list |}))
      /\ (let got := ds_GetWithTracks S id (world st) in
          let out := nativeapi_trackdata.fetchPlaylistTrackData S id st in
          noSongsReply "Playlist" (fst got) (fst out)
          /\ (noSongs (fst got) = true ->
              snd out = {| world := snd got;
                           log := (log st ++ [EvGetWithTracks id])%list |}))).
Proof.
  split; intros Hyes; split; cbv zeta.
  - unfold nativeapi_lyrics.fetchAlbumLyrics, bind, call, ret. rewrite Hyes. simpl.
    destruct (ds_GetAll S id (world st)) as [[[|song songs]|e] w']; simpl;
      [done|done|by destruct (errors_Is e ErrNotFound)].
  - unfold nativeapi_lyrics.fetchPlaylistLyrics, bind, call, ret. rewrite Hyes. simpl.
    destruct (ds_GetWithTracks S id (world st)) as [[[|song songs]|e] w']; simpl;
      [done|done|by destruct (errors_Is e ErrNotFound)].
  - unfold nativeapi_trackdata.fetchAlbumTrackData, bind, call, ret. rewrite Hyes.
    simpl.
    destruct (ds_GetAll S id (world st)) as [[[|song songs]|e] w']; simpl;
      [done|done|by destruct (errors_Is e ErrNotFound)].
  - unfold nativeapi_trackdata.fetchPlaylistTrackData, bind, call, ret. rewrite Hyes.
    simpl.
    destruct (ds_GetWithTracks S id (world st)) as [[[|song songs]|e] w']; simpl;
      [done|done|by destruct (errors_Is e ErrNotFound)].
Qed.
End preflight.

(** An album without songs: 404, after the one call of the data store. *)
Lemma batch_handlers_without_songs_witness :
  let st := start (sim.set_db ∅ (sim.worldWith [] [])) in
  let out := nativeapi_trackdata.fetchAlbumTrackData (sim.system "key") "al1" st in
  fst out = HttpError "No songs found in album" 404
  /\ log (snd out) = [EvGetAll "al1"].
Proof.
  cbv zeta.
  destruct (proj1 (proj2 (batch_handlers_without_songs (sim.system "key") "al1"
                            (start (sim.set_db ∅ (sim.worldWith [] []))))
                     eq_refl)) as [Hreply Hstate].
  split; [exact Hreply|]. by rewrite (Hstate eq_refl).
Defined.

(** ** The tag handlers: early exits, and the Put *)

Section setTag_paths.
Context {W L : Type} (S : Sys W L).
Import nativeapi_song_tag.

(** X15. A SetTag request whose body does not decode is answered 400
    without any call.  A request for a song the data store does not have
    is answered 404, and 500 when the store fails otherwise; in both
    cases the handler stops after the Get, so no file tag is written. *)
Theorem setTag_stops_before_the_file (id : string) (st : State W) :
  (forall e, setEnergy S id (inr e) st
             = ((HttpError "Invalid request body" 400, None), st)
             /\ setMood S id (inr e) st
                = ((HttpError "Invalid request body" 400, None), st))
  /\ (forall err w1,
         ds_Get S id (world st) = (inr err, w1) ->
         let reply {R} : Reply R :=
           if errors_Is err ErrNotFound then HttpError "Song not found" 404
           else HttpError "Internal server error" 500 in
         let after := {| world := w1; log := (log st ++ [EvGet id])%list |} in
         (forall v, In v validEnergyValues ->
            setEnergy S id (inl {| energyValue := v |}) st = ((reply, None), after))
         /\ (forall v, In v validMoodValues ->
               setMood S id (inl {| moodValue := v |}) st = ((reply, None), after))).
Proof.
  split; [done|].
  intros err w1 Hget. cbv zeta. split; intros v Hv.
  - unfold setEnergy. cbn [energyValue].
    apply Contains_In in Hv. rewrite Hv. cbn [negb].
    unfold bind, call. rewrite Hget. by destruct (errors_Is err ErrNotFound).
  - unfold setMood. cbn [moodValue].
    apply Contains_In in Hv. rewrite Hv. cbn [negb].
    unfold bind, call. rewrite Hget. by destruct (errors_Is err ErrNotFound).
Qed.

(** X16. When the file tag has been written, a SetTag handler reads the
    clock and puts the record once.  The record it puts is the one the
    store returned with two changes only: the tag (set to the singleton
    list of the value, or removed for the empty value) and updatedAt (the
    clock's time).  If the Put fails the answer is 500; the tag written
    to the file is not taken back, no further call being made. *)
Theorem setTag_after_the_file_write
    (id v : string) (st : State W) (mf : MediaFile) (w1 : W) (st2 : State W) :
  ds_Get S id (world st) = (inl mf, w1) ->
  (In v validEnergyValues ->
   taglib.WriteTag (tagPrims S) (filepath_Join S (LibraryPath mf) (Path mf))
                   "ENERGY" v {| world := w1; log := (log st ++ [EvGet id])%list |}
   = (None, st2) ->
   let tags := default ∅ (Tags mf) in
   let tags' := if String.eqb v "" then delete "energy" tags
                else <["energy" := [v]]> tags in
   let now := time_Now S (world st2) in
   let mf' := set_UpdatedAt (fst now) (set_Tags (Some tags') mf) in
   let put := ds_Put S mf' (snd now) in
   setEnergy S id (inl {| energyValue := v |}) st
   = ((if fst put is Some _
       then HttpError "Failed to update database" 500
       else HttpJSON {| energyID := id; Energy := v |},
       Some mf'),
      {| world := snd put; log := (log st2 ++ [EvNow; EvPut mf'])%list |}))
  /\ (In v validMoodValues ->
      taglib.WriteTag (tagPrims S) (filepath_Join S (LibraryPath mf) (Path mf))
                      "MOOD" v {| world := w1; log := (log st ++ [EvGet id])%list |}
      = (None, st2) ->
      let tags := default ∅ (Tags mf) in
      let tags' := if String.eqb v "" then delete "mood" tags
                   else <["mood" := [v]]> tags in
      let now := time_Now S (world st2) in
      let mf' := set_UpdatedAt (fst now) (set_Tags (Some tags') mf) in
      let put := ds_Put S mf' (snd now) in
      setMood S id (inl {| moodValue := v |}) st
      = ((if fst put is Some _
          then HttpError "Failed to update database" 500
          else HttpJSON {| moodID := id; Mood := v |},
          Some mf'),
         {| world := snd put; log := (log st2 ++ [EvNow; EvPut mf'])%list |})).
Proof.
  intros Hget. split; intros Hv Hwrite; cbv zeta.
  - unfold setEnergy. cbn [energyValue].
    apply Contains_In in Hv. rewrite Hv. cbn [negb].
    unfold bind at 1. unfold call at 1. rewrite Hget.
    unfold bind at 1. rewrite Hwrite.
    unfold bind, call, ret.
    destruct (time_Now S (world st2)) as [now w3]. cbn [fst snd world log].
    destruct (ds_Put S _ w3) as [[e|] w4]; cbn [fst snd]; by rewrite <- app_assoc.
  - unfold setMood. cbn [moodValue].
    apply Contains_In in Hv. rewrite Hv. cbn [negb].
    unfold bind at 1. unfold call at 1. rewrite Hget.
    unfold bind at 1. rewrite Hwrite.
    unfold bind, call, ret.
    destruct (time_Now S (world st2)) as [now w3]. cbn [fst snd world log].
    destruct (ds_Put S _ w3) as [[e|] w4]; cbn [fst snd]; by rewrite <- app_assoc.
Qed.
End setTag_paths.

(** The song is not in the data store: 404 and a single Get. *)
Lemma setTag_stops_before_the_file_witness :
  nativeapi_song_tag.setEnergy (sim.system "key") "nope"
    (inl {| nativeapi_song_tag.energyValue := "low" |}) (start (sim.worldWith [] []))
  = ((HttpError "Song not found" 404, None),
     {| world := sim.worldWith [] []; log := [EvGet "nope"] |}).
Proof.
  apply (proj1 (proj2 (setTag_stops_before_the_file (sim.system "key") "nope"
                         (start (sim.worldWith [] [])))
                  ErrNotFound (sim.worldWith [] []) eq_refl)).
  right; left; reflexivity.
Defined.

(** The data store refuses the write: 500, and the file keeps the tag that
    was written. *)
Lemma setTag_after_the_file_write_witness :
  let out := nativeapi_song_tag.setEnergy (sim.system "key") "s1"
               (inl {| nativeapi_song_tag.energyValue := "low" |})
               (start sim_more.worldDbDown) in
  fst (fst out) = HttpError "Failed to update database" 500
  /\ sim.files (world (snd out)) !! "/music/a.flac"
     = Some [taglib.CallPutStr "ENERGY" "low"]
  /\ sim.db (world (snd out)) = sim.db sim_more.worldDbDown
  /\ log (snd out) = [EvGet "s1"; EvTaglibWriteTag "/music/a.flac" "ENERGY" "low";
                      EvNow;
                      EvPut (set_UpdatedAt 0
                               (set_Tags (Some {[ "energy" := ["low"] ]}) sim.song1))].
Proof.
  cbv zeta.
  rewrite (proj1 (setTag_after_the_file_write (sim.system "key") "s1" "low"
                    (start sim_more.worldDbDown) sim.song1 sim_more.worldDbDown
                    (snd (taglib.WriteTag sim.tagPrims "/music/a.flac" "ENERGY" "low"
                            {| world := sim_more.worldDbDown; log := [EvGet "s1"] |}))
                    eq_refl)
             ltac:(right; left; reflexivity) ltac:(vm_compute; reflexivity)).
  vm_compute. repeat split.
Defined.

(** ** The capability probes *)

Section probe_facts.
Context (H : probes.Host).

Lemma firstExisting_Some locations loc :
  probes.firstExisting H locations = Some loc -> firstOf H locations loc.
Proof.
  unfold probes.firstExisting, firstOf, exists_.
  induction locations as [|l locations IH]; simpl; [discriminate|].
  destruct (probes.Stat H l) as [e|] eqn:El.
  - intros Hfind. destruct (IH Hfind) as (before & after & -> & Hloc & Hbefore).
    exists (l :: before), after. split; [done|]. split; [done|].
    constructor; [by rewrite El|done].
  - intros Heq. inversion Heq; subst l. by exists [], locations.
Qed.

Lemma firstExisting_None locations :
  probes.firstExisting H locations = None
  <-> Forall (fun l => ~ exists_ H l) locations.
Proof.
  unfold probes.firstExisting, exists_.
  induction locations as [|l locations IH]; simpl; [by split; [constructor|]|].
  destruct (probes.Stat H l) as [e|] eqn:El.
  - rewrite IH. split.
    + intros Hall. constructor; [by rewrite El|done].
    + by inversion 1.
  - split; [discriminate|]. inversion 1 as [|? ? Hl]; subst. by destruct Hl.
Qed.

Lemma firstExisting_is_Some locations :
  is_Some (probes.firstExisting H locations)
  <-> Exists (exists_ H) locations.
Proof.
  split.
  - intros [loc Hloc].
    destruct (firstExisting_Some _ _ Hloc) as (before & after & -> & Hex & _).
    apply Exists_app. right. by constructor.
  - intros Hex. destruct (probes.firstExisting H locations) eqn:E; [by eexists|].
    apply firstExisting_None in E. rewrite Forall_forall in E.
    apply Exists_exists in Hex as (l & Hin & Hl). by destruct (E l Hin).
Qed.

(** X17. The analyzer probe.  If the Essentia tool is on the path it is
    used as it is, python is not looked for, and script mode is off.
    Otherwise the analyzer is available exactly when python is found,
    python can import the essentia module, and one of the script
    locations exists.  In script mode the script used is the first
    location that exists, in the order of the search. *)
Theorem essentia_probe_outcome :
  let cli := probes.LookPath H "essentia_streaming_extractor_music" in
  let probe := probes.essentiaCmd H in
  (snd cli = None ->
   probe = {| probes.essentiaPath := fst cli; probes.essentiaErr := None;
              probes.pythonPath := ""; probes.useScriptMode := false |})
  /\ (snd cli <> None ->
      (probes.essentiaErr probe = None
       <-> probes.lookPython H <> ""
           /\ probes.Run H (probes.lookPython H) ["-c"; "import essentia"] = None
           /\ Exists (exists_ H) (probes.essentiaLocations H)))
  /\ (probes.useScriptMode probe = true ->
      probes.essentiaErr probe = None
      /\ probes.pythonPath probe = probes.lookPython H
      /\ probes.pythonPath probe <> ""
      /\ firstOf H (probes.essentiaLocations H) (probes.essentiaPath probe)).
Proof.
  cbv zeta. unfold probes.essentiaCmd.
  destruct (probes.LookPath H "essentia_streaming_extractor_music") as [path [e|]];
    simpl.
  2:{ split; [done|]. split; [done|discriminate]. }
  split; [discriminate|].
  destruct (String.eqb (probes.lookPython H) "") eqn:Epy; simpl.
  { apply String.eqb_eq in Epy. split; [|discriminate].
    intros _. split; [discriminate|]. by intros [? _]. }
  apply String.eqb_neq in Epy.
  destruct (probes.Run H (probes.lookPython H) ["-c"; "import essentia"])
    as [e'|] eqn:Erun; simpl.
  { split; [|discriminate]. intros _. split; [discriminate|]. by intros (_ & ? & _). }
  destruct (probes.firstExisting H (probes.essentiaLocations H)) as [loc|] eqn:Eloc;
    simpl.
  - split.
    + intros _. split; [|done]. intros _. split; [done|]. split; [done|].
      apply firstExisting_is_Some. by eexists.
    + intros _. split; [done|]. split; [done|]. split; [done|].
      by apply firstExisting_Some.
  - split; [|discriminate]. intros _. split; [discriminate|].
    intros (_ & _ & Hex). apply firstExisting_is_Some in Hex as [? Hex].
    by rewrite Eloc in Hex.
Qed.

(** X18. The lyrics probe.  Without the access token the provider is not
    available, whatever else is installed.  It is available exactly when
    the token is set, python is found, python can import lyricsgenius,
    and one of the script locations exists; the script it then uses is
    the first location that exists.  A provider whose probe this is
    makes the batch handlers answer 503 when the token is missing. *)
Theorem genius_probe_outcome :
  let probe := probes.geniusCmd H in
  let token := probes.Getenv H "GENIUS_CLIENT_ACCESS_TOKEN" in
  (token = "" -> snd probe <> None)
  /\ (snd probe = None
      <-> token <> ""
          /\ probes.lookPython H <> ""
          /\ probes.Run H (probes.lookPython H) ["-c"; "import lyricsgenius"] = None
          /\ Exists (exists_ H) (probes.geniusLocations H))
  /\ (snd probe = None ->
      fst (fst probe) = probes.lookPython H
      /\ firstOf H (probes.geniusLocations H) (snd (fst probe)))
  /\ (forall W L (S : Sys W L) id st,
         lyrics.geniusCmd (lyricsPrims S) = probe -> token = "" ->
         fst (nativeapi_lyrics.fetchAlbumLyrics S id st)
         = HttpError nativeapi_lyrics.notAvailable 503
         /\ fst (nativeapi_lyrics.fetchPlaylistLyrics S id st)
            = HttpError nativeapi_lyrics.notAvailable 503).
Proof.
  cbv zeta.
  assert (Hmain :
    (probes.Getenv H "GENIUS_CLIENT_ACCESS_TOKEN" = "" ->
     snd (probes.geniusCmd H) <> None)
    /\ (snd (probes.geniusCmd H) = None
        <-> probes.Getenv H "GENIUS_CLIENT_ACCESS_TOKEN" <> ""
            /\ probes.lookPython H <> ""
            /\ probes.Run H (probes.lookPython H) ["-c"; "import lyricsgenius"] = None
            /\ Exists (exists_ H) (probes.geniusLocations H))
    /\ (snd (probes.geniusCmd H) = None ->
        fst (fst (probes.geniusCmd H)) = probes.lookPython H
        /\ firstOf H (probes.geniusLocations H) (snd (fst (probes.geniusCmd H))))).
  { unfold probes.geniusCmd.
    destruct (String.eqb (probes.Getenv H "GENIUS_CLIENT_ACCESS_TOKEN") "") eqn:Etok;
      simpl.
    { apply String.eqb_eq in Etok. split; [done|]. split; [|discriminate].
      split; [discriminate|]. by intros [? _]. }
    apply String.eqb_neq in Etok. split; [done|].
    destruct (String.eqb (probes.lookPython H) "") eqn:Epy; simpl.
    { apply String.eqb_eq in Epy. split; [|discriminate].
      split; [discriminate|]. by intros (_ & ? & _). }
    apply String.eqb_neq in Epy.
    destruct (probes.Run H (probes.lookPython H) ["-c"; "import lyricsgenius"])
      as [e'|] eqn:Erun; simpl.
    { split; [|discriminate]. split; [discriminate|]. by intros (_ & _ & ? & _). }
    destruct (probes.firstExisting H (probes.geniusLocations H)) as [loc|] eqn:Eloc;
      simpl.
    - split.
      + split; [|done]. intros _. split; [done|]. split; [done|]. split; [done|].
        apply firstExisting_is_Some. by eexists.
      + intros _. split; [done|]. by apply firstExisting_Some.
    - split; [|discriminate]. split; [discriminate|].
      intros (_ & _ & _ & Hex). apply firstExisting_is_Some in Hex as [? Hex].
      by rewrite Eloc in Hex. }
  destruct Hmain as (H1 & H2 & H3).
  split; [exact H1|]. split; [exact H2|]. split; [exact H3|].
  intros W L S id st Hprobe Htok. specialize (H1 Htok).
  assert (Hno : lyrics.IsGeniusAvailable (lyricsPrims S) = false).
  { unfold lyrics.IsGeniusAvailable. rewrite Hprobe.
    by destruct (probes.geniusCmd H) as [[py script] [e|]]. }
  unfold nativeapi_lyrics.fetchAlbumLyrics, nativeapi_lyrics.fetchPlaylistLyrics.
  by rewrite Hno.
Qed.
End probe_facts.

(** No tool on the path, python3 present, and the script both under /app
    and in the working directory: script mode, with the script under
    /app, which the search reaches first. *)
Lemma essentia_probe_outcome_witness :
  let H := sim_more.host false true
             ["/data/scripts/essentia_analyze.py"; "/app/scripts/essentia_analyze.py"]
             "" in
  probes.essentiaCmd H
  = {| probes.essentiaPath := "/app/scripts/essentia_analyze.py";
       probes.essentiaErr := None;
       probes.pythonPath := "/usr/bin/python3";
       probes.useScriptMode := true |}
  /\ firstOf H (probes.essentiaLocations H) "/app/scripts/essentia_analyze.py".
Proof.
  cbv zeta. split; [reflexivity|].
  exact (proj2 (proj2 (proj2 (proj2 (proj2
    (essentia_probe_outcome
       (sim_more.host false true
          ["/data/scripts/essentia_analyze.py"; "/app/scripts/essentia_analyze.py"]
          "")))
    eq_refl)))).
Defined.

(** Everything installed but no token: not available. *)
Lemma genius_probe_outcome_witness :
  snd (probes.geniusCmd
         (sim_more.host false true ["/app/scripts/genius_lyrics.py"] "")) <> None.
Proof.
  exact (proj1 (genius_probe_outcome
                  (sim_more.host false true ["/app/scripts/genius_lyrics.py"] ""))
           eq_refl).
Defined.

(** ** The analysis and its handler *)

Section analysis.
Context {W : Type} (P : analyzer.Prims W) (E : probes.Essentia).

(** X19. An analysis removes its temporary output file on every path: once
    the file has been created, whatever the tool and the parsing do, the
    last call of [Analyze] is the removal of that file, and it is the
    only removal.  Before that the calls are the stat of the audio file,
    the creation of the temporary file, one run of the tool, and the
    reading of the output if the run succeeded.  When the analyzer is
    not available, the audio file is missing or the temporary file
    cannot be created, nothing is run and nothing is removed. *)
Theorem Analyze_removes_its_temporary_file
    (audioPath : string) (st : State (W * list analyzer.Call)) :
  let out := analyzer.Analyze P E audioPath st in
  let before := snd (world st) in
  let calls := snd (world (snd out)) in
  log (snd out) = log st
  /\ match probes.essentiaErr E with
     | Some _ => out = (inr (analyzer.Plain analyzer.ErrAnalyzerNotAvailable), st)
     | None =>
         let stat := analyzer.os_Stat P audioPath (fst (world st)) in
         match fst stat with
         | Some err =>
             fst out = inr (analyzer.Plain (ErrWrap "audio file not found: " err))
             /\ calls = (before ++ [analyzer.CallStat audioPath])%list
         | None =>
             let tmp := analyzer.os_CreateTemp P (snd stat) in
             match fst tmp with
             | inr err =>
                 fst out = inr (analyzer.Plain (ErrWrap "failed to create temp file: " err))
                 /\ calls = (before ++ [analyzer.CallStat audioPath;
                                        analyzer.CallCreateTemp])%list
             | inl outputPath =>
                 exists ranWell,
                   calls = (before ++ [analyzer.CallStat audioPath;
                                       analyzer.CallCreateTemp]
                              ++ analysisCalls E audioPath outputPath ranWell
                              ++ [analyzer.CallRemove outputPath])%list
                   /\ (ranWell = false ->
                       exists err, fst out = inr (analyzer.Failed err))
             end
         end
     end.
Proof.
  cbv zeta. unfold analyzer.Analyze, analysisCalls, analyzer.parseEssentiaOutput,
    bind, ret, analyzer.acall.
  destruct (probes.essentiaErr E) as [e|]; [done|].
  destruct (analyzer.os_Stat P audioPath (fst (world st))) as [[err|] w1];
    cbn [fst snd world log]; [done|].
  destruct (analyzer.os_CreateTemp P w1) as [[outputPath|err] w2];
    cbn [fst snd world log]; [|by rewrite <- app_assoc].
  destruct (probes.useScriptMode E); cbn [fst snd world log].
  - destruct (analyzer.cmd_Run P _ _ w2) as [[rerr|] w3]; cbn [fst snd world log].
    + destruct (analyzer.os_Remove P outputPath w3) as [x w4]; cbn [fst snd world log].
      split; [done|]. exists false. split; [by rewrite <- !app_assoc|]. by eexists.
    + destruct (analyzer.os_ReadFile P outputPath w3) as [[data|rerr] w4];
        cbn [fst snd world log].
      * destruct (analyzer.json_Unmarshal P data) as [output|jerr];
          [destruct (audio.classifyEnergy _) as [label score]|];
          cbn [fst snd world log];
          destruct (analyzer.os_Remove P outputPath w4) as [x w5];
          cbn [fst snd world log];
          (split; [done|]); exists true; (split; [by rewrite <- !app_assoc|done]).
      * destruct (analyzer.os_Remove P outputPath w4) as [x w5];
          cbn [fst snd world log].
        split; [done|]. exists true. split; [by rewrite <- !app_assoc|done].
  - destruct (analyzer.cmd_Run P _ _ w2) as [[rerr|] w3]; cbn [fst snd world log].
    + destruct (analyzer.os_Remove P outputPath w3) as [x w4]; cbn [fst snd world log].
      split; [done|]. exists false. split; [by rewrite <- !app_assoc|]. by eexists.
    + destruct (analyzer.os_ReadFile P outputPath w3) as [[data|rerr] w4];
        cbn [fst snd world log].
      * destruct (analyzer.json_Unmarshal P data) as [output|jerr];
          [destruct (audio.classifyEnergy _) as [label score]|];
          cbn [fst snd world log];
          destruct (analyzer.os_Remove P outputPath w4) as [x w5];
          cbn [fst snd world log];
          (split; [done|]); exists true; (split; [by rewrite <- !app_assoc|done]).
      * destruct (analyzer.os_Remove P outputPath w4) as [x w5];
          cbn [fst snd world log].
        split; [done|]. exists true. split; [by rewrite <- !app_assoc|done].
Qed.
End analysis.

Ltac analyze_paths P E audioPath st :=
  unfold analyzer.Analyze, analyzer.parseEssentiaOutput, bind, ret, analyzer.acall;
  destruct (probes.essentiaErr E) as [?|] eqn:?;
  [| destruct (analyzer.os_Stat P audioPath (fst (world st))) as [[?|] ?];
     cbn [fst snd world log];
     [| destruct (analyzer.os_CreateTemp P _) as [[?|?] ?]; cbn [fst snd world log];
        [ destruct (probes.useScriptMode E); cbn [fst snd world log];
          (destruct (analyzer.cmd_Run P _ _ _) as [[?|] ?]; cbn [fst snd world log];
           [| destruct (analyzer.os_ReadFile P _ _) as [[?|?] ?];
              cbn [fst snd world log];
              [ destruct (analyzer.json_Unmarshal P _) as [?|?];
                [destruct (audio.classifyEnergy _) as [? ?] eqn:?|];
                cbn [fst snd world log] |]]);
          destruct (analyzer.os_Remove P _ _) as [? ?]; cbn [fst snd world log]
        | ]]].

Section analysis_results.
Context {W : Type} (P : analyzer.Prims W) (E : probes.Essentia).

Lemma Analyze_log (audioPath : string) (st : State (W * list analyzer.Call)) :
  log (snd (analyzer.Analyze P E audioPath st)) = log st.
Proof. analyze_paths P E audioPath st; done. Qed.

Lemma Analyze_ok (audioPath : string) (st : State (W * list analyzer.Call)) r :
  fst (analyzer.Analyze P E audioPath st) = inl r ->
  (analyzer.SuggestedEnergy r, analyzer.Score r)
  = audio.classifyEnergy (analyzer.Metrics r).
Proof.
  analyze_paths P E audioPath st; intros Hr; try discriminate Hr.
  all: inversion Hr; subst r; simpl; congruence.
Qed.

Lemma Analyze_first_call (audioPath : string) (st : State (W * list analyzer.Call)) :
  probes.essentiaErr E = None ->
  exists others,
    snd (world (snd (analyzer.Analyze P E audioPath st)))
    = (snd (world st) ++ analyzer.CallStat audioPath :: others)%list.
Proof.
  intros HE. analyze_paths P E audioPath st; try discriminate HE.
  all: rewrite <- ?app_assoc; by eexists.
Qed.
End analysis_results.

Lemma classifyEnergy_label (m : audio.AudioMetrics) :
  In (fst (audio.classifyEnergy m)) ["low"; "medium"; "high"].
Proof.
  unfold audio.classifyEnergy. cbv zeta. cbn [fst].
  match goal with |- context [audio.TotalScore ?b >=? 5] =>
    generalize (audio.TotalScore b) end.
  intros t. destruct (t >=? 5); [by right; right; left|].
  destruct (t >=? 2); [by right; left|by left].
Qed.

Section analysis_handler.
Context {W : Type} (P : analyzer.Prims W) (E : probes.Essentia).
Context (ds_Get : string -> W * list analyzer.Call
                  -> result MediaFile * (W * list analyzer.Call)).
Context (filepath_Join : string -> string -> string).

(** X20. The suggested-energy handler over the Essentia analyzer.  With no
    analyzer, or with one whose probe failed, it answers 503 and calls
    nothing.  Otherwise it asks the data store once for the song and
    calls nothing else of the store, the clock or the tag library; if
    the store fails it answers 404 for not-found and 500 otherwise, and
    no analysis is run; if the store has the song, the file that is
    analysed is the song's path joined to its library path.  A JSON reply carries the
    id that was asked for, its label and score are those of
    [classifyEnergy] on the metrics it carries, and the label is one of
    the energy values the UI offers and [setEnergy] accepts. *)
Theorem getSuggestedEnergy_over_essentia (id : string)
    (st : State (W * list analyzer.Call)) :
  let unavailable :=
    HttpError "Audio analyzer not available. Please install essentia_streaming_extractor_music."
              503 in
  let handler := analyzer.getSuggestedEnergy ds_Get filepath_Join in
  let out := handler (Some (analyzer.EssentiaAnalyzer P E)) id st in
  let got := call (EvGet id) (ds_Get id) st in
  handler None id st = (unavailable, st)
  /\ (probes.essentiaErr E <> None -> out = (unavailable, st))
  /\ (probes.essentiaErr E = None ->
      log (snd out) = (log st ++ [EvGet id])%list
      /\ (forall err, fst got = inr err ->
            out = (if errors_Is err ErrNotFound
                   then HttpError "Song not found" 404
                   else HttpError "Internal server error" 500, snd got))
      /\ (forall mf, fst got = inl mf ->
            exists others,
              snd (world (snd out))
              = (snd (world (snd got))
                   ++ analyzer.CallStat (filepath_Join (LibraryPath mf) (Path mf))
                   :: others)%list))
  /\ (forall resp, fst out = HttpJSON resp ->
        analyzer.respID resp = id
        /\ (analyzer.respSuggestedEnergy resp, analyzer.respScore resp)
           = audio.classifyEnergy (analyzer.respMetrics resp)
        /\ In (analyzer.respSuggestedEnergy resp) ui.ENERGY_VALUES
        /\ nativeapi_song_tag.Contains nativeapi_song_tag.validEnergyValues
             (analyzer.respSuggestedEnergy resp) = true).
Proof.
  cbv zeta. split; [done|].
  unfold analyzer.getSuggestedEnergy, analyzer.EssentiaAnalyzer, analyzer.IsAvailable.
  cbn [analyzer.analyzer_IsAvailable analyzer.analyzer_Analyze].
  destruct (probes.essentiaErr E) as [e|] eqn:HE; cbn [negb].
  { split; [done|]. split; [done|]. intros resp Hr. discriminate Hr. }
  split; [done|].
  unfold bind at 1 3 5 7. unfold call.
  destruct (ds_Get id (world st)) as [[mf|err] v1]; cbn [fst snd].
  2:{ split.
      - split; [by destruct (errors_Is err ErrNotFound)|].
        split; [|intros mf Hmf; discriminate Hmf].
        intros err' Herr; inversion Herr; subst err'.
        by destruct (errors_Is err ErrNotFound).
      - intros resp. by destruct (errors_Is err ErrNotFound). }
  unfold bind.
  set (st1 := {| world := v1; log := (log st ++ [EvGet id])%list |}).
  set (fullPath := filepath_Join (LibraryPath mf) (Path mf)).
  pose proof (Analyze_log P E fullPath st1) as Hlog.
  pose proof (Analyze_ok P E fullPath st1) as Hok.
  destruct (Analyze_first_call P E fullPath st1 HE) as [others Hcalls].
  destruct (analyzer.Analyze P E fullPath st1) as [[r|aerr] st2];
    cbn [fst snd] in *.
  - unfold ret. cbn [fst snd]. split.
    + split; [done|]. split; [intros err Herr; discriminate Herr|].
      intros mf' Hmf; inversion Hmf; subst mf'. by exists others.
    + intros resp Hr. inversion Hr; subst resp. cbn.
      specialize (Hok r eq_refl). split; [done|]. split; [done|].
      assert (Hl : In (analyzer.SuggestedEnergy r) ["low"; "medium"; "high"]).
      { replace (analyzer.SuggestedEnergy r)
          with (fst (audio.classifyEnergy (analyzer.Metrics r)))
          by (by rewrite <- Hok).
        apply classifyEnergy_label. }
      split; [exact Hl|].
      destruct Hl as [<-|[<-|[<-|[]]]]; reflexivity.
  - destruct (analyzer.Is aerr analyzer.ErrAnalyzerNotAvailable);
      unfold ret; cbn [fst snd]; (split; [|intros resp Hr; discriminate Hr]);
      (split; [done|]); (split; [intros err Herr; discriminate Herr|]);
      intros mf' Hmf; inversion Hmf; subst mf'; by exists others.
Qed.
End analysis_handler.

(** The song is in the store and the tool runs: the reply carries the id,
    the label high and the score 7 of the metrics the tool reported, and
    the temporary file is gone. *)
Lemma getSuggestedEnergy_over_essentia_witness :
  let out :=
    analyzer.getSuggestedEnergy sim_more.getSong (fun a b => a ++ "/" ++ b)
      (Some (analyzer.EssentiaAnalyzer (sim_more.analyzerPrims false)
                                       sim_more.essentiaCli))
      "s1" (start ([], [])) in
  exists resp,
    fst out = HttpJSON resp
    /\ analyzer.respID resp = "s1"
    /\ (analyzer.respSuggestedEnergy resp, analyzer.respScore resp)
       = audio.classifyEnergy (analyzer.respMetrics resp)
    /\ analyzer.respSuggestedEnergy resp = "high"
    /\ audio.TotalScore (analyzer.respScore resp) = 7
    /\ world (snd out)
       = ([], [analyzer.CallStat "/music/a.flac"; analyzer.CallCreateTemp;
               analyzer.CallRun "/usr/bin/essentia_streaming_extractor_music"
                                ["/music/a.flac"; "/tmp/essentia-1.json"];
               analyzer.CallReadFile "/tmp/essentia-1.json";
               analyzer.CallRemove "/tmp/essentia-1.json"]).
Proof.
  cbv zeta. eexists. split; [vm_compute; reflexivity|].
  destruct (proj2 (proj2 (proj2
    (getSuggestedEnergy_over_essentia (sim_more.analyzerPrims false)
       sim_more.essentiaCli sim_more.getSong (fun a b => a ++ "/" ++ b) "s1"
       (start ([], [])))))
    _ ltac:(vm_compute; reflexivity)) as (Hid & Hscore & _).
  split; [exact Hid|]. split; [exact Hscore|].
  vm_compute. repeat split.
Defined.

(** ** The classifier *)

(** The order of binary64, as [SpecFloat] has it, is transitive. *)
Lemma SFleb_trans (a b c : SpecFloat.spec_float) :
  SpecFloat.SFleb a b = true -> SpecFloat.SFleb b c = true ->
  SpecFloat.SFleb a c = true.
Proof.
  unfold SpecFloat.SFleb, SpecFloat.SFcompare.
  destruct a as [sa|sa| |sa ma ea], b as [sb|sb| |sb mb eb],
    c as [sc|sc| |sc mc ec];
    try destruct sa; try destruct sb; try destruct sc; try done.
  all: change (Pos.compare_cont Eq ?p ?q) with (Pos.compare p q).
  all: destruct (Z.compare_spec ea eb); try done;
       destruct (Z.compare_spec eb ec); try done;
       destruct (Z.compare_spec ea ec); try done; try lia.
  all: destruct (Pos.compare_spec ma mb); try done;
       destruct (Pos.compare_spec mb mc); try done;
       destruct (Pos.compare_spec ma mc); try done; try lia.
Qed.

Lemma fge_mono (x y c : float) :
  PrimFloat.leb x y = true -> audio.fge x c = true -> audio.fge y c = true.
Proof.
  unfold audio.fge. rewrite !FloatAxioms.leb_spec. intros Hxy Hcx.
  by apply (SFleb_trans _ _ _ Hcx Hxy).
Qed.

(** A higher threshold that is met: the lower one is met too. *)
Lemma fge_lower (x lo hi : float) :
  PrimFloat.leb lo hi = true -> audio.fge x hi = true -> audio.fge x lo = true.
Proof.
  unfold audio.fge. rewrite !FloatAxioms.leb_spec. intros Hlh Hhx.
  by apply (SFleb_trans _ _ _ Hlh Hhx).
Qed.

Lemma classifyEnergy_total (m : audio.AudioMetrics) :
  let total := audio.bpmPoints (audio.BPM m) + audio.beatPoints (audio.BeatsLoudness m)
               + audio.loudnessPoints (audio.AverageLoudness m)
               + audio.dancePoints (audio.Danceability m) in
  fst (audio.classifyEnergy m) = audio.labelOf total
  /\ audio.TotalScore (snd (audio.classifyEnergy m)) = total.
Proof.
  destruct m as [bpm beats loud dance]. cbv zeta.
  unfold audio.classifyEnergy, audio.bpmPoints, audio.beatPoints,
    audio.loudnessPoints, audio.dancePoints, audio.labelOf; simpl.
  destruct (audio.fge bpm 130);
    [|destruct (audio.fge bpm 110); [|destruct (audio.fge bpm 85)]];
    (destruct (audio.fge beats 0.7); [|destruct (audio.fge beats 0.4)]);
    destruct (audio.fge loud 0.8); destruct (audio.fge dance 0.7);
    (split; reflexivity).
Qed.

Lemma bpmPoints_mono (x y : float) :
  PrimFloat.leb x y = true -> audio.bpmPoints x <= audio.bpmPoints y.
Proof.
  intros Hxy. unfold audio.bpmPoints.
  pose proof (fge_mono x y 130 Hxy). pose proof (fge_mono x y 110 Hxy).
  pose proof (fge_mono x y 85 Hxy).
  destruct (audio.fge x 130), (audio.fge x 110), (audio.fge x 85),
    (audio.fge y 130), (audio.fge y 110), (audio.fge y 85);
    try lia; intuition discriminate.
Qed.

Lemma beatPoints_mono (x y : float) :
  PrimFloat.leb x y = true -> audio.beatPoints x <= audio.beatPoints y.
Proof.
  intros Hxy. unfold audio.beatPoints.
  pose proof (fge_mono x y 0.7 Hxy). pose proof (fge_mono x y 0.4 Hxy).
  destruct (audio.fge x 0.7), (audio.fge x 0.4),
    (audio.fge y 0.7), (audio.fge y 0.4);
    try lia; intuition discriminate.
Qed.

Lemma loudnessPoints_mono (x y : float) :
  PrimFloat.leb x y = true -> audio.loudnessPoints x <= audio.loudnessPoints y.
Proof.
  intros Hxy. unfold audio.loudnessPoints.
  pose proof (fge_mono x y 0.8 Hxy).
  destruct (audio.fge x 0.8), (audio.fge y 0.8); try lia; intuition discriminate.
Qed.

Lemma dancePoints_mono (x y : float) :
  PrimFloat.leb x y = true -> audio.dancePoints x <= audio.dancePoints y.
Proof.
  intros Hxy. unfold audio.dancePoints.
  pose proof (fge_mono x y 0.7 Hxy).
  destruct (audio.fge x 0.7), (audio.fge y 0.7); try lia; intuition discriminate.
Qed.

(** X21. [classifyEnergy] is monotone: when each of the four metrics of
    one track is at most that of another, in the order of float64, the
    total score of the first is at most that of the second, so a high
    first track makes the second high and a low second track makes the
    first low. *)
Theorem classifyEnergy_is_monotone (m1 m2 : audio.AudioMetrics) :
  PrimFloat.leb (audio.BPM m1) (audio.BPM m2) = true ->
  PrimFloat.leb (audio.BeatsLoudness m1) (audio.BeatsLoudness m2) = true ->
  PrimFloat.leb (audio.AverageLoudness m1) (audio.AverageLoudness m2) = true ->
  PrimFloat.leb (audio.Danceability m1) (audio.Danceability m2) = true ->
  audio.TotalScore (snd (audio.classifyEnergy m1))
  <= audio.TotalScore (snd (audio.classifyEnergy m2))
  /\ (fst (audio.classifyEnergy m1) = "high" -> fst (audio.classifyEnergy m2) = "high")
  /\ (fst (audio.classifyEnergy m2) = "low" -> fst (audio.classifyEnergy m1) = "low").
Proof.
  intros Hb Hl Ha Hd.
  destruct (classifyEnergy_total m1) as [-> ->].
  destruct (classifyEnergy_total m2) as [-> ->].
  pose proof (bpmPoints_mono _ _ Hb). pose proof (beatPoints_mono _ _ Hl).
  pose proof (loudnessPoints_mono _ _ Ha). pose proof (dancePoints_mono _ _ Hd).
  split; [lia|].
  unfold audio.labelOf.
  repeat match goal with |- context [?a <=? ?b] =>
    destruct (Z.leb_spec a b) end; try lia; done.
Qed.

(** 100 BPM with weak beats is low, 140 BPM with strong beats is high. *)
Lemma classifyEnergy_is_monotone_witness :
  let quiet := {| audio.BPM := 100; audio.BeatsLoudness := 0.3;
                  audio.AverageLoudness := 0.5; audio.Danceability := 0.2 |} in
  let loud := {| audio.BPM := 140; audio.BeatsLoudness := 0.75;
                 audio.AverageLoudness := 0.85; audio.Danceability := 0.75 |} in
  audio.TotalScore (snd (audio.classifyEnergy quiet))
  <= audio.TotalScore (snd (audio.classifyEnergy loud)).
Proof.
  cbv zeta.
  exact (proj1 (classifyEnergy_is_monotone
    {| audio.BPM := 100; audio.BeatsLoudness := 0.3;
       audio.AverageLoudness := 0.5; audio.Danceability := 0.2 |}
    {| audio.BPM := 140; audio.BeatsLoudness := 0.75;
       audio.AverageLoudness := 0.85; audio.Danceability := 0.75 |}
    eq_refl eq_refl eq_refl eq_refl)).
Defined.

(** X22. What the tempo decides in [classifyEnergy]: a track below 85 BPM
    is never labelled high, and a track of at least 130 BPM whose beat
    loudness is at least 0.7 is always labelled high.  A track below 85
    BPM whose beat loudness is below 0.4 is labelled medium exactly when
    both its loudness and its danceability score, and low otherwise.  A
    track whose metrics are all NaN is labelled low with a total of 0. *)
Theorem classifyEnergy_tempo_bounds (m : audio.AudioMetrics) :
  let label := fst (audio.classifyEnergy m) in
  let score := snd (audio.classifyEnergy m) in
  (audio.fge (audio.BPM m) 85 = false -> label <> "high")
  /\ (audio.fge (audio.BPM m) 130 = true ->
      audio.fge (audio.BeatsLoudness m) 0.7 = true -> label = "high")
  /\ (audio.fge (audio.BPM m) 85 = false ->
      audio.fge (audio.BeatsLoudness m) 0.4 = false ->
      label = (if audio.fge (audio.AverageLoudness m) 0.8
                  && audio.fge (audio.Danceability m) 0.7
               then "medium" else "low"))
  /\ (audio.BPM m = nan -> audio.BeatsLoudness m = nan ->
      audio.AverageLoudness m = nan -> audio.Danceability m = nan ->
      label = "low" /\ audio.TotalScore score = 0).
Proof.
  cbv zeta. destruct (classifyEnergy_total m) as [-> ->].
  assert (Hbpm : audio.fge (audio.BPM m) 85 = false ->
                 audio.bpmPoints (audio.BPM m) = 0).
  { intros H85. unfold audio.bpmPoints.
    pose proof (fge_lower (audio.BPM m) 85 130 eq_refl).
    pose proof (fge_lower (audio.BPM m) 85 110 eq_refl).
    destruct (audio.fge (audio.BPM m) 130), (audio.fge (audio.BPM m) 110);
      rewrite ?H85; try done; intuition congruence. }
  assert (Hbeat : audio.fge (audio.BeatsLoudness m) 0.4 = false ->
                  audio.beatPoints (audio.BeatsLoudness m) = 0).
  { intros H04. unfold audio.beatPoints.
    pose proof (fge_lower (audio.BeatsLoudness m) 0.4 0.7 eq_refl).
    destruct (audio.fge (audio.BeatsLoudness m) 0.7);
      rewrite ?H04; try done; intuition congruence. }
  split; [|split; [|split]].
  - intros H85. rewrite (Hbpm H85).
    unfold audio.beatPoints, audio.loudnessPoints, audio.dancePoints, audio.labelOf.
    destruct (audio.fge (audio.BeatsLoudness m) 0.7),
      (audio.fge (audio.BeatsLoudness m) 0.4),
      (audio.fge (audio.AverageLoudness m) 0.8),
      (audio.fge (audio.Danceability m) 0.7); done.
  - intros H130 H07. unfold audio.bpmPoints, audio.beatPoints. rewrite H130, H07.
    unfold audio.loudnessPoints, audio.dancePoints, audio.labelOf.
    destruct (audio.fge (audio.AverageLoudness m) 0.8),
      (audio.fge (audio.Danceability m) 0.7); done.
  - intros H85 H04. rewrite (Hbpm H85), (Hbeat H04).
    unfold audio.loudnessPoints, audio.dancePoints, audio.labelOf.
    destruct (audio.fge (audio.AverageLoudness m) 0.8),
      (audio.fge (audio.Danceability m) 0.7); done.
  - intros -> -> -> ->. by vm_compute.
Qed.

(** ** The album fields and the energy and mood buttons *)

Lemma getCommonTagValue_cons (song0 : option ui.Song) (songs : list (option ui.Song))
    (tagName : string) :
  ui.getCommonTagValue (Some (song0 :: songs)) tagName
  = if forallb (fun song => String.eqb (ui.firstValue song tagName)
                                       (ui.firstValue song0 tagName)) songs
    then ui.firstValue song0 tagName else "".
Proof. unfold ui.getCommonTagValue. cbn [forallb]. by rewrite String.eqb_refl. Qed.

Lemma getCommonTagValue_common (songs : option (list (option ui.Song)))
    (tagName v : string) :
  v <> "" ->
  (ui.getCommonTagValue songs tagName = v
   <-> exists l, songs = Some l /\ l <> []
                 /\ Forall (fun song => ui.firstValue song tagName = v) l).
Proof.
  intros Hv. destruct songs as [[|song0 l]|].
  - split; [intros H; by symmetry in H|]. by intros (l & [= <-] & Hl & _).
  - rewrite getCommonTagValue_cons. split.
    + destruct (forallb _ l) eqn:Hall; [|intros H; by symmetry in H].
      intros <-. exists (song0 :: l). split; [done|]. split; [done|].
      constructor; [done|]. rewrite forallb_forall in Hall.
      apply Forall_forall. intros song Hin.
      apply String.eqb_eq, Hall. by apply list_elem_of_In.
    + intros (l' & [= <-] & _ & Hall). apply Forall_cons in Hall as [H0 Hl].
      rewrite H0.
      replace (forallb _ l) with true; [done|].
      symmetry. apply forallb_forall. intros song Hin. apply String.eqb_eq.
      rewrite Forall_forall in Hl. by apply Hl, list_elem_of_In.
  - split; [intros H; by symmetry in H|]. by intros (l & [=] & _).
Qed.

(** X23. The value an album field shows for a tag: a value other than ''
    is shown exactly when there is at least one song and the first value
    of the tag is that value on every song ('' standing for a song
    without the tag); in every other case the field shows ''.  So the
    value does not depend on the order of the songs. *)
Theorem getCommonTagValue_is_the_common_value
    (songs : option (list (option ui.Song))) (tagName : string) :
  (forall v, v <> "" ->
     (ui.getCommonTagValue songs tagName = v
      <-> exists l, songs = Some l /\ l <> []
                    /\ Forall (fun song => ui.firstValue song tagName = v) l))
  /\ (forall l l', songs = Some l -> l ≡ₚ l' ->
        ui.getCommonTagValue (Some l') tagName = ui.getCommonTagValue songs tagName).
Proof.
  split; [intros v Hv; by apply getCommonTagValue_common|].
  intros l l' -> Hperm.
  assert (Hone : forall a b : list (option ui.Song), a ≡ₚ b -> forall w, w <> "" ->
            ui.getCommonTagValue (Some a) tagName = w ->
            ui.getCommonTagValue (Some b) tagName = w).
  { intros a b Hab w Hw Ha.
    apply getCommonTagValue_common in Ha as (a' & [= <-] & Hne & Hall); [|done].
    apply getCommonTagValue_common; [done|]. exists b. split; [done|]. split.
    - intros ->. apply Permutation_nil_r in Hab. done.
    - by rewrite <- Hab. }
  destruct (decide (ui.getCommonTagValue (Some l) tagName = "")) as [E|E].
  - rewrite E.
    destruct (decide (ui.getCommonTagValue (Some l') tagName = "")) as [E'|E'];
      [done|].
    exfalso. apply E'. rewrite <- E. symmetry.
    by apply (Hone l' l); [symmetry| |].
  - by apply (Hone l l').
Qed.

(** Two songs with energy high, in either order. *)
Lemma getCommonTagValue_is_the_common_value_witness :
  let high := Some {| ui.tags := Some {[ "energy" := ["high"] ]} |} in
  let highToo := Some {| ui.tags := Some {[ "energy" := ["high"; "x"];
                                            "mood" := ["neutral"] ]} |} in
  ui.getCommonTagValue (Some [high; highToo]) "energy" = "high"
  /\ ui.getCommonTagValue (Some [highToo; high]) "energy"
     = ui.getCommonTagValue (Some [high; highToo]) "energy".
Proof.
  cbv zeta. split.
  - apply (proj1 (getCommonTagValue_is_the_common_value _ "energy") "high"
             ltac:(discriminate)).
    eexists. split; [reflexivity|]. split; [discriminate|].
    repeat constructor.
  - apply (proj2 (getCommonTagValue_is_the_common_value _ "energy") _ _ eq_refl).
    apply Permutation_swap.
Defined.

Section buttons.
Context {W L : Type} (S : Sys W L).
Import nativeapi_song_tag.

Lemma firstValue_stored (mf : MediaFile) (name v : string) (now : Z) :
  let tags := default ∅ (Tags mf) in
  let tags' := if String.eqb v "" then delete name tags else <[name := [v]]> tags in
  let mf' := set_UpdatedAt now (set_Tags (Some tags') mf) in
  ui.firstValue (Some {| ui.tags := Tags mf' |}) name = v.
Proof.
  cbv zeta. unfold ui.firstValue. simpl.
  destruct (String.eqb v "") eqn:Ev.
  - apply String.eqb_eq in Ev. by rewrite lookup_delete_eq.
  - by rewrite lookup_insert_eq.
Qed.

(** X24. The buttons and the handlers agree.  A click on an energy or mood
    button sends the value of the button, or '' when that value is the
    one shown; what is sent is always a value the handler accepts; and
    when the handler answers with JSON, a song record carrying the tags
    it stored shows exactly what was sent, so a click on the value shown
    clears the field and a click on another value selects it. *)
Theorem buttons_agree_with_handlers (id value current : string) (st : State W) :
  (In value ui.ENERGY_VALUES ->
   let sent := ui.newValue value current in
   let out := setEnergy S id (inl {| energyValue := sent |}) st in
   Contains validEnergyValues sent = true
   /\ (forall resp, fst (fst out) = HttpJSON resp ->
         exists mf, snd (fst out) = Some mf
                    /\ ui.firstValue (Some {| ui.tags := Tags mf |}) "energy" = sent
                    /\ ui.newValue value sent
                       = (if String.eqb value current then value else "")))
  /\ (In value ui.MOOD_VALUES ->
      let sent := ui.newValue value current in
      let out := setMood S id (inl {| moodValue := sent |}) st in
      Contains validMoodValues sent = true
      /\ (forall resp, fst (fst out) = HttpJSON resp ->
            exists mf, snd (fst out) = Some mf
                       /\ ui.firstValue (Some {| ui.tags := Tags mf |}) "mood" = sent
                       /\ ui.newValue value sent
                          = (if String.eqb value current then value else ""))).
Proof.
  split; intros Hin; cbv zeta.
  - assert (Hsent : Contains validEnergyValues (ui.newValue value current) = true
                    /\ ui.newValue value (ui.newValue value current)
                       = (if String.eqb value current then value else "")).
    { unfold ui.newValue.
      destruct Hin as [<-|[<-|[<-|[]]]];
        destruct (String.eqb _ current); split; reflexivity. }
    destruct Hsent as [Hok Htoggle]. split; [exact Hok|].
    generalize dependent (ui.newValue value current). intros sent Hok Htoggle resp.
    unfold setEnergy, bind, call, ret. cbn [energyValue]. rewrite Hok. cbn [negb].
    destruct (ds_Get S id (world st)) as [[mf|e] w1].
    2:{ by destruct (errors_Is e ErrNotFound). }
    destruct (taglib.WriteTag _ _ "ENERGY" sent _) as [[e|] st2]; [done|].
    destruct (time_Now S (world st2)) as [now w3]. cbn [world log].
    match goal with |- context [ds_Put S ?m w3] =>
      destruct (ds_Put S m w3) as [[e|] w4] end; [done|].
    cbn [fst snd]. intros _. eexists. split; [reflexivity|]. split; [|exact Htoggle].
    apply firstValue_stored.
  - assert (Hsent : Contains validMoodValues (ui.newValue value current) = true
                    /\ ui.newValue value (ui.newValue value current)
                       = (if String.eqb value current then value else "")).
    { unfold ui.newValue.
      destruct Hin as [<-|[<-|[<-|[]]]];
        destruct (String.eqb _ current); split; reflexivity. }
    destruct Hsent as [Hok Htoggle]. split; [exact Hok|].
    generalize dependent (ui.newValue value current). intros sent Hok Htoggle resp.
    unfold setMood, bind, call, ret. cbn [moodValue]. rewrite Hok. cbn [negb].
    destruct (ds_Get S id (world st)) as [[mf|e] w1].
    2:{ by destruct (errors_Is e ErrNotFound). }
    destruct (taglib.WriteTag _ _ "MOOD" sent _) as [[e|] st2]; [done|].
    destruct (time_Now S (world st2)) as [now w3]. cbn [world log].
    match goal with |- context [ds_Put S ?m w3] =>
      destruct (ds_Put S m w3) as [[e|] w4] end; [done|].
    cbn [fst snd]. intros _. eexists. split; [reflexivity|]. split; [|exact Htoggle].
    apply firstValue_stored.
Qed.
End buttons.

(** A click on high when nothing is shown, then a click on high again: the
    song shows high, then nothing. *)
Lemma buttons_agree_with_handlers_witness :
  let st := start (sim.worldWith [] []) in
  let first := nativeapi_song_tag.setEnergy (sim.system "key") "s1"
                 (inl {| nativeapi_song_tag.energyValue := ui.newValue "high" "" |})
                 st in
  let second := nativeapi_song_tag.setEnergy (sim.system "key") "s1"
                  (inl {| nativeapi_song_tag.energyValue := ui.newValue "high" "high" |})
                  (snd first) in
  (exists mf, snd (fst first) = Some mf
              /\ ui.firstValue (Some {| ui.tags := Tags mf |}) "energy" = "high")
  /\ (exists mf, snd (fst second) = Some mf
                 /\ ui.firstValue (Some {| ui.tags := Tags mf |}) "energy" = "").
Proof.
  cbv zeta. split.
  - destruct (proj2 (proj1 (buttons_agree_with_handlers (sim.system "key") "s1"
                              "high" "" (start (sim.worldWith [] [])))
                       ltac:(right; right; left; reflexivity))
                {| nativeapi_song_tag.energyID := "s1";
                   nativeapi_song_tag.Energy := "high" |}
                ltac:(vm_compute; reflexivity))
      as (mf & Hmf & Hshown & _).
    exists mf. split; [exact Hmf|exact Hshown].
  - destruct (proj2 (proj1 (buttons_agree_with_handlers (sim.system "key") "s1"
                              "high" "high"
                              (snd (nativeapi_song_tag.setEnergy (sim.system "key") "s1"
                                      (inl {| nativeapi_song_tag.energyValue :=
                                                ui.newValue "high" "" |})
                                      (start (sim.worldWith [] [])))))
                       ltac:(right; right; left; reflexivity))
                {| nativeapi_song_tag.energyID := "s1";
                   nativeapi_song_tag.Energy := "" |}
                ltac:(vm_compute; reflexivity))
      as (mf & Hmf & Hshown & _).
    exists mf. split; [exact Hmf|exact Hshown].
Defined.
